(** * Vehicle tracking backend: route handlers and their validation rules

    A shallow embedding of the Express route handlers of
    [backend/routes/vehicle.js] and [backend/routes/user.js], of the Mongoose
    vehicle model, and of the coordinate checks of the simulator and of the
    dashboard, followed by the properties the specification states about
    them.

    JavaScript numbers are IEEE 754 binary64 values, so they are modelled by
    Rocq's primitive floats; strings are sequences of UTF-16 code units; a
    Mongo collection is the list of its documents in insertion order. A
    handler is a function from the collection and the request to the
    response and the collection it leaves. The store answers every
    operation: a lost connection, which the routes turn into status 500,
    is outside the model. What the handlers call and the repository does
    not define (the parsing of numbers and dates from strings, bcrypt) is
    a parameter, the class [Host]. *)

From Stdlib Require Import ZArith NArith QArith List Bool String Ascii Lia.
From Stdlib Require Import Floats Permutation Sorted.
Import ListNotations.

Close Scope Q_scope.

Set Warnings "-register-all".

(* ================================================================== *)
(** * JavaScript numbers *)
(* ================================================================== *)

(** A number of the source. *)
Definition number := float.
Bind Scope float_scope with number.

Module Num.

(** The relational operators of the source, on numbers. Every comparison
    with NaN is false. *)
Definition lt (x y : number) : bool := (x <? y)%float.
Definition gt (x y : number) : bool := (y <? x)%float.
Definition le (x y : number) : bool := (x <=? y)%float.
Definition ge (x y : number) : bool := (y <=? x)%float.

(** [x] lies in the closed interval from [lo] to [hi]. *)
Definition between (lo hi x : number) : bool := le lo x && le x hi.

End Num.

(** The rational a number denotes: a finite number is its mantissa times
    a power of two, with its sign; NaN and the infinities denote none. *)
Definition SFexact (f : spec_float) : option Q :=
  match f with
  | S754_zero _ => Some (0 # 1)%Q
  | S754_finite s m e =>
      let n := if s then Z.neg m else Z.pos m in
      Some (match e with
            | Zneg p => Qmake n (2 ^ p)%positive
            | _ => Qmake (n * 2 ^ e)%Z 1
            end)
  | S754_infinity _ | S754_nan => None
  end.

Definition exact (x : number) : option Q := SFexact (Prim2SF x).

Arguments Num.lt (x y)%_float_scope.
Arguments Num.gt (x y)%_float_scope.
Arguments Num.le (x y)%_float_scope.
Arguments Num.ge (x y)%_float_scope.
Arguments Num.between (lo hi x)%_float_scope.

(* ================================================================== *)
(** * JavaScript strings *)
(* ================================================================== *)

Module JSString.

(** A string is its sequence of UTF-16 code units; [length] is then the
    [.length] of the source and [===] on strings is equality of the
    sequences. *)
Definition jsstring := list N.

(** The string denoted by an ASCII literal of the source. *)
Definition lit (s : string) : jsstring :=
  map N_of_ascii (list_ascii_of_string s).

Definition eqb (s t : jsstring) : bool :=
  if list_eq_dec N.eq_dec s t then true else false.

Definition isEmpty (s : jsstring) : bool :=
  match s with [] => true | _ :: _ => false end.

(** Code units removed by [String.prototype.trim]: the WhiteSpace and
    LineTerminator productions of ECMA-262. *)
Definition isWhiteSpace (c : N) : bool :=
  existsb (N.eqb c)
    [9; 10; 11; 12; 13; 32; 160; 5760; 8232; 8233; 8239; 8287; 12288; 65279]%N
  || ((8192 <=? c) && (c <=? 8202))%N.

Fixpoint trimStart (s : jsstring) : jsstring :=
  match s with
  | [] => []
  | c :: s' => if isWhiteSpace c then trimStart s' else s
  end.

Definition trimEnd (s : jsstring) : jsstring := rev (trimStart (rev s)).

Definition trim (s : jsstring) : jsstring := trimEnd (trimStart s).

End JSString.

Import JSString.

(* ================================================================== *)
(** * Values of a parsed JSON request body *)
(* ================================================================== *)

Definition ObjectId := nat.

(** Milliseconds since the epoch: the time value of a valid [Date]. *)
Definition Date := Z.
Bind Scope Z_scope with Date.

(** What a field of [req.body] can hold where the handlers accept more than
    a string: [Undefined] stands for an absent field. Arrays and objects
    are left out. *)
Inductive value : Type :=
| Undefined
| Null
| Bool (b : bool)
| Num (x : number)
| Str (s : jsstring).

(** [v === undefined]. *)
Definition isUndefined (v : value) : bool :=
  match v with Undefined => true | _ => false end.

(** ToBoolean, as the conditional operator and [!] apply it. *)
Definition truthy (v : value) : bool :=
  match v with
  | Undefined | Null => false
  | Bool b => b
  | Num x => negb ((x =? 0)%float || is_nan x)
  | Str s => negb (isEmpty s)
  end.

(** [!s] for a field that is a string when present. *)
Definition missing (s : option jsstring) : bool :=
  match s with
  | None => true
  | Some s => isEmpty s
  end.

(** The text of a present field, the empty string otherwise. *)
Definition text (s : option jsstring) : jsstring :=
  match s with Some s => s | None => [] end.

(** The integer part of a finite number (ToIntegerOrInfinity). *)
Definition truncate (x : number) : option Z :=
  match Prim2SF x with
  | S754_zero _ => Some 0%Z
  | S754_finite s m e =>
      let a := if (0 <=? e)%Z then (Z.pos m * 2 ^ e)%Z
               else (Z.pos m / 2 ^ (- e))%Z in
      Some (if s then (- a)%Z else a)
  | S754_infinity _ | S754_nan => None
  end.

(** TimeClip: a time value is at most 8.64e15 ms away from the epoch. *)
Definition timeClip (t : option Z) : option Date :=
  match t with
  | Some t => if (Z.abs t <=? 8640000000000000)%Z then Some t else None
  | None => None
  end.

(** The runtime and library functions the handlers call and the repository
    does not define. *)
Class Host : Type := {
  (** [parseFloat] on a string: the number denoted by its longest prefix
      that is a decimal literal, NaN when there is none. *)
  parseFloatString : jsstring -> number;
  (** [Date.parse]; [None] is the invalid date. *)
  dateParse : jsstring -> option Date;
  (** [bcrypt.hash(password, saltRounds)], from the salt it draws, the
      rounds and the password. *)
  bcryptHash : jsstring -> nat -> jsstring -> jsstring;
  (** [bcrypt.compare(password, hash)]. *)
  bcryptCompare : jsstring -> jsstring -> bool
}.

(** A host for running the handlers on requests whose coordinates and
    timestamps are numbers: it reads no number and no date from a string,
    and its hash keeps the password in clear behind the salt, which is
    enough to run the user routes and is no model of bcrypt. *)
Definition numericHost : Host := {|
  parseFloatString := fun _ => nan;
  dateParse := fun _ => None;
  bcryptHash := fun salt _ password => salt ++ password;
  bcryptCompare := fun password hash =>
    JSString.eqb (skipn (List.length hash - List.length password) hash) password
|}.

Section Builtins.

Context {host : Host}.

(** [parseFloat(v)] converts [v] to a string and reads a number back. A
    number survives the round trip, except that the sign of zero is lost;
    [undefined], [null] and the booleans print as words that are no
    number. *)
Definition parseFloat (v : value) : number :=
  match v with
  | Num x => if (x =? 0)%float then 0%float else x
  | Str s => parseFloatString s
  | Undefined | Null | Bool _ => nan
  end.

(** [new Date(v)]; [None] is the invalid date. *)
Definition newDate (v : value) : option Date :=
  match v with
  | Str s => dateParse s
  | Num x => timeClip (truncate x)
  | Bool b => Some (if b then 1%Z else 0%Z)
  | Null => Some 0%Z
  | Undefined => None
  end.

End Builtins.

(* ================================================================== *)
(** * Messages and response bodies *)
(* ================================================================== *)

(** A template literal of the source: literal text with interpolated
    numbers and strings. *)
Inductive fragment : Type :=
| Lit (s : string)
| NumberIn (x : number)
| StringIn (s : jsstring).

Definition message := list fragment.

(** The double quote, which the templates put around names. *)
Definition quote : fragment := Lit (String (ascii_of_nat 34) EmptyString).

(** The argument of [res.json]. *)
Inductive json : Type :=
| JNull
| JBool (b : bool)
| JNum (x : number)
| JStr (s : jsstring)
| JText (m : message)
| JDate (d : Date)
| JId (i : ObjectId)
| JArr (items : list json)
| JObj (fields : list (string * json)).

Record response : Type := {
  status : nat;
  body : json
}.

Definition field (o : json) (k : string) : option json :=
  match o with
  | JObj fs =>
      match find (fun kv => String.eqb (fst kv) k) fs with
      | Some kv => Some (snd kv)
      | None => None
      end
  | _ => None
  end.

Definition keys (o : json) : list string :=
  match o with
  | JObj fs => map fst fs
  | _ => []
  end.

(** Whether some object inside [j] has a field named [k]. *)
Fixpoint mentions (k : string) (j : json) : bool :=
  match j with
  | JArr items => existsb (mentions k) items
  | JObj fs =>
      existsb (fun kv => String.eqb (fst kv) k || mentions k (snd kv)) fs
  | _ => false
  end.

(** [{ success: false, error }], the failure envelope of the vehicle
    routes; a property whose value is [undefined] is not serialised. *)
Definition failure (e : option message) : json :=
  JObj (("success", JBool false)
        :: match e with Some m => [("error", JText m)] | None => [] end)%string.

(** What the runtime supplies during one request: the identifier of a new
    document, the salt a hash draws and the clock readings, named after
    their use (for [lastUpdated], for the [timestamp] of a history entry,
    and for the timestamps [save] manages). *)
Record Ambient : Type := {
  freshId : ObjectId;
  salt : jsstring;
  atLastUpdated : Date;
  atTimestamp : Date;
  atSave : Date
}.

(* ================================================================== *)
(** * The vehicle model ([models/vehicle.js]) *)
(* ================================================================== *)

Module Vehicle.

(** [locationHistorySchema]. *)
Record entry : Type := {
  entryLat : number;
  entryLng : number;
  timestamp : Date
}.

(** [vehicleSchema], with the [_id] every document has and the
    [createdAt] and [updatedAt] of the [timestamps] option. *)
Record t : Type := {
  _id : ObjectId;
  name : jsstring;
  lat : number;
  lng : number;
  lastUpdated : Date;
  locationHistory : list entry;
  createdAt : Date;
  updatedAt : Date
}.

Definition entryJSON (e : entry) : json :=
  JObj [("lat", JNum (entryLat e));
        ("lng", JNum (entryLng e));
        ("timestamp", JDate (timestamp e))]%string.

(** A document as [res.json] serialises it. *)
Definition toJSON (v : t) : json :=
  JObj [("_id", JId (_id v));
        ("name", JStr (name v));
        ("lat", JNum (lat v));
        ("lng", JNum (lng v));
        ("lastUpdated", JDate (lastUpdated v));
        ("locationHistory", JArr (map entryJSON (locationHistory v)));
        ("createdAt", JDate (createdAt v));
        ("updatedAt", JDate (updatedAt v))]%string.

(** The collection: its documents, oldest insertion first. *)
Definition collection := list t.

(** [Vehicle.findOne({ name })]: the filter is cast by the schema, whose
    [trim] setter runs on the string of the filter as it does on a name
    that is stored; the first document whose name is the trimmed string
    is found. *)
Definition findOne (n : jsstring) (c : collection) : option t :=
  find (fun v => JSString.eqb (name v) (trim n)) c.

(** [Vehicle.findById(id)]. *)
Definition findById (i : ObjectId) (c : collection) : option t :=
  find (fun v => Nat.eqb (_id v) i) c.

(** One step of the sort on [lastUpdated], latest first. *)
Fixpoint insertLatest (v : t) (c : collection) : collection :=
  match c with
  | [] => [v]
  | w :: c' =>
      if (lastUpdated w <=? lastUpdated v)%Z then v :: c
      else w :: insertLatest v c'
  end.

(** [Vehicle.find().sort({ lastUpdated: -1 })]. *)
Definition findSorted (c : collection) : collection :=
  fold_right insertLatest [] c.

(** [new Vehicle({ name, lat, lng, lastUpdated, locationHistory })] with
    the history of one entry the create route gives it: the setter of
    [name] trims it, and the timestamps are those [save] will set. *)
Definition new (amb : Ambient) (n : jsstring) (parsedLat parsedLng : number)
  : t :=
  {| _id := freshId amb;
     name := trim n;
     lat := parsedLat;
     lng := parsedLng;
     lastUpdated := atLastUpdated amb;
     locationHistory :=
       [{| entryLat := parsedLat;
           entryLng := parsedLng;
           timestamp := atTimestamp amb |}];
     createdAt := atSave amb;
     updatedAt := atSave amb |}.

(** The validators of the schema that [save] runs: [name] is required,
    and a required string may not be empty. The numbers and dates of a
    document are well typed by construction. *)
Definition validates (v : t) : bool := negb (isEmpty (name v)).

(** [save] on a document made by [new Vehicle]: it is inserted unless
    validation fails, and then [save] throws. *)
Definition insertOne (v : t) (c : collection) : option collection :=
  if validates v then Some (c ++ [v]) else None.

(** [save] on a document that was read from the collection: the stored
    document with its [_id] is replaced. *)
Fixpoint replaceOne (v : t) (c : collection) : collection :=
  match c with
  | [] => []
  | w :: c' =>
      if Nat.eqb (_id w) (_id v) then v :: c' else w :: replaceOne v c'
  end.

(** [findOneAndDelete({ name })]: the filter is cast as for [findOne],
    and the first document whose name is the trimmed string is removed. *)
Fixpoint deleteOne (n : jsstring) (c : collection) : collection :=
  match c with
  | [] => []
  | w :: c' =>
      if JSString.eqb (name w) (trim n) then c' else w :: deleteOne n c'
  end.

(** [findByIdAndDelete(id)]. *)
Fixpoint deleteById (i : ObjectId) (c : collection) : collection :=
  match c with
  | [] => []
  | w :: c' => if Nat.eqb (_id w) i then c' else w :: deleteById i c'
  end.

End Vehicle.

(** The fields the vehicle routes read from [req.body]. *)
Record VehicleRequest : Type := {
  reqName : option jsstring;
  reqLat : value;
  reqLng : value;
  reqLastUpdated : value
}.

(* ================================================================== *)
(** * The vehicle routes ([routes/vehicle.js]) *)
(* ================================================================== *)

(** The object [validateCoordinates] returns. *)
Record validation : Type := {
  valid : bool;
  error : option message
}.

Definition accept : validation := {| valid := true; error := None |}.
Definition reject (m : message) : validation :=
  {| valid := false; error := Some m |}.

(** [validateCoordinates(lat, lng)] of the routes. *)
Definition validateCoordinates (lat lng : value) : validation :=
  match lat, lng with
  | Num lat, Num lng =>
      if Num.lt lat (-90) || Num.gt lat 90 then
        reject [Lit "Invalid latitude: "; NumberIn lat;
                Lit ". Must be between -90 and 90"]
      else if Num.lt lng (-180) || Num.gt lng 180 then
        reject [Lit "Invalid longitude: "; NumberIn lng;
                Lit ". Must be between -180 and 180"]
      else if is_nan lat || is_nan lng then
        reject [Lit "Coordinates cannot be NaN"]
      else accept
  | _, _ => reject [Lit "Coordinates must be numbers"]
  end.

(** [array.slice(-k)]: the last [k] elements. *)
Definition sliceLast {A : Type} (k : nat) (l : list A) : list A :=
  skipn (List.length l - k) l.

(** [map(f).filter(v => v !== null)] for an [f] that answers [null] by
    [None]. *)
Fixpoint mapNotNull {A B : Type} (f : A -> option B) (l : list A) : list B :=
  match l with
  | [] => []
  | a :: l' =>
      match f a with
      | Some b => b :: mapNotNull f l'
      | None => mapNotNull f l'
      end
  end.

Section VehicleRoutes.

Context {host : Host}.

(** The callback of [vehicles.map] in [GET /]. *)
Definition transform (vehicle : Vehicle.t) : option json :=
  let lat := parseFloat (Num (Vehicle.lat vehicle)) in
  let lng := parseFloat (Num (Vehicle.lng vehicle)) in
  let validation := validateCoordinates (Num lat) (Num lng) in
  if negb (valid validation) then None
  else Some (JObj [("_id", JId (Vehicle._id vehicle));
                   ("name", JStr (Vehicle.name vehicle));
                   ("lat", JNum lat);
                   ("lng", JNum lng);
                   ("latitude", JNum lat);
                   ("longitude", JNum lng);
                   ("lastActive", JDate (Vehicle.lastUpdated vehicle));
                   ("lastUpdated", JDate (Vehicle.lastUpdated vehicle));
                   ("locationHistory",
                    JArr (map Vehicle.entryJSON
                            (Vehicle.locationHistory vehicle)));
                   ("createdAt", JDate (Vehicle.createdAt vehicle));
                   ("updatedAt", JDate (Vehicle.updatedAt vehicle))]%string).

(** [GET /]. *)
Definition listVehicles (db : Vehicle.collection) : response :=
  let vehicles := Vehicle.findSorted db in
  let transformedVehicles := mapNotNull transform vehicles in
  {| status := 200; body := JArr transformedVehicles |}.

(** [POST /]: the response and the collection it leaves. *)
Definition createVehicle (amb : Ambient) (db : Vehicle.collection)
    (req : VehicleRequest) : response * Vehicle.collection :=
  let name := reqName req in
  let lat := reqLat req in
  let lng := reqLng req in
  if missing name || isUndefined lat || isUndefined lng then
    ({| status := 400;
        body := failure
          (Some [Lit "Vehicle name, latitude, and longitude are required"]) |},
     db)
  else
    let parsedLat := parseFloat lat in
    let parsedLng := parseFloat lng in
    let validation := validateCoordinates (Num parsedLat) (Num parsedLng) in
    if negb (valid validation) then
      ({| status := 400; body := failure (error validation) |}, db)
    else
      match Vehicle.findOne (trim (text name)) db with
      | Some existingVehicle =>
          ({| status := 400;
              body := failure
                (Some [Lit "Vehicle with name "; quote; StringIn (text name);
                       quote; Lit " already exists"]) |},
           db)
      | None =>
          let newVehicle := Vehicle.new amb (trim (text name)) parsedLat parsedLng in
          match Vehicle.insertOne newVehicle db with
          | Some db' =>
              ({| status := 201;
                  body := JObj [("success", JBool true);
                                ("message",
                                 JText [Lit "Vehicle added successfully"]);
                                ("vehicle", Vehicle.toJSON newVehicle)]%string |},
               db')
          | None =>
              ({| status := 500;
                  body := failure (Some [Lit "Error creating vehicle"]) |},
               db)
          end
      end.

(** The assignments of [POST /update] to the document it found: the
    position, [lastUpdated], the pushed entry and the cut to the last
    100 entries. *)
Definition moved (amb : Ambient) (vehicle : Vehicle.t)
    (parsedLat parsedLng : number) (lastUpdated : Date) : Vehicle.t :=
  let pushed :=
    Vehicle.locationHistory vehicle
    ++ [{| Vehicle.entryLat := parsedLat;
           Vehicle.entryLng := parsedLng;
           Vehicle.timestamp := atTimestamp amb |}] in
  {| Vehicle._id := Vehicle._id vehicle;
     Vehicle.name := Vehicle.name vehicle;
     Vehicle.lat := parsedLat;
     Vehicle.lng := parsedLng;
     Vehicle.lastUpdated := lastUpdated;
     Vehicle.locationHistory :=
       if (100 <? List.length pushed)%nat then sliceLast 100 pushed
       else pushed;
     Vehicle.createdAt := Vehicle.createdAt vehicle;
     Vehicle.updatedAt := atSave amb |}.

(** [POST /update]: the response and the collection it leaves. A document
    whose [lastUpdated] was assigned the invalid date is refused by
    [save], and the [catch] of the route answers 500. *)
Definition updateVehicle (amb : Ambient) (db : Vehicle.collection)
    (req : VehicleRequest) : response * Vehicle.collection :=
  let name := reqName req in
  let lat := reqLat req in
  let lng := reqLng req in
  let lastUpdated := reqLastUpdated req in
  if missing name || isUndefined lat || isUndefined lng then
    ({| status := 400;
        body := failure (Some [Lit "Name, lat, and lng are required"]) |},
     db)
  else
    let parsedLat := parseFloat lat in
    let parsedLng := parseFloat lng in
    let validation := validateCoordinates (Num parsedLat) (Num parsedLng) in
    if negb (valid validation) then
      ({| status := 400; body := failure (error validation) |}, db)
    else
      match Vehicle.findOne (text name) db with
      | None =>
          ({| status := 404;
              body := failure
                (Some [Lit "Vehicle "; quote; StringIn (text name); quote;
                       Lit " not found"]) |},
           db)
      | Some vehicle =>
          match (if truthy lastUpdated then newDate lastUpdated
                 else Some (atLastUpdated amb)) with
          | Some date =>
              let vehicle' := moved amb vehicle parsedLat parsedLng date in
              ({| status := 200;
                  body := JObj [("success", JBool true);
                                ("message",
                                 JText [Lit "Vehicle updated successfully"]);
                                ("vehicle", Vehicle.toJSON vehicle')]%string |},
               Vehicle.replaceOne vehicle' db)
          | None =>
              ({| status := 500;
                  body := failure (Some [Lit "Error updating vehicle"]) |},
               db)
          end
      end.

(** [GET /:id]. *)
Definition getVehicle (db : Vehicle.collection) (id : ObjectId) : response :=
  match Vehicle.findById id db with
  | None =>
      {| status := 404; body := failure (Some [Lit "Vehicle not found"]) |}
  | Some vehicle =>
      let lat := parseFloat (Num (Vehicle.lat vehicle)) in
      let lng := parseFloat (Num (Vehicle.lng vehicle)) in
      let validation := validateCoordinates (Num lat) (Num lng) in
      if negb (valid validation) then
        {| status := 400; body := failure (error validation) |}
      else
        {| status := 200;
           body := JObj [("success", JBool true);
                         ("vehicle", Vehicle.toJSON vehicle)]%string |}
  end.

Definition deleted (deletedVehicle : Vehicle.t) : response :=
  {| status := 200;
     body := JObj [("success", JBool true);
                   ("message",
                    JText [Lit "Vehicle "; quote;
                           StringIn (Vehicle.name deletedVehicle); quote;
                           Lit " deleted permanently"]);
                   ("deletedVehicle", Vehicle.toJSON deletedVehicle)]%string |}.

(** [DELETE /:id]. *)
Definition deleteVehicle (db : Vehicle.collection) (id : ObjectId)
  : response * Vehicle.collection :=
  match Vehicle.findById id db with
  | None =>
      ({| status := 404; body := failure (Some [Lit "Vehicle not found"]) |},
       db)
  | Some deletedVehicle => (deleted deletedVehicle, Vehicle.deleteById id db)
  end.

(** [DELETE /name/:name]. *)
Definition deleteVehicleByName (db : Vehicle.collection) (name : jsstring)
  : response * Vehicle.collection :=
  match Vehicle.findOne name db with
  | None =>
      ({| status := 404; body := failure (Some [Lit "Vehicle not found"]) |},
       db)
  | Some deletedVehicle => (deleted deletedVehicle, Vehicle.deleteOne name db)
  end.

End VehicleRoutes.

(* ================================================================== *)
(** * The simulator's coordinate check *)
(* ================================================================== *)

Module Simulator.

(** [validateCoordinates(lat, lng)] of the simulator, which calls it on
    the numbers [parseFloat] returns; its result has no [error]. *)
Definition validateCoordinates (lat lng : number) : validation :=
  if is_nan lat || is_nan lng then {| valid := false; error := None |}
  else if Num.lt lat (-90) || Num.gt lat 90 then {| valid := false; error := None |}
  else if Num.lt lng (-180) || Num.gt lng 180 then {| valid := false; error := None |}
  else accept.

End Simulator.

(* ================================================================== *)
(** * The user model and the user routes ([routes/user.js]) *)
(* ================================================================== *)

Module User.

(** Modelled from the spec: the user model [models/user.js], which the
    routes require, is not among the sources. A user has an identifier, a
    [username], an [email], the hash of the password under [password] (the
    name the routes use) and the two store-managed timestamps; [save]
    persists the document. *)
Record t : Type := {
  _id : ObjectId;
  username : jsstring;
  email : jsstring;
  password : jsstring;
  createdAt : Date;
  updatedAt : Date
}.

Definition collection := list t.

(** [User.findOne({ $or: [{ username: u }, { email: e }] })]. *)
Definition findOneOr (u e : jsstring) (c : collection) : option t :=
  find (fun x => JSString.eqb (username x) u || JSString.eqb (email x) e) c.

(** [User.findOne({ username })]. *)
Definition findOne (u : jsstring) (c : collection) : option t :=
  find (fun x => JSString.eqb (username x) u) c.

Definition insertOne (u : t) (c : collection) : collection := c ++ [u].

End User.

(** The fields the user routes read from [req.body]. *)
Record UserRequest : Type := {
  reqUsername : option jsstring;
  reqEmail : option jsstring;
  reqPassword : option jsstring
}.

(** [{ success: false, message }], the failure envelope of the user
    routes. *)
Definition refusal (m : string) : json :=
  JObj [("success", JBool false); ("message", JText [Lit m])]%string.

(** The object literal every successful user route answers with. *)
Definition publicUser (user : User.t) : json :=
  JObj [("_id", JId (User._id user));
        ("username", JStr (User.username user));
        ("email", JStr (User.email user))]%string.

Section UserRoutes.

Context {host : Host}.

(** [POST /register]. The lookup before [save] leaves no duplicate for
    the store to refuse, so the branch of the [catch] for duplicate keys
    is not reached. *)
Definition register (amb : Ambient) (db : User.collection)
    (req : UserRequest) : response * User.collection :=
  let username := reqUsername req in
  let email := reqEmail req in
  let password := reqPassword req in
  if missing username || missing email || missing password then
    ({| status := 400;
        body := refusal "Please provide username, email, and password" |},
     db)
  else if (List.length (text password) <? 6)%nat then
    ({| status := 400;
        body := refusal "Password must be at least 6 characters long" |},
     db)
  else if (List.length (text username) <? 3)%nat then
    ({| status := 400;
        body := refusal "Username must be at least 3 characters long" |},
     db)
  else
    match User.findOneOr (text username) (text email) db with
    | Some existingUser =>
        ({| status := 400;
            body := refusal
              (if JSString.eqb (User.username existingUser) (text username)
               then "Username already exists"
               else "Email already exists") |},
         db)
    | None =>
        let saltRounds := 12%nat in
        let hashedPassword := bcryptHash (salt amb) saltRounds (text password) in
        let user :=
          {| User._id := freshId amb;
             User.username := text username;
             User.email := text email;
             User.password := hashedPassword;
             User.createdAt := atSave amb;
             User.updatedAt := atSave amb |} in
        ({| status := 201;
            body := JObj [("success", JBool true);
                          ("message", JText [Lit "User registered successfully"]);
                          ("user", publicUser user)]%string |},
         User.insertOne user db)
    end.

(** [POST /login]. *)
Definition login (db : User.collection) (req : UserRequest) : response :=
  let username := reqUsername req in
  let password := reqPassword req in
  if missing username || missing password then
    {| status := 400; body := refusal "Please provide username and password" |}
  else
    match User.findOneOr (text username) (text username) db with
    | None =>
        {| status := 401; body := refusal "Invalid username or password" |}
    | Some user =>
        let isPasswordValid := bcryptCompare (text password) (User.password user) in
        if negb isPasswordValid then
          {| status := 401; body := refusal "Invalid username or password" |}
        else
          {| status := 200;
             body := JObj [("success", JBool true);
                           ("message", JText [Lit "Login successful"]);
                           ("user", publicUser user)]%string |}
    end.

(** [GET /profile/:username]. *)
Definition profile (db : User.collection) (username : jsstring) : response :=
  match User.findOne username db with
  | None => {| status := 404; body := refusal "User not found" |}
  | Some user =>
      {| status := 200;
         body := JObj [("success", JBool true);
                       ("user", publicUser user)]%string |}
  end.

End UserRoutes.

(* ================================================================== *)
(** * The dashboard's coordinate check *)
(* ================================================================== *)

Module Dashboard.

(** [isValidCoordinate(lat, lng)] of the dashboard component, which
    filters the vehicles it draws. *)
Definition isValidCoordinate (lat lng : value) : bool :=
  match lat, lng with
  | Num lat, Num lng =>
      negb (is_nan lat) && negb (is_nan lng)
      && Num.ge lat (-90) && Num.le lat 90
      && Num.ge lng (-180) && Num.le lng 180
  | _, _ => false
  end.

End Dashboard.

(* ================================================================== *)
(** * The vocabulary of the specification *)
(* ================================================================== *)

(** The range the routes accept, as the specification writes it. *)
Definition inRange (lat lng : number) : Prop :=
  Num.between (-90) 90 lat = true /\ Num.between (-180) 180 lng = true.

(** The invariant of a vehicle record: its position is in range and is no
    NaN, and its history holds at most 100 entries. *)
Definition wellFormed (v : Vehicle.t) : Prop :=
  inRange (Vehicle.lat v) (Vehicle.lng v)
  /\ is_nan (Vehicle.lat v) = false
  /\ is_nan (Vehicle.lng v) = false
  /\ List.length (Vehicle.locationHistory v) <= 100.

(** The coordinate check applied to the position a record stores. *)
Definition storedCoordinatesValid (v : Vehicle.t) : bool :=
  valid (validateCoordinates (Num (Vehicle.lat v)) (Num (Vehicle.lng v))).

(** [v] may stand before [w] in a list sorted by [lastUpdated], latest
    first. *)
Definition notEarlier (v w : Vehicle.t) : Prop :=
  (Vehicle.lastUpdated w <= Vehicle.lastUpdated v)%Z.

(** The number [parseFloat] reads back from a stored number. *)
Definition readBack (x : number) : number :=
  if (x =? 0)%float then 0%float else x.

(** The element of the list response that shows a vehicle. *)
Definition listed (vehicle : Vehicle.t) : json :=
  JObj [("_id", JId (Vehicle._id vehicle));
        ("name", JStr (Vehicle.name vehicle));
        ("lat", JNum (readBack (Vehicle.lat vehicle)));
        ("lng", JNum (readBack (Vehicle.lng vehicle)));
        ("latitude", JNum (readBack (Vehicle.lat vehicle)));
        ("longitude", JNum (readBack (Vehicle.lng vehicle)));
        ("lastActive", JDate (Vehicle.lastUpdated vehicle));
        ("lastUpdated", JDate (Vehicle.lastUpdated vehicle));
        ("locationHistory",
         JArr (map Vehicle.entryJSON (Vehicle.locationHistory vehicle)));
        ("createdAt", JDate (Vehicle.createdAt vehicle));
        ("updatedAt", JDate (Vehicle.updatedAt vehicle))]%string.

(** How many vehicles of a collection bear a name. *)
Definition named (n : jsstring) (db : Vehicle.collection) : nat :=
  List.length (filter (fun v => JSString.eqb (Vehicle.name v) n) db).

Section Outcomes.

Context {host : Host}.

(** The coordinates of a request pass the check of the routes. *)
Definition coordinatesPass (req : VehicleRequest) : bool :=
  valid (validateCoordinates (Num (parseFloat (reqLat req)))
                             (Num (parseFloat (reqLng req)))).

(** The entry an update appends to the history. *)
Definition pushedEntry (amb : Ambient) (req : VehicleRequest) : Vehicle.entry :=
  {| Vehicle.entryLat := parseFloat (reqLat req);
     Vehicle.entryLng := parseFloat (reqLng req);
     Vehicle.timestamp := atTimestamp amb |}.

End Outcomes.

(** NotFoundError of the update route. *)
Definition notFound (n : jsstring) : response :=
  {| status := 404;
     body := failure (Some [Lit "Vehicle "; quote; StringIn n; quote;
                            Lit " not found"]) |}.

(** ConflictError of the create route. *)
Definition conflict (n : jsstring) : response :=
  {| status := 400;
     body := failure (Some [Lit "Vehicle with name "; quote; StringIn n; quote;
                            Lit " already exists"]) |}.

(** AuthError of the login route. *)
Definition authError : response :=
  {| status := 401; body := refusal "Invalid username or password" |}.

(** ValidationError of the register route: status 400 with one of the
    three messages of its input checks. *)
Definition validationError (res : response) : Prop :=
  status res = 400
  /\ In (body res)
       [refusal "Please provide username, email, and password";
        refusal "Password must be at least 6 characters long";
        refusal "Username must be at least 3 characters long"].

(** The same user with another value stored under [password]. *)
Definition withPassword (hash : jsstring) (user : User.t) : User.t :=
  {| User._id := User._id user;
     User.username := User.username user;
     User.email := User.email user;
     User.password := hash;
     User.createdAt := User.createdAt user;
     User.updatedAt := User.updatedAt user |}.

(** The answer of a user route to a request it serves. *)
Definition served (res : response) : bool :=
  Nat.eqb (status res) 200 || Nat.eqb (status res) 201.

Section Readings.

Context {host : Host}.

(** The claim on [lastUpdated] read to the letter: a successful update
    stores the date of the value the request supplies whenever it supplies
    one, and the current time when the field is absent. *)
Definition lastUpdatedAsSupplied : Prop :=
  forall amb db req res db' vehicle,
    updateVehicle amb db req = (res, db') ->
    status res = 200 ->
    Vehicle.findOne (text (reqName req)) db = Some vehicle ->
    exists vehicle',
      In vehicle' db'
      /\ Vehicle._id vehicle' = Vehicle._id vehicle
      /\ match reqLastUpdated req with
         | Undefined => Vehicle.lastUpdated vehicle' = atLastUpdated amb
         | supplied => newDate supplied = Some (Vehicle.lastUpdated vehicle')
         end.

(** The claim on unknown names read to the letter, names being compared
    as they are given: whenever no stored vehicle has the name of the
    request, the update answers NotFoundError and leaves the store as it
    was. *)
Definition notFoundWheneverAbsent : Prop :=
  forall amb db req n,
    reqName req = Some n -> n <> [] ->
    coordinatesPass req = true ->
    (forall v, In v db -> Vehicle.name v <> n) ->
    updateVehicle amb db req = (notFound n, db).

End Readings.

(* ================================================================== *)
(** * Sample data *)
(* ================================================================== *)

Module Sample.

Definition amb : Ambient :=
  {| freshId := 7;
     salt := lit "s4lt";
     atLastUpdated := 1700000000000;
     atTimestamp := 1700000000001;
     atSave := 1700000000002 |}.

Definition later : Ambient :=
  {| freshId := 8;
     salt := lit "p3pper";
     atLastUpdated := 1700000005000;
     atTimestamp := 1700000005001;
     atSave := 1700000005002 |}.

Definition car1 : Vehicle.t :=
  {| Vehicle._id := 1;
     Vehicle.name := lit "Car-1";
     Vehicle.lat := 23.8125;
     Vehicle.lng := 90.5;
     Vehicle.lastUpdated := 1600000000000;
     Vehicle.locationHistory :=
       [{| Vehicle.entryLat := 23.8125; Vehicle.entryLng := 90.5;
           Vehicle.timestamp := 1600000000000 |}];
     Vehicle.createdAt := 1600000000000;
     Vehicle.updatedAt := 1600000000000 |}.

(** A vehicle whose history is full: entries stamped 0 to 99. *)
Definition bus : Vehicle.t :=
  {| Vehicle._id := 2;
     Vehicle.name := lit "Bus";
     Vehicle.lat := 10;
     Vehicle.lng := 20;
     Vehicle.lastUpdated := 1650000000000;
     Vehicle.locationHistory :=
       map (fun k => {| Vehicle.entryLat := 10; Vehicle.entryLng := 20;
                        Vehicle.timestamp := Z.of_nat k |}) (seq 0 100);
     Vehicle.createdAt := 1600000000000;
     Vehicle.updatedAt := 1650000000000 |}.

(** A record whose stored latitude is out of range. *)
Definition stray : Vehicle.t :=
  {| Vehicle._id := 3;
     Vehicle.name := lit "Stray";
     Vehicle.lat := 123;
     Vehicle.lng := 20;
     Vehicle.lastUpdated := 1690000000000;
     Vehicle.locationHistory := [];
     Vehicle.createdAt := 1600000000000;
     Vehicle.updatedAt := 1690000000000 |}.

(** A record whose name is stored with white space around it, as no
    document saved through the schema is. *)
Definition padded : Vehicle.t :=
  {| Vehicle._id := 5;
     Vehicle.name := lit " Bus ";
     Vehicle.lat := 10;
     Vehicle.lng := 20;
     Vehicle.lastUpdated := 1640000000000;
     Vehicle.locationHistory := [];
     Vehicle.createdAt := 1600000000000;
     Vehicle.updatedAt := 1640000000000 |}.

(** A record outside the invariant: its latitude is out of range and
    its history has 150 entries. *)
Definition overgrown : Vehicle.t :=
  {| Vehicle._id := 4;
     Vehicle.name := lit "Overgrown";
     Vehicle.lat := 123;
     Vehicle.lng := 20;
     Vehicle.lastUpdated := 1690000000000;
     Vehicle.locationHistory :=
       map (fun k => {| Vehicle.entryLat := 123; Vehicle.entryLng := 20;
                        Vehicle.timestamp := Z.of_nat k |}) (seq 0 150);
     Vehicle.createdAt := 1600000000000;
     Vehicle.updatedAt := 1690000000000 |}.

Definition at_ (n : string) (lat lng : number) : VehicleRequest :=
  {| reqName := Some (lit n);
     reqLat := Num lat;
     reqLng := Num lng;
     reqLastUpdated := Undefined |}.

(** The same request with a [lastUpdated] field. *)
Definition stamped (req : VehicleRequest) (v : value) : VehicleRequest :=
  {| reqName := reqName req;
     reqLat := reqLat req;
     reqLng := reqLng req;
     reqLastUpdated := v |}.

Definition alice : User.t :=
  {| User._id := 11;
     User.username := lit "alice";
     User.email := lit "alice@example.org";
     User.password := lit "s4ltwonderland";
     User.createdAt := 1600000000000;
     User.updatedAt := 1600000000000 |}.

Definition credentials (u e p : string) : UserRequest :=
  {| reqUsername := Some (lit u);
     reqEmail := Some (lit e);
     reqPassword := Some (lit p) |}.

End Sample.

(* ================================================================== *)
(** * The simulator's movement and the add-vehicle form *)
(* ================================================================== *)

(** A number after [JSON.stringify] and [JSON.parse], as the body of a
    request carries it: a finite number comes back as it was but for the
    sign of zero, and NaN and the infinities are sent as [null]. *)
Definition overTheWire (x : number) : value :=
  if is_finite x then Num (readBack x) else Null.

Section Movement.

(** [parseFloat(x.toFixed(6))]: [x] rounded to six decimals. *)
Variable toFixed6 : number -> number.

(** [generateRandomMovement(baseLat, baseLng)] of the simulator, from the
    two numbers [Math.random()] returns. *)
#[warnings="-inexact-float"]
Definition generateRandomMovement (random1 random2 : number)
    (baseLat baseLng : number) : number * number :=
  let latOffset := ((random1 - 0.5) * 0.02)%float in
  let lngOffset := ((random2 - 0.5) * 0.02)%float in
  let newLat := toFixed6 (baseLat + latOffset)%float in
  let newLng := toFixed6 (baseLng + lngOffset)%float in
  let validation := Simulator.validateCoordinates newLat newLng in
  if negb (valid validation) then (baseLat, baseLng) else (newLat, newLng).

End Movement.

(** The body [updateVehiclePositions] posts to the update route for a
    vehicle: its name, the position [generateRandomMovement] returned and
    the time as an ISO string. *)
Definition simulatorUpdate (name : jsstring) (position : number * number)
    (lastUpdated : jsstring) : VehicleRequest :=
  {| reqName := Some name;
     reqLat := overTheWire (fst position);
     reqLng := overTheWire (snd position);
     reqLastUpdated := Str lastUpdated |}.

Module Form.

(** [formData] of the add-vehicle form: the text of its three inputs. *)
Record data : Type := {
  name : jsstring;
  lat : jsstring;
  lng : jsstring
}.

Section Validate.

Context {host : Host}.

(** [validateForm()]: the error it sets when it returns [false], [None]
    when it returns [true]. *)
Definition validateForm (formData : data) : option string :=
  if isEmpty (trim (name formData)) then
    Some "Vehicle name is required"%string
  else if (List.length (trim (name formData)) <? 2)%nat then
    Some "Vehicle name must be at least 2 characters long"%string
  else if isEmpty (lat formData) || isEmpty (lng formData) then
    Some "Both latitude and longitude are required"%string
  else
    let lat := parseFloat (Str (lat formData)) in
    let lng := parseFloat (Str (lng formData)) in
    if is_nan lat || is_nan lng then
      Some "Latitude and longitude must be valid numbers"%string
    else if Num.lt lat (-90) || Num.gt lat 90 then
      Some "Latitude must be between -90 and 90"%string
    else if Num.lt lng (-180) || Num.gt lng 180 then
      Some "Longitude must be between -180 and 180"%string
    else None.

(** [vehicleData] of [handleSubmit], as the create route receives it. *)
Definition vehicleData (formData : data) : VehicleRequest :=
  {| reqName := Some (trim (name formData));
     reqLat := overTheWire (parseFloat (Str (lat formData)));
     reqLng := overTheWire (parseFloat (Str (lng formData)));
     reqLastUpdated := Undefined |}.

End Validate.

End Form.

(** What [handleAddVehicle] of the dashboard does with its form: it
    alerts and returns, or posts a body to the create route. *)
Inductive submission : Type :=
  | Alert (m : message)
  | Posted (body : VehicleRequest).

Section AddVehicle.

Context {host : Host}.

(** [String.prototype.toLowerCase]. *)
Variable toLowerCase : jsstring -> jsstring.

(** [handleAddVehicle(e)] of the dashboard, from the names of the
    vehicles in its state and the text of the inputs in [newVehicle]. *)
Definition handleAddVehicle (vehicles : list jsstring)
    (newVehicle : Form.data) : submission :=
  let lat := parseFloat (Str (Form.lat newVehicle)) in
  let lng := parseFloat (Str (Form.lng newVehicle)) in
  let name := trim (Form.name newVehicle) in
  if isEmpty name then Alert [Lit "Vehicle name cannot be empty"]
  else if existsb (fun v => JSString.eqb (toLowerCase v) (toLowerCase name))
            vehicles then
    Alert [Lit "Vehicle "; quote; StringIn name; quote; Lit " already exists"]
  else if negb (Dashboard.isValidCoordinate (Num lat) (Num lng)) then
    Alert [Lit "Invalid coordinates"]
  else
    Posted {| reqName := Some name;
              reqLat := overTheWire lat;
              reqLng := overTheWire lng;
              reqLastUpdated := Undefined |}.

End AddVehicle.

(** The position of a document is that of the last entry of its
    history. *)
Definition lastEntryIsPosition (v : Vehicle.t) : Prop :=
  exists kept e,
    Vehicle.locationHistory v = kept ++ [e]
    /\ Vehicle.entryLat e = Vehicle.lat v
    /\ Vehicle.entryLng e = Vehicle.lng v.

(** The value of a decimal digit. *)
Definition digit (c : N) : option Z :=
  if ((48 <=? c) && (c <=? 57))%N then Some (Z.of_N c - 48)%Z else None.

(** The whole number written by the digits a string starts with, if it
    starts with one. *)
Fixpoint leadingDigits (read : option Z) (s : jsstring) : option Z :=
  match s with
  | [] => read
  | c :: s' =>
      match digit c with
      | Some d =>
          leadingDigits
            (Some (10 * match read with Some z => z | None => 0 end + d)%Z) s'
      | None => read
      end
  end.

(** A host for running the forms on inputs that are unsigned whole
    numbers: it reads the digits a string starts with, as [parseFloat]
    does for such a string, and no other number; its other functions are
    those of [numericHost]. *)
Definition wholeNumberHost : Host := {|
  parseFloatString := fun s =>
    match leadingDigits None s with
    | Some z => of_uint63 (Uint63.of_Z z)
    | None => nan
    end;
  dateParse := dateParse (Host := numericHost);
  bcryptHash := bcryptHash (Host := numericHost);
  bcryptCompare := bcryptCompare (Host := numericHost)
|}.

(* ================================================================== *)
(** * Facts about the comparison of numbers *)
(* ================================================================== *)

Module NumFacts.

(** The comparison of the standard is antisymmetric, reflexive off NaN,
    and undefined exactly on NaN. *)
Lemma SFcompare_antisym (a b : spec_float) :
  SFcompare b a = option_map CompOpp (SFcompare a b).
Proof.
  destruct a as [sa|sa| |sa ma ea], b as [sb|sb| |sb mb eb]; simpl;
    try reflexivity;
    try (destruct sa; reflexivity); try (destruct sb; reflexivity);
    try (destruct sa, sb; reflexivity).
  change (PosDef.Pos.compare_cont Eq mb ma) with (Pos.compare mb ma).
  change (PosDef.Pos.compare_cont Eq ma mb) with (Pos.compare ma mb).
  rewrite (Z.compare_antisym ea eb), (Pos.compare_antisym ma mb).
  destruct sa, sb; simpl; try reflexivity;
    destruct (ea ?= eb)%Z; simpl; try reflexivity.
  all: destruct (ma ?= mb)%positive; reflexivity.
Qed.

Lemma SFcompare_refl (a : spec_float) :
  a <> S754_nan -> SFcompare a a = Some Eq.
Proof.
  destruct a as [s|s| |s m e]; simpl; intros H; try reflexivity.
  - destruct s; reflexivity.
  - congruence.
  - change (PosDef.Pos.compare_cont Eq m m) with (Pos.compare m m).
    rewrite Z.compare_refl, Pos.compare_refl. destruct s; reflexivity.
Qed.

Lemma SFcompare_None (a b : spec_float) :
  SFcompare a b = None <-> a = S754_nan \/ b = S754_nan.
Proof.
  destruct a, b; simpl; split; intros H; try discriminate; auto;
    try (destruct H; discriminate).
Qed.

(** NaN is the number whose specification is [S754_nan]. *)
Lemma is_nan_spec (x : number) :
  is_nan x = true <-> Prim2SF x = S754_nan.
Proof.
  unfold is_nan. rewrite eqb_spec. unfold SFeqb. split.
  - intros H. destruct (Prim2SF x) eqn:E; try reflexivity;
      rewrite SFcompare_refl in H by discriminate; discriminate.
  - intros ->. reflexivity.
Qed.

Lemma is_nan_false (x : number) :
  is_nan x = false <-> Prim2SF x <> S754_nan.
Proof.
  rewrite <- is_nan_spec. destruct (is_nan x); split; congruence.
Qed.

(** [a <= b] holds exactly when [b < a] fails and neither is NaN. *)
Lemma le_iff_not_lt (a b : number) :
  Num.le a b = true <->
  Num.lt b a = false /\ is_nan a = false /\ is_nan b = false.
Proof.
  unfold Num.le, Num.lt. rewrite leb_spec, ltb_spec, !is_nan_false.
  unfold SFleb, SFltb. rewrite (SFcompare_antisym (Prim2SF a) (Prim2SF b)).
  destruct (SFcompare (Prim2SF a) (Prim2SF b)) as [c|] eqn:E.
  - assert (N : ~ (Prim2SF a = S754_nan \/ Prim2SF b = S754_nan)).
    { rewrite <- SFcompare_None. congruence. }
    destruct c; simpl; split; intros H; try discriminate;
      try (repeat split; tauto); destruct H; discriminate.
  - apply SFcompare_None in E. simpl. split; intros H; [discriminate|tauto].
Qed.

(** Membership in a closed interval with proper bounds, in the terms of
    the source: no bound is passed and the number is not NaN. *)
Lemma between_iff (lo hi x : number) :
  is_nan lo = false -> is_nan hi = false ->
  (Num.between lo hi x = true <->
   Num.lt x lo = false /\ Num.gt x hi = false /\ is_nan x = false).
Proof.
  intros Hlo Hhi. unfold Num.between, Num.gt.
  rewrite andb_true_iff, !le_iff_not_lt. unfold Num.lt. tauto.
Qed.

(** A number between two finite bounds is finite. *)
Lemma between_finite (lo hi x : number) :
  is_finite lo = true -> is_finite hi = true ->
  Num.between lo hi x = true -> is_finite x = true.
Proof.
  unfold is_finite, is_infinity, is_nan, Num.between, Num.le.
  rewrite !eqb_spec, !abs_spec, !leb_spec, andb_true_iff.
  change (Prim2SF infinity) with (S754_infinity false).
  destruct (Prim2SF lo) as [?|[]| |[] ? ?], (Prim2SF hi) as [?|[]| |[] ? ?],
    (Prim2SF x) as [[]|[]| |[] ? ?]; simpl; intros Hlo Hhi [H1 H2];
    try discriminate; try reflexivity.
  all: unfold SFeqb; simpl;
    change (PosDef.Pos.compare_cont Eq ?p ?p) with (Pos.compare p p);
    rewrite ?Z.compare_refl, ?Pos.compare_refl; reflexivity.
Qed.

(** Reading a number back from its decimal form changes neither how it
    compares nor whether it is NaN. *)
Lemma zero_normal_lt_l (x c : number) :
  Num.lt (if (x =? 0)%float then 0%float else x) c = Num.lt x c.
Proof.
  destruct (x =? 0)%float eqn:E; [|reflexivity].
  unfold Num.lt. rewrite !ltb_spec. rewrite eqb_spec in E.
  change (Prim2SF 0) with (S754_zero false) in *.
  destruct (Prim2SF x) as [?|[]| |[] ? ?]; try discriminate; reflexivity.
Qed.

Lemma zero_normal_lt_r (x c : number) :
  Num.lt c (if (x =? 0)%float then 0%float else x) = Num.lt c x.
Proof.
  destruct (x =? 0)%float eqn:E; [|reflexivity].
  unfold Num.lt. rewrite !ltb_spec. rewrite eqb_spec in E.
  change (Prim2SF 0) with (S754_zero false) in *.
  destruct (Prim2SF x) as [?|[]| |[] ? ?]; try discriminate; reflexivity.
Qed.

Lemma zero_normal_nan (x : number) :
  is_nan (if (x =? 0)%float then 0%float else x) = is_nan x.
Proof.
  destruct (x =? 0)%float eqn:E; [|reflexivity].
  destruct (is_nan x) eqn:Hn; [|reflexivity].
  apply is_nan_spec in Hn. rewrite eqb_spec, Hn in E. discriminate.
Qed.

Section Exact.

Local Open Scope Z_scope.

(** A mantissa of [d] binary digits lies between [2 ^ (d - 1)] and
    [2 ^ d]. *)
Lemma digits2_bounds (m : positive) :
  2 ^ (Z.pos (digits2_pos m) - 1) <= Z.pos m < 2 ^ Z.pos (digits2_pos m).
Proof.
  induction m as [m IH|m IH|]; cbn [digits2_pos].
  - rewrite Pos2Z.inj_succ.
    replace (Z.succ (Z.pos (digits2_pos m)) - 1)
      with (Z.succ (Z.pos (digits2_pos m) - 1)) by lia.
    rewrite !Z.pow_succ_r by lia. lia.
  - rewrite Pos2Z.inj_succ.
    replace (Z.succ (Z.pos (digits2_pos m)) - 1)
      with (Z.succ (Z.pos (digits2_pos m) - 1)) by lia.
    rewrite !Z.pow_succ_r by lia. lia.
  - simpl. lia.
Qed.

(** A mantissa and an exponent that make a binary64 number: the exponent
    is at least -1074, the mantissa has at most 53 digits, and exactly 53
    above the least exponent. *)
Lemma bounded_canonical (m : positive) (e : Z) :
  bounded prec emax m e = true ->
  -1074 <= e /\ Z.pos m < 2 ^ 53 /\ (-1074 < e -> 2 ^ 52 <= Z.pos m).
Proof.
  unfold bounded, canonical_mantissa, fexp, SpecFloat.emin, prec, emax.
  intros H. apply andb_true_iff in H as [H _]. apply Z.eqb_eq in H.
  pose proof (digits2_bounds m) as [L U].
  set (d := Z.pos (digits2_pos m)) in *.
  assert (D : d <= 53 /\ -1074 <= e /\ (-1074 < e -> d = 53)).
  { change (IntDef.Z.max) with Z.max in H. lia. }
  destruct D as (D1 & D2 & D3). split; [exact D2|]. split.
  - eapply Z.lt_le_trans; [exact U|]. apply Z.pow_le_mono_r; lia.
  - intros E. rewrite (D3 E) in L. exact L.
Qed.

(** Numerator and denominator of the rational a finite number denotes. *)
Lemma exact_num_den (s : bool) (m : positive) (e : Z) (q : Q) :
  SFexact (S754_finite s m e) = Some q ->
  Qnum q = (if s then Z.neg m else Z.pos m) * 2 ^ Z.max e 0
  /\ Z.pos (Qden q) = 2 ^ Z.max (- e) 0.
Proof.
  intros [= <-]. destruct e as [|p|p]; cbn [Qnum Qden].
  - split; reflexivity.
  - split; [now rewrite Z.max_l by lia|]. now rewrite Z.max_r by lia.
  - split.
    + rewrite Z.max_r by lia. now rewrite Z.mul_1_r.
    + rewrite Z.max_l by lia. now rewrite Pos2Z.inj_pow.
Qed.

(** Two positive binary64 numbers compare by their exponents first and by
    their mantissas next, as their values do. *)
Lemma magnitude_compare (ma mb : positive) (ea eb : Z) :
  bounded prec emax ma ea = true -> bounded prec emax mb eb = true ->
  (Z.pos ma * 2 ^ Z.max ea 0 * 2 ^ Z.max (- eb) 0
   ?= Z.pos mb * 2 ^ Z.max eb 0 * 2 ^ Z.max (- ea) 0)
  = match ea ?= eb with
    | Eq => (ma ?= mb)%positive
    | Lt => Lt
    | Gt => Gt
    end.
Proof.
  intros Ha Hb.
  apply bounded_canonical in Ha as (La & Ua & Na).
  apply bounded_canonical in Hb as (Lb & Ub & Nb).
  rewrite <- !Z.mul_assoc.
  rewrite <- (Z.pow_add_r 2 (Z.max ea 0) (Z.max (- eb) 0)) by lia.
  rewrite <- (Z.pow_add_r 2 (Z.max eb 0) (Z.max (- ea) 0)) by lia.
  set (A := Z.max ea 0 + Z.max (- eb) 0).
  set (B := Z.max eb 0 + Z.max (- ea) 0).
  assert (D : A - B = ea - eb) by (unfold A, B; lia).
  assert (PA : 0 <= A) by (unfold A; lia).
  assert (PB : 0 <= B) by (unfold B; lia).
  destruct (Z.compare_spec ea eb) as [E|E|E].
  - replace B with A by lia.
    rewrite <- Zmult_compare_compat_r; [reflexivity|].
    apply Z.lt_gt, Z.pow_pos_nonneg; lia.
  - apply Z.compare_lt_iff.
    replace B with (A + (eb - ea)) by lia.
    rewrite Z.pow_add_r by lia.
    assert (T : 2 ^ 1 <= 2 ^ (eb - ea)) by (apply Z.pow_le_mono_r; lia).
    assert (P : 0 < 2 ^ A) by (apply Z.pow_pos_nonneg; lia).
    specialize (Nb ltac:(lia)).
    change (2 ^ 1) with 2 in T. change (2 ^ 52) with 4503599627370496 in Nb.
    change (2 ^ 53) with 9007199254740992 in Ua.
    assert (S1 : Z.pos ma < Z.pos mb * 2 ^ (eb - ea)) by nia.
    rewrite (Z.mul_comm (2 ^ A)), Z.mul_assoc.
    now apply Z.mul_lt_mono_pos_r.
  - apply Z.compare_gt_iff.
    replace A with (B + (ea - eb)) by lia.
    rewrite Z.pow_add_r by lia.
    assert (T : 2 ^ 1 <= 2 ^ (ea - eb)) by (apply Z.pow_le_mono_r; lia).
    assert (P : 0 < 2 ^ B) by (apply Z.pow_pos_nonneg; lia).
    specialize (Na ltac:(lia)).
    change (2 ^ 1) with 2 in T. change (2 ^ 52) with 4503599627370496 in Na.
    change (2 ^ 53) with 9007199254740992 in Ub.
    assert (S1 : Z.pos mb < Z.pos ma * 2 ^ (ea - eb)) by nia.
    rewrite (Z.mul_comm (2 ^ B)), Z.mul_assoc.
    now apply Z.mul_lt_mono_pos_r.
Qed.

(** On the numbers that have a rational value, the comparison of the
    standard is the comparison of the values. *)
Lemma SFcompare_exact (a b : spec_float) (p q : Q) :
  valid_binary a = true -> valid_binary b = true ->
  SFexact a = Some p -> SFexact b = Some q ->
  SFcompare a b = Some (p ?= q)%Q.
Proof.
  intros Va Vb Ea Eb. unfold Qcompare.
  destruct a as [sa|sa| |sa ma ea]; try discriminate;
    destruct b as [sb|sb| |sb mb eb]; try discriminate.
  - injection Ea as <-. injection Eb as <-. reflexivity.
  - injection Ea as <-. destruct (exact_num_den _ _ _ _ Eb) as [N D].
    cbn [SFcompare Qnum Qden]. rewrite Z.mul_0_l, Z.mul_1_r, N.
    assert (P : 0 < 2 ^ Z.max eb 0) by (apply Z.pow_pos_nonneg; lia).
    destruct sb; f_equal; symmetry.
    + apply Z.compare_gt_iff. change (Z.neg mb) with (- Z.pos mb). nia.
    + apply Z.compare_lt_iff. nia.
  - injection Eb as <-. destruct (exact_num_den _ _ _ _ Ea) as [N D].
    cbn [SFcompare Qnum Qden]. rewrite Z.mul_0_l, Z.mul_1_r, N.
    assert (P : 0 < 2 ^ Z.max ea 0) by (apply Z.pow_pos_nonneg; lia).
    destruct sa; f_equal; symmetry.
    + apply Z.compare_lt_iff. change (Z.neg ma) with (- Z.pos ma). nia.
    + apply Z.compare_gt_iff. nia.
  - destruct (exact_num_den _ _ _ _ Ea) as [Na Da].
    destruct (exact_num_den _ _ _ _ Eb) as [Nb Db].
    rewrite Na, Nb, Da, Db.
    simpl in Va, Vb.
    pose proof (magnitude_compare ma mb ea eb Va Vb) as M.
    assert (Pa : 0 < 2 ^ Z.max ea 0) by (apply Z.pow_pos_nonneg; lia).
    assert (Pb : 0 < 2 ^ Z.max eb 0) by (apply Z.pow_pos_nonneg; lia).
    assert (Qa : 0 < 2 ^ Z.max (- ea) 0) by (apply Z.pow_pos_nonneg; lia).
    assert (Qb : 0 < 2 ^ Z.max (- eb) 0) by (apply Z.pow_pos_nonneg; lia).
    cbn [SFcompare]. f_equal.
    destruct sa, sb.
    + change (Z.neg ma) with (- Z.pos ma). change (Z.neg mb) with (- Z.pos mb).
      rewrite !Z.mul_opp_l, Z.compare_opp.
      change (PosDef.Pos.compare_cont Eq ma mb) with (ma ?= mb)%positive.
      rewrite (Z.compare_antisym
                 (Z.pos ma * 2 ^ Z.max ea 0 * 2 ^ Z.max (- eb) 0)), M.
      destruct (ea ?= eb); reflexivity.
    + symmetry. apply Z.compare_lt_iff.
      assert (0 < Z.pos ma * 2 ^ Z.max ea 0 * 2 ^ Z.max (- eb) 0) by nia.
      assert (0 < Z.pos mb * 2 ^ Z.max eb 0 * 2 ^ Z.max (- ea) 0) by nia.
      change (Z.neg ma) with (- Z.pos ma). lia.
    + symmetry. apply Z.compare_gt_iff.
      assert (0 < Z.pos ma * 2 ^ Z.max ea 0 * 2 ^ Z.max (- eb) 0) by nia.
      assert (0 < Z.pos mb * 2 ^ Z.max eb 0 * 2 ^ Z.max (- ea) 0) by nia.
      change (Z.neg mb) with (- Z.pos mb). lia.
    + change (PosDef.Pos.compare_cont Eq ma mb) with (ma ?= mb)%positive.
      rewrite M. reflexivity.
Qed.

End Exact.

(** A number is finite exactly when it denotes a rational. *)
Lemma finite_exact (x : number) :
  is_finite x = true <-> exists q, exact x = Some q.
Proof.
  unfold is_finite, is_infinity, is_nan, exact.
  rewrite !eqb_spec, abs_spec.
  change (Prim2SF infinity) with (S754_infinity false).
  destruct (Prim2SF x) as [s|s| |s m e] eqn:E; cbn [SFabs SFexact].
  - split; [intros _; eexists; reflexivity|reflexivity].
  - split; [destruct s; discriminate|intros [q Q]; discriminate].
  - split; [discriminate|intros [q Q]; discriminate].
  - split; [intros _; eexists; reflexivity|intros _].
    unfold SFeqb. rewrite SFcompare_refl by discriminate. reflexivity.
Qed.

(** On finite numbers [<=] is the order of the rationals they denote. *)
Lemma le_exact (a b : number) (p q : Q) :
  exact a = Some p -> exact b = Some q ->
  (Num.le a b = true <-> (p <= q)%Q).
Proof.
  unfold exact, Num.le. intros Ea Eb. rewrite leb_spec. unfold SFleb.
  rewrite (SFcompare_exact _ _ p q (Prim2SF_valid a) (Prim2SF_valid b) Ea Eb).
  rewrite Qle_alt. destruct (p ?= q)%Q; split; congruence.
Qed.

(** Membership in a closed interval with finite bounds, in rationals. *)
Lemma between_exact (lo hi x : number) (l h : Q) :
  exact lo = Some l -> exact hi = Some h ->
  (Num.between lo hi x = true <->
   exists q, exact x = Some q /\ (l <= q)%Q /\ (q <= h)%Q).
Proof.
  intros El Eh. split.
  - intros B.
    assert (F : is_finite x = true).
    { apply (between_finite lo hi); [| |exact B]; apply finite_exact; eauto. }
    apply finite_exact in F as [q Eq]. exists q. split; [exact Eq|].
    unfold Num.between in B. apply andb_true_iff in B as [B1 B2].
    split; [now apply (le_exact lo x l q)|now apply (le_exact x hi q h)].
  - intros (q & Eq & L & H). unfold Num.between. apply andb_true_iff.
    split; [now apply (le_exact lo x l q)|now apply (le_exact x hi q h)].
Qed.

End NumFacts.

(* ================================================================== *)
(** * Coordinate validation *)
(* ================================================================== *)

(** The verdict on two numbers, as one formula. *)
Lemma valid_formula (x y : number) :
  valid (validateCoordinates (Num x) (Num y))
  = negb (Num.lt x (-90) || Num.lt 90 x)
    && negb (Num.lt y (-180) || Num.lt 180 y)
    && negb (is_nan x || is_nan y).
Proof.
  unfold validateCoordinates, Num.gt, Num.lt.
  destruct (x <? -90)%float, (90 <? x)%float, (y <? -180)%float,
    (180 <? y)%float, (is_nan x), (is_nan y); reflexivity.
Qed.

Lemma validateCoordinates_numbers (x y : number) :
  valid (validateCoordinates (Num x) (Num y)) = true <->
  inRange x y /\ is_nan x = false /\ is_nan y = false.
Proof.
  unfold inRange.
  rewrite (NumFacts.between_iff (-90) 90 x), (NumFacts.between_iff (-180) 180 y)
    by reflexivity.
  unfold validateCoordinates.
  destruct (Num.lt x (-90)), (Num.gt x 90), (Num.lt y (-180)), (Num.gt y 180),
    (is_nan x), (is_nan y); simpl; split; intros H; try discriminate;
    try reflexivity; try tauto; try (repeat split; reflexivity);
    decompose [and] H; discriminate.
Qed.

Lemma simulator_agrees (x y : number) :
  valid (Simulator.validateCoordinates x y)
  = valid (validateCoordinates (Num x) (Num y)).
Proof.
  unfold Simulator.validateCoordinates, validateCoordinates.
  destruct (Num.lt x (-90)), (Num.gt x 90), (Num.lt y (-180)), (Num.gt y 180),
    (is_nan x), (is_nan y); reflexivity.
Qed.

(** The bounds of the range denote the rationals they are written as. *)
Lemma bounds_exact :
  exists a b c d,
    exact (-90) = Some a /\ exact 90 = Some b
    /\ exact (-180) = Some c /\ exact 180 = Some d
    /\ (a == -90)%Q /\ (b == 90)%Q /\ (c == -180)%Q /\ (d == 180)%Q.
Proof.
  exists (Qmake (-6333186975989760) 70368744177664),
    (Qmake 6333186975989760 70368744177664),
    (Qmake (-6333186975989760) 35184372088832),
    (Qmake 6333186975989760 35184372088832).
  repeat split; vm_compute; reflexivity.
Qed.

(** The range of the routes, in rationals. *)
Lemma inRange_exact (x y : number) :
  inRange x y <->
  exists p q, exact x = Some p /\ exact y = Some q
    /\ (-90 <= p)%Q /\ (p <= 90)%Q /\ (-180 <= q)%Q /\ (q <= 180)%Q.
Proof.
  destruct bounds_exact as (a & b & c & d & Ea & Eb & Ec & Ed & A & B & C & D).
  unfold inRange.
  rewrite (NumFacts.between_exact (-90) 90 x a b Ea Eb).
  rewrite (NumFacts.between_exact (-180) 180 y c d Ec Ed).
  split.
  - intros [(p & Ep & L1 & H1) (q & Eq & L2 & H2)]. exists p, q.
    rewrite A in L1. rewrite B in H1. rewrite C in L2. rewrite D in H2. tauto.
  - intros (p & q & Ep & Eq & L1 & H1 & L2 & H2).
    rewrite <- A in L1. rewrite <- B in H1.
    rewrite <- C in L2. rewrite <- D in H2. split; eauto.
Qed.

Lemma dashboard_agrees (lat lng : value) :
  Dashboard.isValidCoordinate lat lng = valid (validateCoordinates lat lng).
Proof.
  destruct lat as [| | |x|], lng as [| | |y|]; try reflexivity.
  apply eq_true_iff_eq. rewrite validateCoordinates_numbers.
  unfold Dashboard.isValidCoordinate, inRange, Num.between, Num.ge.
  rewrite !andb_true_iff, !negb_true_iff. unfold Num.le. tauto.
Qed.

(** C3. The coordinate check of the routes accepts a pair exactly when
    both are numbers, the latitude lies in [-90, 90], the longitude lies in
    [-180, 180] and neither is NaN; these are the pairs of finite numbers
    in range, that is, the pairs of numbers that denote rationals between
    -90 and 90 and between -180 and 180. A pair it does not accept is
    rejected with an error message, and the copies of the check in the
    simulator and in the dashboard accept the same pairs. *)
Theorem validateCoordinates_iff_in_range (lat lng : value) :
  (valid (validateCoordinates lat lng) = true <->
   exists x y, lat = Num x /\ lng = Num y /\
     inRange x y /\ is_nan x = false /\ is_nan y = false)
  /\ (valid (validateCoordinates lat lng) = true <->
      exists x y, lat = Num x /\ lng = Num y /\
        inRange x y /\ is_finite x = true /\ is_finite y = true)
  /\ (valid (validateCoordinates lat lng) = true <->
      exists x y p q, lat = Num x /\ lng = Num y /\
        exact x = Some p /\ exact y = Some q
        /\ (-90 <= p)%Q /\ (p <= 90)%Q /\ (-180 <= q)%Q /\ (q <= 180)%Q)
  /\ (valid (validateCoordinates lat lng) = false ->
      exists m, error (validateCoordinates lat lng) = Some m)
  /\ (forall x y, lat = Num x -> lng = Num y ->
      valid (Simulator.validateCoordinates x y)
      = valid (validateCoordinates lat lng))
  /\ Dashboard.isValidCoordinate lat lng = valid (validateCoordinates lat lng).
Proof.
  assert (first :
    valid (validateCoordinates lat lng) = true <->
    exists x y, lat = Num x /\ lng = Num y /\
      inRange x y /\ is_nan x = false /\ is_nan y = false).
  { split.
    - intros H. destruct lat as [| | |x|], lng as [| | |y|];
        try discriminate H.
      exists x, y. apply validateCoordinates_numbers in H. tauto.
    - intros (x & y & -> & -> & H). now apply validateCoordinates_numbers. }
  assert (second :
    valid (validateCoordinates lat lng) = true <->
    exists x y, lat = Num x /\ lng = Num y /\
      inRange x y /\ is_finite x = true /\ is_finite y = true).
  { rewrite first. split; intros (x & y & -> & -> & R & H1 & H2);
      exists x, y; (split; [reflexivity|]); (split; [reflexivity|]);
      (split; [exact R|]); split.
    + destruct R as [R _]. now apply NumFacts.between_finite in R.
    + destruct R as [_ R]. now apply NumFacts.between_finite in R.
    + unfold is_finite in H1. destruct (is_nan x); [discriminate|reflexivity].
    + unfold is_finite in H2. destruct (is_nan y); [discriminate|reflexivity]. }
  split; [exact first|]. split; [exact second|]. split; [|split; [|split]].
  - rewrite second. split.
    + intros (x & y & -> & -> & R & _ & _).
      apply inRange_exact in R as (p & q & R). exists x, y, p, q. tauto.
    + intros (x & y & p & q & -> & -> & Ep & Eq & R). exists x, y.
      split; [reflexivity|]. split; [reflexivity|]. split.
      * apply inRange_exact. exists p, q. tauto.
      * split; apply NumFacts.finite_exact; eauto.
  - intros H. destruct lat as [| | |x|], lng as [| | |y|]; simpl;
      try (eexists; reflexivity).
    unfold validateCoordinates in *.
    destruct (Num.lt x (-90) || Num.gt x 90); [eexists; reflexivity|].
    destruct (Num.lt y (-180) || Num.gt y 180); [eexists; reflexivity|].
    destruct (is_nan x || is_nan y); [eexists; reflexivity|discriminate].
  - intros x y -> ->. apply simulator_agrees.
  - apply dashboard_agrees.
Qed.

Example validateCoordinates_corner :
  valid (validateCoordinates (Num 90) (Num (-180))) = true.
Proof. reflexivity. Qed.

Example validateCoordinates_just_outside :
  validateCoordinates (Num 90.5) (Num 0)
  = reject [Lit "Invalid latitude: "; NumberIn 90.5;
            Lit ". Must be between -90 and 90"].
Proof. reflexivity. Qed.

Example validateCoordinates_nan :
  validateCoordinates (Num nan) (Num 0) = reject [Lit "Coordinates cannot be NaN"].
Proof. reflexivity. Qed.

Example validateCoordinates_infinity :
  valid (validateCoordinates (Num 0) (Num infinity)) = false.
Proof. reflexivity. Qed.

Example validateCoordinates_string :
  validateCoordinates (Str (lit "45")) (Num 0)
  = reject [Lit "Coordinates must be numbers"].
Proof. reflexivity. Qed.

Example exact_of_a_fraction :
  exists q, exact (-23.8125) = Some q /\ (q == - (381 # 16))%Q.
Proof. eexists. split; vm_compute; reflexivity. Qed.

Example exact_of_infinity : exact neg_infinity = None /\ exact nan = None.
Proof. split; reflexivity. Qed.

(* ================================================================== *)
(** * Facts about strings *)
(* ================================================================== *)

Module StrFacts.

Lemma eqb_eq (s t : jsstring) : JSString.eqb s t = true <-> s = t.
Proof.
  unfold JSString.eqb. destruct (list_eq_dec N.eq_dec s t); split; congruence.
Qed.

Lemma eqb_refl (s : jsstring) : JSString.eqb s s = true.
Proof. now apply eqb_eq. Qed.

Lemma eqb_neq (s t : jsstring) : JSString.eqb s t = false <-> s <> t.
Proof.
  unfold JSString.eqb. destruct (list_eq_dec N.eq_dec s t); split; congruence.
Qed.

Lemma isEmpty_true (s : jsstring) : isEmpty s = true <-> s = [].
Proof. destruct s; simpl; split; congruence. Qed.

Lemma isEmpty_false (s : jsstring) : isEmpty s = false <-> s <> [].
Proof. destruct s; simpl; split; congruence. Qed.

(** What [trimStart] leaves does not begin with white space. *)
Lemma trimStart_head (s t : jsstring) (c : N) :
  trimStart s = c :: t -> isWhiteSpace c = false.
Proof.
  induction s as [|d s IH]; simpl; [discriminate|].
  destruct (isWhiteSpace d) eqn:E; [exact IH|].
  intros H. injection H as -> _. exact E.
Qed.

Lemma trimStart_fixed (s : jsstring) (c : N) :
  isWhiteSpace c = false -> trimStart (c :: s) = c :: s.
Proof. intros E. simpl. now rewrite E. Qed.

Lemma trimStart_snoc (s : jsstring) (c : N) :
  isWhiteSpace c = false -> trimStart (s ++ [c]) = trimStart s ++ [c].
Proof.
  intros E. induction s as [|d s IH]; simpl.
  - now rewrite E.
  - destruct (isWhiteSpace d); [exact IH|reflexivity].
Qed.

Lemma trimStart_idem (s : jsstring) : trimStart (trimStart s) = trimStart s.
Proof.
  destruct (trimStart s) as [|c t] eqn:E; [reflexivity|].
  apply trimStart_fixed. exact (trimStart_head _ _ _ E).
Qed.

(** [trimEnd] keeps a first code unit that is no white space. *)
Lemma trimEnd_cons (s : jsstring) (c : N) :
  isWhiteSpace c = false -> trimEnd (c :: s) = c :: trimEnd s.
Proof.
  intros E. unfold trimEnd. simpl rev at 2.
  rewrite (trimStart_snoc _ _ E), rev_app_distr. reflexivity.
Qed.

Lemma trimEnd_idem (s : jsstring) : trimEnd (trimEnd s) = trimEnd s.
Proof. unfold trimEnd. now rewrite rev_involutive, trimStart_idem. Qed.

(** A trimmed string is unchanged by trimming. *)
Lemma trim_idem (s : jsstring) : trim (trim s) = trim s.
Proof.
  unfold trim. destruct (trimStart s) as [|c t] eqn:E; [reflexivity|].
  pose proof (trimStart_head _ _ _ E) as W.
  rewrite (trimEnd_cons _ _ W), (trimStart_fixed _ _ W), <- (trimEnd_cons _ _ W).
  apply trimEnd_idem.
Qed.

Lemma missing_false (s : option jsstring) :
  missing s = false <-> exists n, s = Some n /\ n <> [].
Proof.
  destruct s as [n|]; simpl.
  - rewrite isEmpty_false. split; [intros H; now exists n|].
    intros (m & [= ->] & H). exact H.
  - split; [discriminate|]. intros (m & [=] & _).
Qed.

End StrFacts.

(* ================================================================== *)
(** * Facts about the vehicle collection *)
(* ================================================================== *)

Module VehicleFacts.

Import Vehicle.

Lemma findOne_Some (n : jsstring) (c : collection) (v : t) :
  findOne n c = Some v -> In v c /\ name v = trim n.
Proof.
  unfold findOne. intros H. apply find_some in H as [H1 H2].
  split; [exact H1|now apply StrFacts.eqb_eq].
Qed.

Lemma findOne_None (n : jsstring) (c : collection) :
  findOne n c = None <-> forall v, In v c -> name v <> trim n.
Proof.
  unfold findOne. generalize (trim n) as m. intros m. split.
  - intros H v Hv. apply StrFacts.eqb_neq. exact (find_none _ _ H v Hv).
  - intros H. induction c as [|w c IH]; [reflexivity|]. simpl.
    destruct (JSString.eqb (name w) m) eqn:E.
    + apply StrFacts.eqb_eq in E. exfalso. apply (H w); [now left|exact E].
    + apply IH. intros v Hv. apply H. now right.
Qed.

(** The cast of the filter makes the lookup blind to white space around
    the name it is given. *)
Lemma findOne_trim (n : jsstring) (c : collection) :
  findOne (trim n) c = findOne n c.
Proof. unfold findOne. now rewrite StrFacts.trim_idem. Qed.

Lemma findOne_app_None (n : jsstring) (c : collection) (v : t) :
  findOne n c = None -> name v = trim n -> findOne n (c ++ [v]) = Some v.
Proof.
  unfold findOne. generalize (trim n) as m. intros m H E.
  induction c as [|w c IH]; simpl in *.
  - now rewrite E, StrFacts.eqb_refl.
  - destruct (JSString.eqb (name w) m); [discriminate|now apply IH].
Qed.

Lemma named_None (n : jsstring) (c : collection) :
  findOne n c = None -> named (trim n) c = 0.
Proof.
  unfold findOne, named. generalize (trim n) as m. intros m.
  induction c as [|w c IH]; simpl; [reflexivity|].
  destruct (JSString.eqb (name w) m); [discriminate|exact IH].
Qed.

Lemma named_app (n : jsstring) (c d : collection) :
  named n (c ++ d) = named n c + named n d.
Proof. unfold named. now rewrite filter_app, length_app. Qed.

Lemma replaceOne_ids (v : t) (c : collection) :
  map _id (replaceOne v c) = map _id c.
Proof.
  induction c as [|w c IH]; simpl; [reflexivity|].
  destruct (Nat.eqb (_id w) (_id v)) eqn:E; simpl.
  - apply Nat.eqb_eq in E. now rewrite E.
  - now rewrite IH.
Qed.

Lemma replaceOne_In (v w : t) (c : collection) :
  In w (replaceOne v c) -> w = v \/ In w c.
Proof.
  induction c as [|u c IH]; simpl; [tauto|].
  destruct (Nat.eqb (_id u) (_id v)); simpl; intros [H|H]; auto.
  destruct (IH H); auto.
Qed.

Lemma In_replaceOne (v w : t) (c : collection) :
  In w c -> _id w = _id v -> In v (replaceOne v c).
Proof.
  intros Hw E. induction c as [|u c IH]; simpl in *; [contradiction|].
  destruct (Nat.eqb (_id u) (_id v)) eqn:F; [now left|].
  destruct Hw as [->|Hw]; [|right; now apply IH].
  rewrite E, Nat.eqb_refl in F. discriminate.
Qed.

(** In a collection without repeated identifiers, the document found
    under a name is the one [replaceOne] replaces, and the lookup then
    finds its replacement. *)
Lemma findOne_replaceOne (n : jsstring) (c : collection) (v v' : t) :
  NoDup (map _id c) ->
  findOne n c = Some v -> _id v' = _id v -> name v' = name v ->
  findOne n (replaceOne v' c) = Some v'.
Proof.
  intros U F I N. pose proof (findOne_Some _ _ _ F) as [_ Nv].
  unfold findOne in *. revert F Nv. generalize (trim n) as m. intros m F Nv.
  induction c as [|w c IH]; [discriminate|].
  cbn [find replaceOne] in *. inversion U as [|i l Hi U']; subst i l.
  destruct (JSString.eqb (name w) m) eqn:E.
  - injection F as ->. rewrite I, Nat.eqb_refl. cbn [find].
    now rewrite N, Nv, StrFacts.eqb_refl.
  - assert (D : Nat.eqb (_id w) (_id v') = false).
    { apply Nat.eqb_neq. intros Q. apply Hi. rewrite Q, I.
      apply in_map. now apply find_some in F. }
    rewrite D. cbn [find]. rewrite E. now apply IH.
Qed.

End VehicleFacts.

(* ================================================================== *)
(** * Facts about lists *)
(* ================================================================== *)

Module ListFacts.

Lemma sliceLast_suffix {A : Type} (k : nat) (l : list A) :
  firstn (List.length l - k) l ++ sliceLast k l = l.
Proof. apply firstn_skipn. Qed.

Lemma sliceLast_length {A : Type} (k : nat) (l : list A) :
  List.length (sliceLast k l) = Nat.min k (List.length l).
Proof. unfold sliceLast. rewrite length_skipn. lia. Qed.

Lemma sliceLast_all {A : Type} (k : nat) (l : list A) :
  List.length l <= k -> sliceLast k l = l.
Proof.
  intros H. unfold sliceLast. replace (List.length l - k) with 0 by lia.
  reflexivity.
Qed.

(** Cutting a list that ends with [a] to its last [S k] elements keeps
    [a] at the end. *)
Lemma sliceLast_snoc {A : Type} (k : nat) (l : list A) (a : A) :
  sliceLast (S k) (l ++ [a]) = sliceLast k l ++ [a].
Proof.
  unfold sliceLast. rewrite length_app. simpl List.length.
  replace (List.length l + 1 - S k) with (List.length l - k) by lia.
  rewrite skipn_app.
  replace (List.length l - k - List.length l) with 0 by lia.
  reflexivity.
Qed.

Lemma mapNotNull_filter {A B : Type} (f : A -> option B) (p : A -> bool)
    (g : A -> B) (l : list A) :
  (forall a, f a = if p a then Some (g a) else None) ->
  mapNotNull f l = map g (filter p l).
Proof.
  intros H. induction l as [|a l IH]; simpl; [reflexivity|].
  rewrite H. destruct (p a); simpl; now rewrite IH.
Qed.

End ListFacts.

(* ================================================================== *)
(** * The vehicle routes, check by check *)
(* ================================================================== *)

Section RouteFacts.

Context {host : Host}.

(** Coordinates that pass are in range and are no NaN. *)
Lemma coordinatesPass_inRange (req : VehicleRequest) :
  coordinatesPass req = true ->
  inRange (parseFloat (reqLat req)) (parseFloat (reqLng req))
  /\ is_nan (parseFloat (reqLat req)) = false
  /\ is_nan (parseFloat (reqLng req)) = false.
Proof. apply validateCoordinates_numbers. Qed.

(** An absent coordinate reads as NaN, so it does not pass. *)
Lemma coordinatesPass_defined (req : VehicleRequest) :
  coordinatesPass req = true ->
  isUndefined (reqLat req) = false /\ isUndefined (reqLng req) = false.
Proof.
  intros H. apply coordinatesPass_inRange in H as (_ & H1 & H2).
  destruct (reqLat req), (reqLng req); try discriminate; split; reflexivity.
Qed.

(** A request that fails the checks on its input is answered 400 and
    leaves the collection alone. *)
Lemma create_rejected (amb : Ambient) (db : Vehicle.collection)
    (req : VehicleRequest) :
  missing (reqName req) = true \/ coordinatesPass req = false ->
  status (fst (createVehicle amb db req)) = 400
  /\ snd (createVehicle amb db req) = db.
Proof.
  unfold createVehicle, coordinatesPass. intros H.
  destruct (missing (reqName req) || isUndefined (reqLat req)
            || isUndefined (reqLng req)) eqn:M; [now split|].
  apply orb_false_iff in M as [M _]. apply orb_false_iff in M as [M _].
  destruct H as [H|H]; [congruence|]. rewrite H. now split.
Qed.

(** What [POST /] does with a request that passed the checks on its
    input. *)
Lemma create_checked (amb : Ambient) (db : Vehicle.collection)
    (req : VehicleRequest) :
  missing (reqName req) = false -> coordinatesPass req = true ->
  createVehicle amb db req
  = let n := text (reqName req) in
    let v := Vehicle.new amb (trim n) (parseFloat (reqLat req))
               (parseFloat (reqLng req)) in
    match Vehicle.findOne (trim n) db with
    | Some _ => (conflict n, db)
    | None =>
        match Vehicle.insertOne v db with
        | Some db' =>
            ({| status := 201;
                body := JObj [("success", JBool true);
                              ("message",
                               JText [Lit "Vehicle added successfully"]);
                              ("vehicle", Vehicle.toJSON v)]%string |}, db')
        | None =>
            ({| status := 500;
                body := failure (Some [Lit "Error creating vehicle"]) |}, db)
        end
    end.
Proof.
  intros M P. destruct (coordinatesPass_defined _ P) as [U1 U2].
  unfold createVehicle. unfold coordinatesPass in P.
  rewrite M, U1, U2, P. reflexivity.
Qed.

(** A create that answers 201 passed every check and appended the new
    document. *)
Lemma create_succeeded (amb : Ambient) (db db' : Vehicle.collection)
    (req : VehicleRequest) (res : response) :
  createVehicle amb db req = (res, db') -> status res = 201 ->
  let n := text (reqName req) in
  let v := Vehicle.new amb (trim n) (parseFloat (reqLat req))
             (parseFloat (reqLng req)) in
  missing (reqName req) = false /\ coordinatesPass req = true
  /\ Vehicle.findOne (trim n) db = None
  /\ trim n <> [] /\ db' = db ++ [v]
  /\ Vehicle.name v = trim n.
Proof.
  intros E S n v.
  destruct (missing (reqName req)) eqn:M.
  { destruct (create_rejected amb db req (or_introl M)) as [F _].
    rewrite E in F. simpl in F. congruence. }
  destruct (coordinatesPass req) eqn:P.
  2:{ destruct (create_rejected amb db req (or_intror P)) as [F _].
      rewrite E in F. simpl in F. congruence. }
  rewrite (create_checked amb db req M P) in E. cbv zeta in E.
  fold n in E. fold v in E.
  destruct (Vehicle.findOne (trim n) db) eqn:F.
  { injection E as <- _. discriminate S. }
  unfold Vehicle.insertOne, Vehicle.validates in E.
  assert (N : Vehicle.name v = trim n) by apply StrFacts.trim_idem.
  rewrite N in E. destruct (isEmpty (trim n)) eqn:I; simpl in E.
  { injection E as <- _. discriminate S. }
  injection E as _ <-. apply StrFacts.isEmpty_false in I. tauto.
Qed.

Lemma update_rejected (amb : Ambient) (db : Vehicle.collection)
    (req : VehicleRequest) :
  missing (reqName req) = true \/ coordinatesPass req = false ->
  status (fst (updateVehicle amb db req)) = 400
  /\ snd (updateVehicle amb db req) = db.
Proof.
  unfold updateVehicle, coordinatesPass. intros H.
  destruct (missing (reqName req) || isUndefined (reqLat req)
            || isUndefined (reqLng req)) eqn:M; [now split|].
  apply orb_false_iff in M as [M _]. apply orb_false_iff in M as [M _].
  destruct H as [H|H]; [congruence|]. rewrite H. now split.
Qed.

(** What [POST /update] does with a request that passed the checks on
    its input. *)
Lemma update_checked (amb : Ambient) (db : Vehicle.collection)
    (req : VehicleRequest) :
  missing (reqName req) = false -> coordinatesPass req = true ->
  updateVehicle amb db req
  = let n := text (reqName req) in
    match Vehicle.findOne n db with
    | None => (notFound n, db)
    | Some vehicle =>
        match (if truthy (reqLastUpdated req)
               then newDate (reqLastUpdated req)
               else Some (atLastUpdated amb)) with
        | Some date =>
            let vehicle' := moved amb vehicle (parseFloat (reqLat req))
                              (parseFloat (reqLng req)) date in
            ({| status := 200;
                body := JObj [("success", JBool true);
                              ("message",
                               JText [Lit "Vehicle updated successfully"]);
                              ("vehicle", Vehicle.toJSON vehicle')]%string |},
             Vehicle.replaceOne vehicle' db)
        | None =>
            ({| status := 500;
                body := failure (Some [Lit "Error updating vehicle"]) |}, db)
        end
    end.
Proof.
  intros M P. destruct (coordinatesPass_defined _ P) as [U1 U2].
  unfold updateVehicle. unfold coordinatesPass in P.
  rewrite M, U1, U2, P. reflexivity.
Qed.

(** An update that answers 200 passed every check, found its vehicle and
    stored the moved document in its place. *)
Lemma update_succeeded (amb : Ambient) (db db' : Vehicle.collection)
    (req : VehicleRequest) (res : response) :
  updateVehicle amb db req = (res, db') -> status res = 200 ->
  exists vehicle date,
    missing (reqName req) = false /\ coordinatesPass req = true
    /\ Vehicle.findOne (text (reqName req)) db = Some vehicle
    /\ (if truthy (reqLastUpdated req) then newDate (reqLastUpdated req)
        else Some (atLastUpdated amb)) = Some date
    /\ db' = Vehicle.replaceOne
               (moved amb vehicle (parseFloat (reqLat req))
                  (parseFloat (reqLng req)) date) db
    /\ res = {| status := 200;
                body := JObj [("success", JBool true);
                              ("message",
                               JText [Lit "Vehicle updated successfully"]);
                              ("vehicle",
                               Vehicle.toJSON
                                 (moved amb vehicle (parseFloat (reqLat req))
                                    (parseFloat (reqLng req)) date))]%string |}.
Proof.
  intros E S.
  destruct (missing (reqName req)) eqn:M.
  { destruct (update_rejected amb db req (or_introl M)) as [F _].
    rewrite E in F. simpl in F. congruence. }
  destruct (coordinatesPass req) eqn:P.
  2:{ destruct (update_rejected amb db req (or_intror P)) as [F _].
      rewrite E in F. simpl in F. congruence. }
  rewrite (update_checked amb db req M P) in E. cbv zeta in E.
  destruct (Vehicle.findOne (text (reqName req)) db) as [vehicle|] eqn:F.
  2:{ injection E as <- _. discriminate S. }
  destruct (if truthy (reqLastUpdated req) then newDate (reqLastUpdated req)
            else Some (atLastUpdated amb)) as [date|] eqn:D.
  2:{ injection E as <- _. discriminate S. }
  injection E as <- <-. exists vehicle, date. repeat split; reflexivity.
Qed.

(** The history an update leaves: the last 100 entries of the old
    history followed by the new entry. *)
Lemma moved_history (amb : Ambient) (vehicle : Vehicle.t)
    (la ln : number) (date : Date) :
  Vehicle.locationHistory (moved amb vehicle la ln date)
  = sliceLast 99 (Vehicle.locationHistory vehicle)
    ++ [{| Vehicle.entryLat := la; Vehicle.entryLng := ln;
           Vehicle.timestamp := atTimestamp amb |}].
Proof.
  unfold moved. cbv zeta. cbn [Vehicle.locationHistory].
  rewrite <- ListFacts.sliceLast_snoc.
  destruct (Nat.ltb_spec 100 (List.length
    (Vehicle.locationHistory vehicle
     ++ [{| Vehicle.entryLat := la; Vehicle.entryLng := ln;
            Vehicle.timestamp := atTimestamp amb |}]))) as [L|L];
    [reflexivity|].
  symmetry. now apply ListFacts.sliceLast_all.
Qed.

(** The document a passing request writes satisfies the invariant. *)
Lemma moved_wellFormed (amb : Ambient) (vehicle : Vehicle.t)
    (req : VehicleRequest) (date : Date) :
  coordinatesPass req = true ->
  wellFormed (moved amb vehicle (parseFloat (reqLat req))
                (parseFloat (reqLng req)) date).
Proof.
  intros P. apply coordinatesPass_inRange in P as (R & N1 & N2).
  unfold wellFormed. rewrite moved_history, length_app,
    ListFacts.sliceLast_length.
  split; [exact R|]. split; [exact N1|]. split; [exact N2|].
  cbn [List.length]. lia.
Qed.

Lemma newVehicle_wellFormed (amb : Ambient) (n : jsstring)
    (req : VehicleRequest) :
  coordinatesPass req = true ->
  wellFormed (Vehicle.new amb n (parseFloat (reqLat req))
                (parseFloat (reqLng req))).
Proof.
  intros P. apply coordinatesPass_inRange in P as (R & N1 & N2).
  unfold wellFormed.
  split; [exact R|]. split; [exact N1|]. split; [exact N2|].
  cbn. lia.
Qed.

End RouteFacts.

(* ================================================================== *)
(** * Update by name *)
(* ================================================================== *)

Lemma update_keeps_ids {host : Host} (amb : Ambient)
    (db : Vehicle.collection) (req : VehicleRequest) :
  map Vehicle._id (snd (updateVehicle amb db req)) = map Vehicle._id db.
Proof.
  destruct (missing (reqName req)) eqn:M.
  { destruct (update_rejected amb db req (or_introl M)) as [_ ->].
    reflexivity. }
  destruct (coordinatesPass req) eqn:P.
  2:{ destruct (update_rejected amb db req (or_intror P)) as [_ ->].
      reflexivity. }
  rewrite (update_checked amb db req M P). cbv zeta.
  destruct (Vehicle.findOne (text (reqName req)) db); [|reflexivity].
  destruct (if truthy (reqLastUpdated req) then newDate (reqLastUpdated req)
            else Some (atLastUpdated amb)); [|reflexivity].
  apply VehicleFacts.replaceOne_ids.
Qed.

Lemma update_unknown_keeps_store {host : Host} (amb : Ambient)
    (db : Vehicle.collection) (req : VehicleRequest) :
  Vehicle.findOne (text (reqName req)) db = None ->
  snd (updateVehicle amb db req) = db.
Proof.
  intros F. destruct (missing (reqName req)) eqn:M.
  { now destruct (update_rejected amb db req (or_introl M)). }
  destruct (coordinatesPass req) eqn:P.
  2:{ now destruct (update_rejected amb db req (or_intror P)). }
  rewrite (update_checked amb db req M P). cbv zeta. now rewrite F.
Qed.

(** C1, the reading to the letter fails under every host: the lookup of
    the update route casts its filter through the schema, which trims it,
    so a request that names [ Car-1 ] with white space around it finds the
    stored [Car-1], which has another name as names are given, and moves
    it. *)
Lemma padded_name_updates_stored_vehicle :
  ~ exists host : Host, @notFoundWheneverAbsent host.
Proof.
  intros [host H].
  specialize (H Sample.amb [Sample.car1] (Sample.at_ " Car-1 " 24 91)
                (lit " Car-1 ") eq_refl).
  assert (E : status (fst (updateVehicle Sample.amb [Sample.car1]
                             (Sample.at_ " Car-1 " 24 91))) = 404).
  { rewrite H; [reflexivity|discriminate|reflexivity|].
    intros v [<-|[]]. discriminate. }
  vm_compute in E. discriminate E.
Qed.

(** C1, amended. An update never adds a record: whatever the request, the
    collection it leaves holds the documents with the identifiers it held
    before, in the same order, and it is the collection it found whenever
    no vehicle bears the name of the request once that name is trimmed.
    When the request gives a name and its coordinates pass validation,
    the route answers 404 with the not-found error, leaving the
    collection, if no vehicle bears the trimmed name, and only then. *)
Theorem update_unknown_name_not_found {host : Host} (amb : Ambient)
    (db : Vehicle.collection) (req : VehicleRequest) :
  map Vehicle._id (snd (updateVehicle amb db req)) = map Vehicle._id db
  /\ ((forall v, In v db -> Vehicle.name v <> trim (text (reqName req))) ->
      snd (updateVehicle amb db req) = db)
  /\ forall n,
       reqName req = Some n -> n <> [] ->
       coordinatesPass req = true ->
       ((forall v, In v db -> Vehicle.name v <> trim n) ->
        updateVehicle amb db req = (notFound n, db)
        /\ status (notFound n) = 404)
       /\ (status (fst (updateVehicle amb db req)) = 404 ->
           forall v, In v db -> Vehicle.name v <> trim n).
Proof.
  split; [apply update_keeps_ids|].
  split.
  { intros A. apply update_unknown_keeps_store.
    now apply VehicleFacts.findOne_None. }
  intros n N E P.
  assert (M : missing (reqName req) = false).
  { apply StrFacts.missing_false. now exists n. }
  rewrite (update_checked amb db req M P). cbv zeta.
  rewrite N. cbn [text]. split.
  - intros A. apply VehicleFacts.findOne_None in A. rewrite A.
    split; reflexivity.
  - destruct (Vehicle.findOne n db) as [vehicle|] eqn:F.
    + destruct (if truthy (reqLastUpdated req) then _ else _); discriminate.
    + intros _. now apply VehicleFacts.findOne_None.
Qed.

Lemma update_unknown_name_not_found_witness :
  coordinatesPass (host := numericHost) (Sample.at_ " Ghost " 24 91) = true
  /\ (forall v, In v [Sample.car1] -> Vehicle.name v <> lit "Ghost")
  /\ updateVehicle (host := numericHost) Sample.amb [Sample.car1]
       (Sample.at_ " Ghost " 24 91)
     = (notFound (lit " Ghost "), [Sample.car1]).
Proof.
  assert (A : forall v, In v [Sample.car1] -> Vehicle.name v <> lit "Ghost").
  { intros v [<-|[]]. discriminate. }
  split; [reflexivity|]. split; [exact A|].
  refine (proj1 (proj1 (proj2 (proj2
            (@update_unknown_name_not_found numericHost Sample.amb
               [Sample.car1] (Sample.at_ " Ghost " 24 91)))
            (lit " Ghost ") eq_refl _ eq_refl) A)).
  discriminate.
Defined.

(** The same vehicle under its name as stored and under that name with
    white space around it: both updates find it. *)
Example update_by_padded_name :
  map (fun n => status (fst (updateVehicle (host := numericHost) Sample.amb
                               [Sample.car1] (Sample.at_ n 24 91))))
      ["Car-1"; " Car-1 "; "Car-2"]%string
  = [200; 200; 404].
Proof. reflexivity. Qed.

(** A vehicle that was deleted is not brought back by a later update. *)
Example update_after_delete :
  let db := snd (deleteVehicleByName [Sample.car1] (lit "Car-1")) in
  db = []
  /\ updateVehicle (host := numericHost) Sample.amb db (Sample.at_ "Car-1" 24 91)
     = (notFound (lit "Car-1"), []).
Proof. split; reflexivity. Qed.

(** C2, the reading to the letter fails under every host: a request that
    supplies [lastUpdated: 0], the epoch, is served with the current time,
    because the route tests the field for truth and 0 is falsy. *)
Lemma lastUpdated_zero_is_not_stored :
  ~ exists host : Host, @lastUpdatedAsSupplied host.
Proof.
  intros [host H].
  destruct (H Sample.amb [Sample.car1]
              (Sample.stamped (Sample.at_ "Car-1" 24 91) (Num 0))
              (fst (updateVehicle Sample.amb [Sample.car1]
                      (Sample.stamped (Sample.at_ "Car-1" 24 91) (Num 0))))
              (snd (updateVehicle Sample.amb [Sample.car1]
                      (Sample.stamped (Sample.at_ "Car-1" 24 91) (Num 0))))
              Sample.car1 eq_refl eq_refl eq_refl)
    as (v & I & _ & D).
  destruct I as [<-|[]]. vm_compute in D. discriminate D.
Qed.

Example update_with_epoch_timestamp :
  let req := Sample.stamped (Sample.at_ "Car-1" 24 91) (Num 0) in
  let out := updateVehicle (host := numericHost) Sample.amb [Sample.car1] req in
  status (fst out) = 200
  /\ newDate (host := numericHost) (reqLastUpdated req) = Some 0%Z
  /\ map Vehicle.lastUpdated (snd out) = [1700000000000%Z].
Proof. repeat split. Qed.

(** C2, amended. A successful update of a vehicle stores, in place of the
    document found under the name (the first stored document whose name
    is the name of the request once trimmed), a document with the same
    identifier and name (the one a later lookup of the name finds,
    identifiers being unique) whose position is the coordinates read from
    the request. It
    sets [lastUpdated] to the date of the supplied value when that value
    is truthy, and to the current time when it is absent or falsy. It
    appends an entry with the new coordinates and keeps the last 100
    entries of the history so extended, so that the 101st entry drives
    out the oldest one and is itself the last. *)
Theorem update_moves_vehicle_and_caps_history {host : Host} (amb : Ambient)
    (db db' : Vehicle.collection) (req : VehicleRequest) (res : response) :
  updateVehicle amb db req = (res, db') -> status res = 200 ->
  exists vehicle vehicle',
    Vehicle.findOne (text (reqName req)) db = Some vehicle
    /\ In vehicle db
    /\ Vehicle.name vehicle = trim (text (reqName req))
    /\ db' = Vehicle.replaceOne vehicle' db
    /\ In vehicle' db'
    /\ (NoDup (map Vehicle._id db) ->
        Vehicle.findOne (text (reqName req)) db' = Some vehicle')
    /\ field (body res) "vehicle" = Some (Vehicle.toJSON vehicle')
    /\ Vehicle._id vehicle' = Vehicle._id vehicle
    /\ Vehicle.name vehicle' = Vehicle.name vehicle
    /\ Vehicle.lat vehicle' = parseFloat (reqLat req)
    /\ Vehicle.lng vehicle' = parseFloat (reqLng req)
    /\ (truthy (reqLastUpdated req) = true ->
        newDate (reqLastUpdated req) = Some (Vehicle.lastUpdated vehicle'))
    /\ (truthy (reqLastUpdated req) = false ->
        Vehicle.lastUpdated vehicle' = atLastUpdated amb)
    /\ Vehicle.locationHistory vehicle'
       = sliceLast 100 (Vehicle.locationHistory vehicle ++ [pushedEntry amb req])
    /\ List.length (Vehicle.locationHistory vehicle')
       = Nat.min 100 (S (List.length (Vehicle.locationHistory vehicle)))
    /\ (exists kept,
          Vehicle.locationHistory vehicle' = kept ++ [pushedEntry amb req])
    /\ (forall oldest rest,
          Vehicle.locationHistory vehicle = oldest :: rest ->
          List.length rest = 99 ->
          Vehicle.locationHistory vehicle' = rest ++ [pushedEntry amb req]).
Proof.
  intros E S.
  destruct (update_succeeded amb db db' req res E S)
    as (vehicle & date & M & P & F & D & -> & ->).
  exists vehicle,
    (moved amb vehicle (parseFloat (reqLat req)) (parseFloat (reqLng req)) date).
  pose proof (moved_history amb vehicle (parseFloat (reqLat req))
                (parseFloat (reqLng req)) date) as Hh.
  fold (pushedEntry amb req) in Hh.
  split; [exact F|].
  split; [exact (proj1 (VehicleFacts.findOne_Some _ _ _ F))|].
  split; [exact (proj2 (VehicleFacts.findOne_Some _ _ _ F))|].
  split; [reflexivity|]. split.
  { apply VehicleFacts.In_replaceOne with (w := vehicle); [|reflexivity].
    now apply VehicleFacts.findOne_Some in F. }
  split.
  { intros U. now apply VehicleFacts.findOne_replaceOne with (v := vehicle). }
  split; [reflexivity|]. do 4 (split; [reflexivity|]).
  split. { intros T. rewrite T in D. exact D. }
  split. { intros T. rewrite T in D. injection D as <-. reflexivity. }
  split. { rewrite Hh. symmetry. apply ListFacts.sliceLast_snoc. }
  split. { rewrite Hh, length_app, ListFacts.sliceLast_length. simpl. lia. }
  split. { eexists. exact Hh. }
  intros oldest rest Ho Hr. rewrite Hh, Ho. unfold sliceLast.
  cbn [List.length]. rewrite Hr. reflexivity.
Qed.

Lemma update_moves_vehicle_and_caps_history_witness :
  let out := updateVehicle (host := numericHost) Sample.later
               [Sample.car1; Sample.bus] (Sample.at_ "Bus" 11 21) in
  status (fst out) = 200
  /\ exists vehicle',
       In vehicle' (snd out)
       /\ Vehicle.lat vehicle' = 11%float
       /\ List.length (Vehicle.locationHistory vehicle') = 100.
Proof.
  cbv zeta. split; [reflexivity|].
  destruct (@update_moves_vehicle_and_caps_history numericHost Sample.later
              [Sample.car1; Sample.bus] _ (Sample.at_ "Bus" 11 21) _
              eq_refl eq_refl)
    as (vehicle & vehicle' & F & _ & _ & _ & I & _ & _ & _ & _ & La & _ & _ & _
        & _ & Le & _).
  exists vehicle'. split; [exact I|]. split; [exact La|].
  injection F as <-. exact Le.
Defined.

(** The 101st entry: the entry stamped 0 is gone, the entry stamped 1 is
    now the oldest, and the new entry is the last of 100. *)
Example update_evicts_oldest_entry :
  let out := updateVehicle (host := numericHost) Sample.later [Sample.bus]
               (Sample.at_ "Bus" 11 21) in
  map (fun v => List.length (Vehicle.locationHistory v)) (snd out) = [100]
  /\ map (fun v => map Vehicle.timestamp (firstn 2 (Vehicle.locationHistory v)))
       (snd out) = [[1%Z; 2%Z]]
  /\ map (fun v => skipn 99 (Vehicle.locationHistory v)) (snd out)
     = [[{| Vehicle.entryLat := 11; Vehicle.entryLng := 21;
            Vehicle.timestamp := atTimestamp Sample.later |}]].
Proof. vm_compute. repeat split. Qed.

(* ================================================================== *)
(** * Create *)
(* ================================================================== *)

(** A create request that names a stored vehicle, after trimming, is
    answered 400 and changes nothing; once its input passed the checks the
    answer is the conflict. *)
Lemma create_duplicate {host : Host} (amb : Ambient)
    (db : Vehicle.collection) (req : VehicleRequest) (existing : Vehicle.t) :
  Vehicle.findOne (trim (text (reqName req))) db = Some existing ->
  status (fst (createVehicle amb db req)) = 400
  /\ snd (createVehicle amb db req) = db
  /\ (missing (reqName req) = false -> coordinatesPass req = true ->
      createVehicle amb db req = (conflict (text (reqName req)), db)).
Proof.
  intros F.
  assert (C : missing (reqName req) = false -> coordinatesPass req = true ->
              createVehicle amb db req = (conflict (text (reqName req)), db)).
  { intros M P. rewrite (create_checked amb db req M P). cbv zeta.
    now rewrite F. }
  destruct (missing (reqName req)) eqn:M.
  { destruct (create_rejected amb db req (or_introl M)) as [S D].
    repeat split; assumption. }
  destruct (coordinatesPass req) eqn:P.
  2:{ destruct (create_rejected amb db req (or_intror P)) as [S D].
      repeat split; assumption. }
  rewrite (C eq_refl eq_refl). repeat split.
Qed.

(** Once a create has stored its vehicle, a request whose name trims to
    the same string finds that vehicle at the uniqueness check. *)
Lemma create_collides {host : Host} (amb : Ambient)
    (db db1 : Vehicle.collection) (req req' : VehicleRequest) (res : response) :
  createVehicle amb db req = (res, db1) -> status res = 201 ->
  trim (text (reqName req')) = trim (text (reqName req)) ->
  exists v,
    db1 = db ++ [v]
    /\ Vehicle.name v = trim (text (reqName req))
    /\ Vehicle.findOne (trim (text (reqName req))) db = None
    /\ Vehicle.findOne (trim (text (reqName req'))) db1 = Some v
    /\ missing (reqName req') = false.
Proof.
  intros E S Q.
  destruct (create_succeeded amb db db1 req res E S)
    as (M & P & F & T & -> & V).
  eexists. split; [reflexivity|]. split; [exact V|]. split; [exact F|]. split.
  - rewrite Q. apply VehicleFacts.findOne_app_None; [exact F|].
    now rewrite StrFacts.trim_idem.
  - destruct (reqName req') as [[|c n']|]; [| reflexivity |];
      exfalso; apply T; rewrite <- Q; reflexivity.
Qed.

(** Validation comes before the lookup: a request that names the stored
    vehicle and carries the latitude 999 is refused for its latitude. *)
Example create_existing_name_with_invalid_latitude :
  createVehicle (host := numericHost) Sample.amb [Sample.car1]
    (Sample.at_ "Car-1" 999 0)
  = ({| status := 400;
        body := failure (Some [Lit "Invalid latitude: "; NumberIn 999;
                               Lit ". Must be between -90 and 90"]) |},
     [Sample.car1]).
Proof. reflexivity. Qed.

(** C4. A create request that passed the checks on its fields (it gives
    a name, and its coordinates pass validation) and names a stored
    vehicle, white space around the name apart, fails with the conflict
    error and leaves the collection unchanged. A request that names a
    stored vehicle and does not pass these checks fails with the
    validation error the checks give, which come first, and leaves the
    collection unchanged too. In particular, after a vehicle was created,
    a second create with the same name fails, the collection is the one
    the first create left, and it holds exactly one vehicle of that
    name. *)
Theorem create_existing_name_conflicts {host : Host} :
  (forall amb db req n existing,
     reqName req = Some n -> n <> [] -> coordinatesPass req = true ->
     In existing db -> Vehicle.name existing = trim n ->
     createVehicle amb db req = (conflict n, db)
     /\ status (conflict n) = 400)
  /\ (forall amb db req existing,
        In existing db ->
        Vehicle.name existing = trim (text (reqName req)) ->
        status (fst (createVehicle amb db req)) = 400
        /\ snd (createVehicle amb db req) = db
        /\ (missing (reqName req) || isUndefined (reqLat req)
            || isUndefined (reqLng req) = true ->
            body (fst (createVehicle amb db req))
            = failure (Some [Lit "Vehicle name, latitude, and longitude are required"]))
        /\ (missing (reqName req) || isUndefined (reqLat req)
            || isUndefined (reqLng req) = false ->
            coordinatesPass req = false ->
            body (fst (createVehicle amb db req))
            = failure (error (validateCoordinates
                                (Num (parseFloat (reqLat req)))
                                (Num (parseFloat (reqLng req))))))
        /\ (missing (reqName req) = false -> coordinatesPass req = true ->
            fst (createVehicle amb db req) = conflict (text (reqName req))))
  /\ (forall amb amb' db db1 req req' res n,
        createVehicle amb db req = (res, db1) -> status res = 201 ->
        reqName req = Some n -> reqName req' = Some n ->
        status (fst (createVehicle amb' db1 req')) = 400
        /\ snd (createVehicle amb' db1 req') = db1
        /\ named (trim n) db1 = 1
        /\ (coordinatesPass req' = true ->
            createVehicle amb' db1 req' = (conflict n, db1))).
Proof.
  assert (found : forall db n existing,
            In existing db -> Vehicle.name existing = trim n ->
            exists first, Vehicle.findOne (trim n) db = Some first).
  { intros db n existing I E.
    destruct (Vehicle.findOne (trim n) db) as [first|] eqn:F;
      [now exists first|].
    rewrite VehicleFacts.findOne_trim, VehicleFacts.findOne_None in F.
    now elim (F existing I). }
  split; [|split].
  - intros amb db req n existing N T P I E.
    destruct (found db n existing I E) as [first F].
    assert (F' : Vehicle.findOne (trim (text (reqName req))) db = Some first)
      by now rewrite N.
    destruct (create_duplicate amb db req first F') as (_ & _ & C).
    rewrite N in C. cbn [text] in C. split; [|reflexivity].
    apply C; [|exact P]. apply StrFacts.missing_false. now exists n.
  - intros amb db req existing I E.
    destruct (found db (text (reqName req)) existing I E) as [first F].
    destruct (create_duplicate amb db req first F) as (S & D & C).
    split; [exact S|]. split; [exact D|]. split; [|split].
    + intros A. unfold createVehicle. cbv zeta. now rewrite A.
    + intros A P. unfold createVehicle. cbv zeta. rewrite A.
      unfold coordinatesPass in P. now rewrite P.
    + intros M P. now rewrite (C M P).
  - intros amb amb' db db1 req req' res n E S N N'.
    assert (Q : trim (text (reqName req')) = trim (text (reqName req)))
      by now rewrite N, N'.
    destruct (create_collides amb db db1 req req' res E S Q)
      as (v & -> & V & F & F' & M').
    destruct (create_duplicate amb' (db ++ [v]) req' v F') as (S' & D' & C).
    rewrite N in V, F. rewrite N' in C, M'. cbn [text] in V, F, C.
    split; [exact S'|]. split; [exact D'|]. split.
    + rewrite VehicleFacts.named_app.
      pose proof (VehicleFacts.named_None _ _ F) as Z.
      rewrite StrFacts.trim_idem in Z. rewrite Z.
      unfold named. cbn [filter]. now rewrite V, StrFacts.eqb_refl.
    + intros P'. now apply C.
Qed.

Lemma create_existing_name_conflicts_witness :
  let first := createVehicle (host := numericHost) Sample.amb []
                 (Sample.at_ "Car-1" 23.8125 90.5) in
  let second := createVehicle (host := numericHost) Sample.later (snd first)
                  (Sample.at_ "Car-1" 23.8125 90.5) in
  status (fst first) = 201
  /\ second = (conflict (lit "Car-1"), snd first)
  /\ named (lit "Car-1") (snd first) = 1
  /\ createVehicle (host := numericHost) Sample.later [Sample.car1]
       (Sample.at_ " Car-1" 10 20)
     = (conflict (lit " Car-1"), [Sample.car1]).
Proof.
  cbv zeta. split; [reflexivity|].
  destruct (proj2 (proj2 (@create_existing_name_conflicts numericHost))
              Sample.amb Sample.later [] _ (Sample.at_ "Car-1" 23.8125 90.5)
              (Sample.at_ "Car-1" 23.8125 90.5) _ (lit "Car-1")
              eq_refl eq_refl eq_refl eq_refl)
    as (_ & _ & K & C).
  split; [exact (C eq_refl)|]. split; [exact K|].
  refine (proj1 (proj1 (@create_existing_name_conflicts numericHost)
                   Sample.later [Sample.car1] (Sample.at_ " Car-1" 10 20)
                   (lit " Car-1") Sample.car1 eq_refl _ eq_refl
                   (or_introl eq_refl) eq_refl)).
  discriminate.
Defined.

(** C10. A create that succeeds has looked up the trimmed name, found no
    vehicle under it, and stored the new vehicle under the trimmed name.
    So when a vehicle was created, a second request that differs from the
    first only in the white space around the name fails with the conflict
    error and changes nothing; and so does any later request whose name
    trims to the same string and whose coordinates pass validation. *)
Theorem create_trims_name {host : Host} :
  (forall amb db db' req res,
     createVehicle amb db req = (res, db') -> status res = 201 ->
     exists v,
       db' = db ++ [v]
       /\ Vehicle.name v = trim (text (reqName req))
       /\ Vehicle.findOne (trim (text (reqName req))) db = None
       /\ field (body res) "vehicle" = Some (Vehicle.toJSON v))
  /\ (forall amb amb' db db1 req req' res n n',
        createVehicle amb db req = (res, db1) -> status res = 201 ->
        reqName req = Some n -> reqName req' = Some n' ->
        trim n' = trim n ->
        reqLat req' = reqLat req -> reqLng req' = reqLng req ->
        createVehicle amb' db1 req' = (conflict n', db1))
  /\ (forall amb amb' db db1 req req' res n n',
        createVehicle amb db req = (res, db1) -> status res = 201 ->
        reqName req = Some n -> reqName req' = Some n' ->
        trim n' = trim n ->
        coordinatesPass req' = true ->
        createVehicle amb' db1 req' = (conflict n', db1)).
Proof.
  assert (general : forall amb amb' db db1 req req' res n n',
            createVehicle amb db req = (res, db1) -> status res = 201 ->
            reqName req = Some n -> reqName req' = Some n' ->
            trim n' = trim n ->
            coordinatesPass req' = true ->
            createVehicle amb' db1 req' = (conflict n', db1)).
  { intros amb amb' db db1 req req' res n n' E S N N' Q P'.
    assert (Q' : trim (text (reqName req')) = trim (text (reqName req)))
      by now rewrite N, N'.
    destruct (create_collides amb db db1 req req' res E S Q')
      as (v & -> & _ & _ & F' & M').
    destruct (create_duplicate amb' (db ++ [v]) req' v F') as (_ & _ & C).
    rewrite N' in C, M'. cbn [text] in C. now apply C. }
  split; [|split; [|exact general]].
  - intros amb db db' req res E S.
    destruct (create_succeeded amb db db' req res E S)
      as (M & P & F & T & D & V).
    exists (Vehicle.new amb (trim (text (reqName req)))
              (parseFloat (reqLat req)) (parseFloat (reqLng req))).
    split; [exact D|]. split; [exact V|]. split; [exact F|].
    rewrite (create_checked amb db req M P) in E. cbv zeta in E.
    rewrite F in E. unfold Vehicle.insertOne, Vehicle.validates in E.
    rewrite V in E. apply StrFacts.isEmpty_false in T. rewrite T in E.
    injection E as <- _. reflexivity.
  - intros amb amb' db db1 req req' res n n' E S N N' Q La Ln.
    apply (general amb amb' db db1 req req' res n n' E S N N' Q).
    destruct (create_succeeded amb db db1 req res E S) as (_ & P & _).
    unfold coordinatesPass in *. now rewrite La, Ln.
Qed.

Lemma create_trims_name_witness :
  let first := createVehicle (host := numericHost) Sample.amb []
                 (Sample.at_ "  Car-1 " 23.8125 90.5) in
  let second := createVehicle (host := numericHost) Sample.later (snd first)
                  (Sample.at_ "Car-1  " 10 20) in
  status (fst first) = 201
  /\ map Vehicle.name (snd first) = [lit "Car-1"]
  /\ second = (conflict (lit "Car-1  "), snd first).
Proof.
  cbv zeta. split; [reflexivity|]. split; [reflexivity|].
  exact (proj2 (proj2 (@create_trims_name numericHost))
           Sample.amb Sample.later [] _ (Sample.at_ "  Car-1 " 23.8125 90.5)
           (Sample.at_ "Car-1  " 10 20) _ (lit "  Car-1 ") (lit "Car-1  ")
           eq_refl eq_refl eq_refl eq_refl eq_refl eq_refl).
Defined.

(** A name of white space only passes the check for a missing name, trims
    to the empty string and is refused by the model: nothing is stored. *)
Example create_blank_name :
  createVehicle (host := numericHost) Sample.amb [] (Sample.at_ "   " 10 20)
  = ({| status := 500;
        body := failure (Some [Lit "Error creating vehicle"]) |}, []).
Proof. reflexivity. Qed.

(* ================================================================== *)
(** * The invariant of stored vehicles *)
(* ================================================================== *)

Lemma create_writes_well_formed {host : Host} (amb : Ambient)
    (db : Vehicle.collection) (req : VehicleRequest) (v : Vehicle.t) :
  In v (snd (createVehicle amb db req)) -> In v db \/ wellFormed v.
Proof.
  destruct (missing (reqName req)) eqn:M.
  { destruct (create_rejected amb db req (or_introl M)) as [_ ->]. now left. }
  destruct (coordinatesPass req) eqn:P.
  2:{ destruct (create_rejected amb db req (or_intror P)) as [_ ->]. now left. }
  rewrite (create_checked amb db req M P). cbv zeta.
  destruct (Vehicle.findOne (trim (text (reqName req))) db); [now left|].
  unfold Vehicle.insertOne.
  destruct (Vehicle.validates _); [|now left].
  cbn [snd]. rewrite in_app_iff. intros [H|[<-|[]]]; [now left|right].
  now apply newVehicle_wellFormed.
Qed.

Lemma update_writes_well_formed {host : Host} (amb : Ambient)
    (db : Vehicle.collection) (req : VehicleRequest) (v : Vehicle.t) :
  In v (snd (updateVehicle amb db req)) -> In v db \/ wellFormed v.
Proof.
  destruct (missing (reqName req)) eqn:M.
  { destruct (update_rejected amb db req (or_introl M)) as [_ ->]. now left. }
  destruct (coordinatesPass req) eqn:P.
  2:{ destruct (update_rejected amb db req (or_intror P)) as [_ ->]. now left. }
  rewrite (update_checked amb db req M P). cbv zeta.
  destruct (Vehicle.findOne (text (reqName req)) db); [|now left].
  destruct (if truthy (reqLastUpdated req) then newDate (reqLastUpdated req)
            else Some (atLastUpdated amb)); [|now left].
  cbn [snd]. intros H. apply VehicleFacts.replaceOne_In in H as [->|H];
    [right|now left].
  now apply moved_wellFormed.
Qed.

(** C5. Every record that create or update writes satisfies the
    invariant. A create that answers 201 appends one document, at the
    position read from the request, and that document satisfies the
    invariant. An update that answers 200 puts, in the place of the
    document it found, a document at the position read from the request
    whose history is the last 100 entries of the old history extended by
    the new entry, and that document satisfies the invariant whether or
    not the document it replaces did. Every other document of the
    collection either operation leaves was there before; hence both
    operations preserve the invariant over the whole collection. The
    invariant: the latitude lies in [-90, 90], the longitude lies in
    [-180, 180], the coordinates are no NaN and the history has at most
    100 entries. *)
Theorem create_and_update_keep_invariant {host : Host} (amb : Ambient)
    (db : Vehicle.collection) (req : VehicleRequest) :
  (forall v, In v (snd (createVehicle amb db req)) -> In v db \/ wellFormed v)
  /\ (forall v, In v (snd (updateVehicle amb db req)) -> In v db \/ wellFormed v)
  /\ (Forall wellFormed db ->
      Forall wellFormed (snd (createVehicle amb db req))
      /\ Forall wellFormed (snd (updateVehicle amb db req)))
  /\ (status (fst (createVehicle amb db req)) = 201 ->
      exists v,
        snd (createVehicle amb db req) = db ++ [v]
        /\ field (body (fst (createVehicle amb db req))) "vehicle"
           = Some (Vehicle.toJSON v)
        /\ Vehicle.lat v = parseFloat (reqLat req)
        /\ Vehicle.lng v = parseFloat (reqLng req)
        /\ List.length (Vehicle.locationHistory v) = 1
        /\ wellFormed v)
  /\ (status (fst (updateVehicle amb db req)) = 200 ->
      exists vehicle vehicle',
        In vehicle db
        /\ snd (updateVehicle amb db req) = Vehicle.replaceOne vehicle' db
        /\ In vehicle' (snd (updateVehicle amb db req))
        /\ field (body (fst (updateVehicle amb db req))) "vehicle"
           = Some (Vehicle.toJSON vehicle')
        /\ Vehicle._id vehicle' = Vehicle._id vehicle
        /\ Vehicle.lat vehicle' = parseFloat (reqLat req)
        /\ Vehicle.lng vehicle' = parseFloat (reqLng req)
        /\ Vehicle.locationHistory vehicle'
           = sliceLast 100
               (Vehicle.locationHistory vehicle ++ [pushedEntry amb req])
        /\ wellFormed vehicle').
Proof.
  split; [apply create_writes_well_formed|].
  split; [apply update_writes_well_formed|].
  split.
  { intros H. rewrite Forall_forall in H.
    split; apply Forall_forall; intros v I.
    - destruct (create_writes_well_formed amb db req v I); auto.
    - destruct (update_writes_well_formed amb db req v I); auto. }
  split.
  - destruct (createVehicle amb db req) as [res db'] eqn:E. cbn [fst snd].
    intros S.
    destruct (create_succeeded amb db db' req res E S)
      as (M & P & F & T & D & V).
    exists (Vehicle.new amb (trim (text (reqName req)))
              (parseFloat (reqLat req)) (parseFloat (reqLng req))).
    split; [exact D|]. split.
    { rewrite (create_checked amb db req M P) in E. cbv zeta in E.
      rewrite F in E. unfold Vehicle.insertOne, Vehicle.validates in E.
      rewrite V in E. apply StrFacts.isEmpty_false in T. rewrite T in E.
      injection E as <- _. reflexivity. }
    do 3 (split; [reflexivity|]). now apply newVehicle_wellFormed.
  - destruct (updateVehicle amb db req) as [res db'] eqn:E. cbn [fst snd].
    intros S.
    destruct (update_succeeded amb db db' req res E S)
      as (vehicle & date & M & P & F & D & -> & ->).
    destruct (VehicleFacts.findOne_Some _ _ _ F) as [I _].
    exists vehicle,
      (moved amb vehicle (parseFloat (reqLat req)) (parseFloat (reqLng req))
         date).
    split; [exact I|]. split; [reflexivity|]. split.
    { now apply VehicleFacts.In_replaceOne with (w := vehicle). }
    do 4 (split; [reflexivity|]). split.
    { rewrite moved_history. fold (pushedEntry amb req). symmetry.
      apply ListFacts.sliceLast_snoc. }
    now apply moved_wellFormed.
Qed.

(** A stored record outside the invariant: its latitude is out of range
    and its history has 150 entries. An update brings it back inside. *)
Lemma create_and_update_keep_invariant_witness :
  Forall wellFormed [Sample.car1]
  /\ Forall wellFormed
       (snd (createVehicle (host := numericHost) Sample.amb [Sample.car1]
               (Sample.at_ "Car-2" (-90) 180)))
  /\ Forall wellFormed
       (snd (updateVehicle (host := numericHost) Sample.amb [Sample.car1]
               (Sample.at_ "Car-1" (-90) 180)))
  /\ (~ wellFormed Sample.overgrown
      /\ exists vehicle vehicle',
           In vehicle [Sample.overgrown]
           /\ snd (updateVehicle (host := numericHost) Sample.later
                     [Sample.overgrown] (Sample.at_ "Overgrown" 11 21))
              = [vehicle']
           /\ Vehicle.lat vehicle' = 11%float
           /\ List.length (Vehicle.locationHistory vehicle') = 100
           /\ wellFormed vehicle').
Proof.
  assert (W : Forall wellFormed [Sample.car1]).
  { constructor; [|constructor]. unfold wellFormed, inRange.
    repeat split; try reflexivity. simpl. lia. }
  split; [exact W|]. split; [|split].
  - exact (proj1 (proj1 (proj2 (proj2 (@create_and_update_keep_invariant
             numericHost Sample.amb [Sample.car1]
             (Sample.at_ "Car-2" (-90) 180)))) W)).
  - exact (proj2 (proj1 (proj2 (proj2 (@create_and_update_keep_invariant
             numericHost Sample.amb [Sample.car1]
             (Sample.at_ "Car-1" (-90) 180)))) W)).
  - split.
    { intros (_ & _ & _ & L). vm_compute in L. lia. }
    destruct (proj2 (proj2 (proj2 (proj2 (@create_and_update_keep_invariant
                numericHost Sample.later [Sample.overgrown]
                (Sample.at_ "Overgrown" 11 21))))) eq_refl)
      as (vehicle & vehicle' & I & D & _ & _ & Id & La & _ & H & Wf).
    exists vehicle, vehicle'. split; [exact I|].
    destruct I as [<-|[]]. split; [|split; [exact La|split; [|exact Wf]]].
    + rewrite D. cbn [Vehicle.replaceOne]. now rewrite Id, Nat.eqb_refl.
    + rewrite H. reflexivity.
Defined.

(* ================================================================== *)
(** * List *)
(* ================================================================== *)

Module SortFacts.

Import Vehicle.

Lemma insertLatest_perm (v : t) (c : collection) :
  Permutation (insertLatest v c) (v :: c).
Proof.
  induction c as [|w c IH]; simpl; [reflexivity|].
  destruct (lastUpdated w <=? lastUpdated v)%Z; [reflexivity|].
  rewrite IH. apply perm_swap.
Qed.

Lemma findSorted_perm (c : collection) : Permutation (findSorted c) c.
Proof.
  induction c as [|v c IH]; simpl; [reflexivity|].
  rewrite insertLatest_perm. now constructor.
Qed.

Lemma insertLatest_sorted (v : t) (c : collection) :
  StronglySorted notEarlier c -> StronglySorted notEarlier (insertLatest v c).
Proof.
  induction 1 as [|w c Hc IH Hw]; simpl.
  - constructor; constructor.
  - destruct (Z.leb_spec (lastUpdated w) (lastUpdated v)) as [L|L].
    + constructor; [now constructor|]. constructor; [exact L|].
      eapply Forall_impl; [|exact Hw]. unfold notEarlier. intros x Hx. lia.
    + constructor; [exact IH|].
      apply (Permutation_Forall (x := v :: c)).
      * symmetry. apply insertLatest_perm.
      * constructor; [unfold notEarlier; lia|exact Hw].
Qed.

Lemma findSorted_sorted (c : collection) :
  StronglySorted notEarlier (findSorted c).
Proof.
  induction c as [|v c IH]; simpl; [constructor|now apply insertLatest_sorted].
Qed.

Lemma filter_sorted (p : t -> bool) (c : collection) :
  StronglySorted notEarlier c -> StronglySorted notEarlier (filter p c).
Proof.
  induction 1 as [|w c Hc IH Hw]; simpl; [constructor|].
  destruct (p w); [|exact IH]. constructor; [exact IH|].
  apply Forall_forall. intros x Hx. apply filter_In in Hx as [Hx _].
  rewrite Forall_forall in Hw. now apply Hw.
Qed.

Lemma filter_perm (p : t -> bool) (c d : collection) :
  Permutation c d -> Permutation (filter p c) (filter p d).
Proof.
  induction 1 as [|x c d _ IH|x y c|c d e _ IH1 _ IH2]; simpl.
  - constructor.
  - destruct (p x); [now constructor|exact IH].
  - destruct (p x), (p y); try reflexivity. apply perm_swap.
  - now transitivity (filter p d).
Qed.

End SortFacts.

(** The check on the numbers read back from a record is the check on the
    numbers the record stores. *)
Lemma readBack_valid (x y : number) :
  valid (validateCoordinates (Num (readBack x)) (Num (readBack y)))
  = valid (validateCoordinates (Num x) (Num y)).
Proof.
  rewrite !valid_formula. unfold readBack.
  now rewrite !NumFacts.zero_normal_lt_l, !NumFacts.zero_normal_lt_r,
    !NumFacts.zero_normal_nan.
Qed.

(** The callback shows a record whose stored coordinates are valid and
    answers [null] for any other. *)
Lemma transform_valid {host : Host} (vehicle : Vehicle.t) :
  transform vehicle
  = if storedCoordinatesValid vehicle then Some (listed vehicle) else None.
Proof.
  unfold transform, storedCoordinatesValid. cbv zeta.
  change (parseFloat (Num (Vehicle.lat vehicle)))
    with (readBack (Vehicle.lat vehicle)).
  change (parseFloat (Num (Vehicle.lng vehicle)))
    with (readBack (Vehicle.lng vehicle)).
  rewrite readBack_valid.
  destruct (valid (validateCoordinates (Num (Vehicle.lat vehicle))
                     (Num (Vehicle.lng vehicle)))); reflexivity.
Qed.

(** C6. Whatever the collection holds, the list route answers 200 with
    one element for each stored vehicle whose coordinates pass the check,
    in an order in which [lastUpdated] never increases; a record whose
    coordinates fail the check is left out and the answer is still 200. *)
Theorem list_shows_valid_vehicles_latest_first {host : Host}
    (db : Vehicle.collection) :
  exists shown,
    listVehicles db = {| status := 200; body := JArr (map listed shown) |}
    /\ Permutation shown (filter storedCoordinatesValid db)
    /\ StronglySorted notEarlier shown
    /\ (forall v, In v shown <-> In v db /\ storedCoordinatesValid v = true).
Proof.
  exists (filter storedCoordinatesValid (Vehicle.findSorted db)).
  assert (Q : Permutation (filter storedCoordinatesValid (Vehicle.findSorted db))
                (filter storedCoordinatesValid db)).
  { apply SortFacts.filter_perm, SortFacts.findSorted_perm. }
  split; [|split; [exact Q|split]].
  - unfold listVehicles. cbv zeta. f_equal. f_equal.
    apply ListFacts.mapNotNull_filter. apply transform_valid.
  - apply SortFacts.filter_sorted, SortFacts.findSorted_sorted.
  - intros v. rewrite <- filter_In. split; apply Permutation_in;
      [exact Q|symmetry; exact Q].
Qed.

Example list_omits_invalid_record :
  listVehicles (host := numericHost) [Sample.car1; Sample.stray; Sample.bus]
  = {| status := 200;
       body := JArr [listed Sample.bus; listed Sample.car1] |}.
Proof. reflexivity. Qed.

(* ================================================================== *)
(** * The user routes *)
(* ================================================================== *)

Section UserFacts.

Context {host : Host}.

(** A login request that lacks a field is answered 400. *)
Lemma login_incomplete (db : User.collection) (req : UserRequest) :
  missing (reqUsername req) || missing (reqPassword req) = true ->
  login db req
  = {| status := 400; body := refusal "Please provide username and password" |}.
Proof. intros M. unfold login. now rewrite M. Qed.

(** What [POST /login] does with a request that has both fields. *)
Lemma login_complete (db : User.collection) (req : UserRequest) :
  missing (reqUsername req) = false -> missing (reqPassword req) = false ->
  login db req
  = match User.findOneOr (text (reqUsername req)) (text (reqUsername req)) db with
    | None => authError
    | Some user =>
        if bcryptCompare (text (reqPassword req)) (User.password user)
        then {| status := 200;
                body := JObj [("success", JBool true);
                              ("message", JText [Lit "Login successful"]);
                              ("user", publicUser user)]%string |}
        else authError
    end.
Proof.
  intros M1 M2. unfold login. rewrite M1, M2. cbn [orb].
  destruct (User.findOneOr _ _ db) as [user|]; [|reflexivity].
  destruct (bcryptCompare _ _); reflexivity.
Qed.

(** Every answer of [POST /login] with status 401 is the same answer. *)
Lemma login_401 (db : User.collection) (req : UserRequest) :
  status (login db req) = 401 -> login db req = authError.
Proof.
  destruct (missing (reqUsername req) || missing (reqPassword req)) eqn:M.
  { rewrite (login_incomplete db req M). discriminate. }
  apply orb_false_iff in M as [M1 M2].
  rewrite (login_complete db req M1 M2).
  destruct (User.findOneOr _ _ db) as [user|]; [|reflexivity].
  destruct (bcryptCompare _ _); [discriminate|reflexivity].
Qed.

Lemma findOneOr_In (u e : jsstring) (db : User.collection) (user : User.t) :
  User.findOneOr u e db = Some user -> In user db.
Proof. unfold User.findOneOr. intros H. now apply find_some in H. Qed.

Lemma findOne_In (u : jsstring) (db : User.collection) (user : User.t) :
  User.findOne u db = Some user -> In user db /\ User.username user = u.
Proof.
  unfold User.findOne. intros H. apply find_some in H as [H1 H2].
  split; [exact H1|now apply StrFacts.eqb_eq].
Qed.

(** What [POST /register] does with a request that passed the checks on
    its input. *)
Lemma register_checked (amb : Ambient) (db : User.collection)
    (req : UserRequest) :
  missing (reqUsername req) = false -> missing (reqEmail req) = false ->
  6 <= List.length (text (reqPassword req)) ->
  3 <= List.length (text (reqUsername req)) ->
  register amb db req
  = match User.findOneOr (text (reqUsername req)) (text (reqEmail req)) db with
    | Some existingUser =>
        ({| status := 400;
            body := refusal
              (if JSString.eqb (User.username existingUser) (text (reqUsername req))
               then "Username already exists"
               else "Email already exists") |}, db)
    | None =>
        let user :=
          {| User._id := freshId amb;
             User.username := text (reqUsername req);
             User.email := text (reqEmail req);
             User.password :=
               bcryptHash (salt amb) 12 (text (reqPassword req));
             User.createdAt := atSave amb;
             User.updatedAt := atSave amb |} in
        ({| status := 201;
            body := JObj [("success", JBool true);
                          ("message", JText [Lit "User registered successfully"]);
                          ("user", publicUser user)]%string |},
         db ++ [user])
    end.
Proof.
  intros M1 M2 L1 L2. unfold register.
  assert (M3 : missing (reqPassword req) = false).
  { destruct (reqPassword req) as [[|c p]|]; simpl in *; [lia|reflexivity|lia]. }
  rewrite M1, M2, M3. cbn [orb].
  apply Nat.ltb_ge in L1, L2. rewrite L1, L2. reflexivity.
Qed.

(** A register request that fails a check on its input is answered with
    a validation error and stores nothing. *)
Lemma register_rejected (amb : Ambient) (db : User.collection)
    (req : UserRequest) :
  List.length (text (reqPassword req)) < 6
  \/ List.length (text (reqUsername req)) < 3 ->
  validationError (fst (register amb db req))
  /\ snd (register amb db req) = db.
Proof.
  intros H. unfold register, validationError.
  destruct (missing (reqUsername req) || missing (reqEmail req)
            || missing (reqPassword req)).
  { cbn. repeat split. now left. }
  destruct (Nat.ltb_spec (List.length (text (reqPassword req))) 6) as [L1|L1].
  { cbn. repeat split. right. now left. }
  destruct (Nat.ltb_spec (List.length (text (reqUsername req))) 3) as [L2|L2].
  { cbn. repeat split. right. right. now left. }
  exfalso. lia.
Qed.

End UserFacts.

(** C7. A login that fails on the password of an existing user and a
    login that fails for want of a matching user get the same answer, the
    status 401 with the message that names no field; more generally any
    two logins answered 401, in whatever collections, get the same
    response. *)
Theorem login_failures_are_indistinguishable {host : Host} :
  (forall db req user,
     missing (reqUsername req) = false -> missing (reqPassword req) = false ->
     User.findOneOr (text (reqUsername req)) (text (reqUsername req)) db
     = Some user ->
     bcryptCompare (text (reqPassword req)) (User.password user) = false ->
     login db req = authError)
  /\ (forall db req,
        missing (reqUsername req) = false -> missing (reqPassword req) = false ->
        User.findOneOr (text (reqUsername req)) (text (reqUsername req)) db
        = None ->
        login db req = authError)
  /\ (forall db db' req req',
        status (login db req) = 401 -> status (login db' req') = 401 ->
        login db req = login db' req').
Proof.
  split; [|split].
  - intros db req user M1 M2 F C.
    now rewrite (login_complete db req M1 M2), F, C.
  - intros db req M1 M2 F. now rewrite (login_complete db req M1 M2), F.
  - intros db db' req req' S S'.
    now rewrite (login_401 db req S), (login_401 db' req' S').
Qed.

Lemma login_failures_are_indistinguishable_witness :
  let wrongPassword := Sample.credentials "alice" "" "rabbit-hole" in
  let unknownUser := Sample.credentials "mallory" "" "wonderland" in
  login (host := numericHost) [Sample.alice] wrongPassword = authError
  /\ login (host := numericHost) [Sample.alice] unknownUser = authError
  /\ login (host := numericHost) [Sample.alice] wrongPassword
     = login (host := numericHost) [Sample.alice] unknownUser.
Proof.
  cbv zeta. split; [|split].
  - apply (proj1 (@login_failures_are_indistinguishable numericHost)
             [Sample.alice] (Sample.credentials "alice" "" "rabbit-hole")
             Sample.alice); reflexivity.
  - apply (proj1 (proj2 (@login_failures_are_indistinguishable numericHost))
             [Sample.alice] (Sample.credentials "mallory" "" "wonderland"));
      reflexivity.
  - apply (proj2 (proj2 (@login_failures_are_indistinguishable numericHost)));
      reflexivity.
Defined.

Example login_with_the_password :
  status (login (host := numericHost) [Sample.alice]
            (Sample.credentials "alice" "" "wonderland")) = 200.
Proof. reflexivity. Qed.

(** C8. A register request whose password is shorter than 6 code units
    fails with a validation error and stores nothing, and so does one
    whose username is shorter than 3; a request with username and email
    present, a username of at least 3, a password of 6 or more and no
    stored user with that username or that email is answered 201 and its
    user is stored. *)
Theorem register_checks_lengths {host : Host} (amb : Ambient)
    (db : User.collection) (req : UserRequest) :
  (List.length (text (reqPassword req)) < 6 ->
   validationError (fst (register amb db req))
   /\ snd (register amb db req) = db)
  /\ (List.length (text (reqUsername req)) < 3 ->
      validationError (fst (register amb db req))
      /\ snd (register amb db req) = db)
  /\ (missing (reqUsername req) = false -> missing (reqEmail req) = false ->
      6 <= List.length (text (reqPassword req)) ->
      3 <= List.length (text (reqUsername req)) ->
      User.findOneOr (text (reqUsername req)) (text (reqEmail req)) db = None ->
      exists user,
        register amb db req
        = ({| status := 201;
              body := JObj [("success", JBool true);
                            ("message", JText [Lit "User registered successfully"]);
                            ("user", publicUser user)]%string |},
           db ++ [user])
        /\ User.username user = text (reqUsername req)
        /\ User.email user = text (reqEmail req)
        /\ User.password user
           = bcryptHash (salt amb) 12 (text (reqPassword req))).
Proof.
  split; [|split].
  - intros L. apply register_rejected. now left.
  - intros L. apply register_rejected. now right.
  - intros M1 M2 L1 L2 F.
    rewrite (register_checked amb db req M1 M2 L1 L2), F. cbv zeta.
    eexists. split; [reflexivity|]. repeat split.
Qed.

Lemma register_checks_lengths_witness :
  let five := Sample.credentials "bob" "bob@example.org" "12345" in
  let six := Sample.credentials "bob" "bob@example.org" "123456" in
  status (fst (register (host := numericHost) Sample.amb [Sample.alice] five)) = 400
  /\ snd (register (host := numericHost) Sample.amb [Sample.alice] five)
     = [Sample.alice]
  /\ exists user,
       snd (register (host := numericHost) Sample.amb [Sample.alice] six)
       = [Sample.alice; user]
       /\ status (fst (register (host := numericHost) Sample.amb [Sample.alice] six))
          = 201.
Proof.
  cbv zeta.
  destruct (proj1 (@register_checks_lengths numericHost Sample.amb [Sample.alice]
                     (Sample.credentials "bob" "bob@example.org" "12345")))
    as [[S _] D]; [simpl; lia|].
  split; [exact S|]. split; [exact D|].
  destruct (proj2 (proj2 (@register_checks_lengths numericHost Sample.amb
                            [Sample.alice]
                            (Sample.credentials "bob" "bob@example.org" "123456")))
              eq_refl eq_refl)
    as (user & R & _); [simpl; lia|simpl; lia|reflexivity|].
  exists user. rewrite R. split; reflexivity.
Defined.

Example register_short_username :
  fst (register (host := numericHost) Sample.amb []
         (Sample.credentials "al" "al@example.org" "123456"))
  = {| status := 400;
       body := refusal "Username must be at least 3 characters long" |}.
Proof. reflexivity. Qed.

(** The lookups of the user routes read the usernames and the emails,
    not what is stored under [password]. *)
Lemma findOneOr_rehashed (f : User.t -> jsstring) (u e : jsstring)
    (db : User.collection) :
  User.findOneOr u e (map (fun x => withPassword (f x) x) db)
  = option_map (fun x => withPassword (f x) x) (User.findOneOr u e db).
Proof.
  unfold User.findOneOr. induction db as [|x db IH]; [reflexivity|].
  cbn [map find withPassword User.username User.email].
  destruct (JSString.eqb (User.username x) u || JSString.eqb (User.email x) e);
    [reflexivity|exact IH].
Qed.

Lemma findOne_rehashed (f : User.t -> jsstring) (u : jsstring)
    (db : User.collection) :
  User.findOne u (map (fun x => withPassword (f x) x) db)
  = option_map (fun x => withPassword (f x) x) (User.findOne u db).
Proof.
  unfold User.findOne. induction db as [|x db IH]; [reflexivity|].
  cbn [map find withPassword User.username].
  destruct (JSString.eqb (User.username x) u); [reflexivity|exact IH].
Qed.

(** C9. Every answer of the user routes is one of two things. An answer
    that serves the request is made of [success], a message (none for the
    profile) and, under [user], an object with exactly the fields [_id],
    [username] and [email] of a stored user; that object is the same for
    two users who differ in their password hash only. Every other answer
    is the failure envelope around one of the fixed messages of the
    route. So no answer has a field named [password], and none carries
    what is stored under it: the answers of the register and profile
    routes are the same whatever the stored users have under [password],
    and so are those of the login route as long as the comparison of the
    password with it comes out the same. *)
Theorem user_routes_answer_public_fields {host : Host} :
  (forall amb db req,
     mentions "password" (body (fst (register amb db req))) = false
     /\ (served (fst (register amb db req)) = true ->
         exists user,
           In user (snd (register amb db req))
           /\ body (fst (register amb db req))
              = JObj [("success", JBool true);
                      ("message", JText [Lit "User registered successfully"]);
                      ("user", publicUser user)]%string)
     /\ (served (fst (register amb db req)) = false ->
         exists m,
           In m ["Please provide username, email, and password";
                 "Password must be at least 6 characters long";
                 "Username must be at least 3 characters long";
                 "Username already exists";
                 "Email already exists"]%string
           /\ fst (register amb db req)
              = {| status := 400; body := refusal m |}))
  /\ (forall db req,
        mentions "password" (body (login db req)) = false
        /\ (served (login db req) = true ->
            exists user,
              In user db
              /\ body (login db req)
                 = JObj [("success", JBool true);
                         ("message", JText [Lit "Login successful"]);
                         ("user", publicUser user)]%string)
        /\ (served (login db req) = false ->
            login db req
            = {| status := 400;
                 body := refusal "Please provide username and password" |}
            \/ login db req
               = {| status := 401;
                    body := refusal "Invalid username or password" |}))
  /\ (forall db username,
        mentions "password" (body (profile db username)) = false
        /\ (served (profile db username) = true ->
            exists user,
              In user db /\ User.username user = username
              /\ body (profile db username)
                 = JObj [("success", JBool true);
                         ("user", publicUser user)]%string)
        /\ (served (profile db username) = false ->
            profile db username
            = {| status := 404; body := refusal "User not found" |}))
  /\ (forall user,
        keys (publicUser user) = ["_id"; "username"; "email"]%string
        /\ field (publicUser user) "_id" = Some (JId (User._id user))
        /\ field (publicUser user) "username" = Some (JStr (User.username user))
        /\ field (publicUser user) "email" = Some (JStr (User.email user)))
  /\ (forall user user',
        User._id user = User._id user' ->
        User.username user = User.username user' ->
        User.email user = User.email user' ->
        publicUser user = publicUser user')
  /\ (forall (f : User.t -> jsstring) amb db req username,
        let db' := map (fun user => withPassword (f user) user) db in
        fst (register amb db' req) = fst (register amb db req)
        /\ profile db' username = profile db username
        /\ ((forall user,
               In user db ->
               bcryptCompare (text (reqPassword req)) (f user)
               = bcryptCompare (text (reqPassword req)) (User.password user)) ->
            login db' req = login db req)).
Proof.
  split; [|split; [|split; [|split; [|split]]]].
  - intros amb db req. unfold register.
    destruct (missing (reqUsername req) || missing (reqEmail req)
              || missing (reqPassword req)).
    { split; [reflexivity|]. split; [discriminate|]. intros _.
      eexists. split; [|reflexivity]. now left. }
    destruct (List.length (text (reqPassword req)) <? 6).
    { split; [reflexivity|]. split; [discriminate|]. intros _.
      eexists. split; [|reflexivity]. right. now left. }
    destruct (List.length (text (reqUsername req)) <? 3).
    { split; [reflexivity|]. split; [discriminate|]. intros _.
      eexists. split; [|reflexivity]. do 2 right. now left. }
    destruct (User.findOneOr _ _ db) as [existingUser|].
    + destruct (JSString.eqb _ _);
        (split; [reflexivity|]); (split; [discriminate|]); intros _;
        eexists; (split; [|reflexivity]).
      * do 3 right. now left.
      * do 4 right. now left.
    + cbv zeta. split; [reflexivity|]. split; [|discriminate].
      intros _. eexists. split; [|reflexivity].
      cbn [snd]. unfold User.insertOne. apply in_or_app. right. now left.
  - intros db req. unfold login.
    destruct (missing (reqUsername req) || missing (reqPassword req)).
    { split; [reflexivity|]. split; [discriminate|]. intros _. now left. }
    destruct (User.findOneOr _ _ db) as [user|] eqn:F.
    2:{ split; [reflexivity|]. split; [discriminate|]. intros _. now right. }
    cbv zeta. destruct (bcryptCompare _ _); cbn [negb].
    2:{ split; [reflexivity|]. split; [discriminate|]. intros _. now right. }
    split; [reflexivity|]. split; [|discriminate]. intros _. exists user.
    split; [exact (findOneOr_In _ _ _ _ F)|reflexivity].
  - intros db username. unfold profile.
    destruct (User.findOne username db) as [user|] eqn:F.
    2:{ split; [reflexivity|]. split; [discriminate|]. reflexivity. }
    split; [reflexivity|]. split; [|discriminate]. intros _. exists user.
    destruct (findOne_In _ _ _ F) as [I U].
    split; [exact I|]. split; [exact U|reflexivity].
  - intros user. repeat split.
  - intros user user' I U E. unfold publicUser. now rewrite I, U, E.
  - intros f amb db req username db'. unfold db'. split; [|split].
    + unfold register. rewrite findOneOr_rehashed.
      destruct (missing (reqUsername req) || missing (reqEmail req)
                || missing (reqPassword req)); [reflexivity|].
      destruct (List.length (text (reqPassword req)) <? 6); [reflexivity|].
      destruct (List.length (text (reqUsername req)) <? 3); [reflexivity|].
      destruct (User.findOneOr _ _ db); reflexivity.
    + unfold profile. rewrite findOne_rehashed.
      destruct (User.findOne username db); reflexivity.
    + intros A. unfold login. rewrite findOneOr_rehashed.
      destruct (missing (reqUsername req) || missing (reqPassword req));
        [reflexivity|].
      destruct (User.findOneOr _ _ db) as [user|] eqn:F; [|reflexivity].
      cbn [option_map withPassword User.password].
      now rewrite (A user (findOneOr_In _ _ _ _ F)).
Qed.

(** A login that is served, and the same requests against a store whose
    users have something else under [password]. *)
Lemma user_routes_answer_public_fields_witness :
  served (login (host := numericHost) [Sample.alice]
            (Sample.credentials "alice" "" "wonderland")) = true
  /\ body (login (host := numericHost) [Sample.alice]
             (Sample.credentials "alice" "" "wonderland"))
     = JObj [("success", JBool true);
             ("message", JText [Lit "Login successful"]);
             ("user", publicUser Sample.alice)]%string
  /\ mentions "password"
       (body (login (host := numericHost) [Sample.alice]
                (Sample.credentials "alice" "" "wonderland"))) = false
  /\ profile [withPassword (lit "other") Sample.alice] (lit "alice")
     = profile [Sample.alice] (lit "alice").
Proof.
  split; [reflexivity|].
  destruct (proj1 (proj2 (@user_routes_answer_public_fields numericHost))
              [Sample.alice] (Sample.credentials "alice" "" "wonderland"))
    as (P & S & _).
  destruct (S eq_refl) as (user & I & B).
  destruct I as [<-|[]]. split; [exact B|]. split; [exact P|].
  exact (proj1 (proj2 (proj2 (proj2 (proj2 (proj2 (proj2
           (@user_routes_answer_public_fields numericHost)))))
           (fun _ => lit "other") Sample.amb [Sample.alice]
           (Sample.credentials "alice" "" "wonderland") (lit "alice")))).
Defined.

(* ================================================================== *)
(** * Two runs through the vehicle routes *)
(* ================================================================== *)

(** What create stores is what [GET /:id] returns: the name, the
    coordinates and a history of one entry. *)
Example create_then_get :
  let out := createVehicle (host := numericHost) Sample.amb []
               (Sample.at_ "V1" 23.8125 90.5) in
  status (fst out) = 201
  /\ getVehicle (host := numericHost) (snd out) (freshId Sample.amb)
     = {| status := 200;
          body := JObj [("success", JBool true);
                        ("vehicle",
                         Vehicle.toJSON
                           {| Vehicle._id := 7;
                              Vehicle.name := lit "V1";
                              Vehicle.lat := 23.8125;
                              Vehicle.lng := 90.5;
                              Vehicle.lastUpdated := atLastUpdated Sample.amb;
                              Vehicle.locationHistory :=
                                [{| Vehicle.entryLat := 23.8125;
                                    Vehicle.entryLng := 90.5;
                                    Vehicle.timestamp := atTimestamp Sample.amb |}];
                              Vehicle.createdAt := atSave Sample.amb;
                              Vehicle.updatedAt := atSave Sample.amb |})]%string |}.
Proof. split; reflexivity. Qed.

(** After a delete by name the vehicle is no longer listed, and a second
    delete finds nothing. *)
Example delete_then_list :
  let out := deleteVehicleByName [Sample.car1; Sample.bus] (lit "Car-1") in
  status (fst out) = 200
  /\ listVehicles (host := numericHost) (snd out)
     = {| status := 200; body := JArr [listed Sample.bus] |}
  /\ status (fst (deleteVehicleByName (snd out) (lit "Car-1"))) = 404
  /\ status (fst (deleteVehicle (snd out) 1)) = 404.
Proof. repeat split. Qed.

(* ================================================================== *)
(** * More on the vehicle routes: lookup, deletion and how they compose *)
(* ================================================================== *)

Module StoreFacts.

Import Vehicle.

Lemma findById_Some (i : ObjectId) (c : collection) (v : t) :
  findById i c = Some v -> In v c /\ _id v = i.
Proof.
  unfold findById. intros H. apply find_some in H as [H1 H2].
  split; [exact H1|now apply Nat.eqb_eq].
Qed.

Lemma findById_None (i : ObjectId) (c : collection) :
  findById i c = None <-> ~ In i (map _id c).
Proof.
  unfold findById. induction c as [|w c IH]; simpl; [tauto|].
  destruct (Nat.eqb_spec (_id w) i) as [E|E].
  - split; [discriminate|]. intros H. exfalso. apply H. now left.
  - rewrite IH. tauto.
Qed.

(** With unique identifiers, a stored document is the one found under
    its identifier. *)
Lemma findById_In (c : collection) (v : t) :
  NoDup (map _id c) -> In v c -> findById (_id v) c = Some v.
Proof.
  unfold findById. induction c as [|w c IH]; simpl; [tauto|].
  intros U [->|I]; [now rewrite Nat.eqb_refl|].
  inversion U as [|i l Hi U']; subst i l.
  destruct (Nat.eqb_spec (_id w) (_id v)) as [E|E]; [|now apply IH].
  exfalso. apply Hi. rewrite E. now apply in_map.
Qed.

Lemma findById_app_fresh (i : ObjectId) (c : collection) (v : t) :
  ~ In i (map _id c) -> _id v = i -> findById i (c ++ [v]) = Some v.
Proof.
  intros F E. apply findById_None in F. unfold findById in *.
  induction c as [|w c IH]; simpl in *.
  - now rewrite E, Nat.eqb_refl.
  - destruct (Nat.eqb (_id w) i); [discriminate|now apply IH].
Qed.

(** [deleteOne] takes out the document [findOne] finds and nothing
    else. *)
Lemma deleteOne_split (n : jsstring) (c : collection) (v : t) :
  findOne n c = Some v ->
  exists before after,
    c = before ++ v :: after
    /\ deleteOne n c = before ++ after
    /\ findOne n before = None.
Proof.
  unfold findOne. induction c as [|w c IH]; simpl; [discriminate|].
  destruct (JSString.eqb (name w) (trim n)) eqn:E.
  - intros [= ->]. now exists [], c.
  - intros F. destruct (IH F) as (before & after & -> & D & B).
    exists (w :: before), after. simpl. rewrite D, E. now repeat split.
Qed.

Lemma deleteOne_None (n : jsstring) (c : collection) :
  findOne n c = None -> deleteOne n c = c.
Proof.
  unfold findOne. induction c as [|w c IH]; simpl; [reflexivity|].
  destruct (JSString.eqb (name w) (trim n)); [discriminate|].
  intros F. now rewrite IH.
Qed.

Lemma deleteOne_app_last (n : jsstring) (c : collection) (v : t) :
  findOne n c = None -> name v = trim n -> deleteOne n (c ++ [v]) = c.
Proof.
  unfold findOne. intros F E. induction c as [|w c IH]; simpl in *.
  - now rewrite E, StrFacts.eqb_refl.
  - destruct (JSString.eqb (name w) (trim n)); [discriminate|].
    now rewrite IH.
Qed.

Lemma deleteById_split (i : ObjectId) (c : collection) (v : t) :
  findById i c = Some v ->
  exists before after,
    c = before ++ v :: after
    /\ deleteById i c = before ++ after
    /\ findById i before = None.
Proof.
  unfold findById. induction c as [|w c IH]; simpl; [discriminate|].
  destruct (Nat.eqb (_id w) i) eqn:E.
  - intros [= ->]. now exists [], c.
  - intros F. destruct (IH F) as (before & after & -> & D & B).
    exists (w :: before), after. simpl. rewrite D, E. now repeat split.
Qed.

(** Where names are unique, what is left around a document does not
    bear its name. *)
Lemma unique_name_gone (n : jsstring) (before after : collection) (v : t) :
  NoDup (map name (before ++ v :: after)) -> name v = trim n ->
  findOne n (before ++ after) = None.
Proof.
  rewrite map_app. cbn [map]. intros U N. apply NoDup_remove_2 in U.
  apply VehicleFacts.findOne_None. intros w I E. apply U.
  rewrite <- map_app, N, <- E. now apply in_map.
Qed.

Lemma unique_id_gone (before after : collection) (v : t) :
  NoDup (map _id (before ++ v :: after)) ->
  findById (_id v) (before ++ after) = None.
Proof.
  rewrite map_app. cbn [map]. intros U. apply NoDup_remove_2 in U.
  apply findById_None. now rewrite map_app.
Qed.

(** [findOne] answers the first document of its name. *)
Lemma findOne_split (n : jsstring) (c : collection) (v : t) :
  findOne n c = Some v ->
  exists before after,
    c = before ++ v :: after /\ findOne n before = None.
Proof.
  intros F. destruct (deleteOne_split n c v F) as (before & after & E & _ & B).
  now exists before, after.
Qed.

(** With unique identifiers, [replaceOne] puts the new document in the
    place of the stored one and touches nothing else. *)
Lemma replaceOne_at (before after : collection) (v v' : t) :
  NoDup (map _id (before ++ v :: after)) -> _id v' = _id v ->
  replaceOne v' (before ++ v :: after) = before ++ v' :: after.
Proof.
  intros U E. induction before as [|w before IH]; simpl in *.
  - now rewrite E, Nat.eqb_refl.
  - inversion U as [|i l Hi U']; subst i l.
    destruct (Nat.eqb_spec (_id w) (_id v')) as [Q|Q].
    + exfalso. apply Hi. rewrite Q, E, map_app. apply in_or_app. right. now left.
    + now rewrite IH.
Qed.

Lemma deleteById_app_last (i : ObjectId) (c : collection) (v : t) :
  ~ In i (map _id c) -> _id v = i -> deleteById i (c ++ [v]) = c.
Proof.
  intros F E. induction c as [|w c IH]; simpl in *.
  - now rewrite E, Nat.eqb_refl.
  - destruct (Nat.eqb_spec (_id w) i) as [Q|Q]; [tauto|].
    rewrite IH; tauto.
Qed.

Lemma NoDup_snoc {A : Type} (l : list A) (a : A) :
  NoDup l -> ~ In a l -> NoDup (l ++ [a]).
Proof.
  intros U F. apply (Permutation_NoDup (l := a :: l)).
  - apply Permutation_cons_append.
  - now constructor.
Qed.

(** The first element of a list sorted latest first that holds a
    document later than every other is that document. *)
Lemma latest_is_first (a v : t) (l : collection) :
  StronglySorted notEarlier (a :: l) -> In v (a :: l) ->
  (forall w, In w (a :: l) ->
     w = v \/ (lastUpdated w < lastUpdated v)%Z) ->
  a = v.
Proof.
  intros S I L. destruct (L a (or_introl eq_refl)) as [E|E]; [exact E|].
  destruct I as [I|I]; [exact I|].
  apply StronglySorted_inv in S as [_ F]. rewrite Forall_forall in F.
  specialize (F v I). unfold notEarlier in F. lia.
Qed.

End StoreFacts.

(** The answer of the list route, spelled out. *)
Lemma listVehicles_shown {host : Host} (db : Vehicle.collection) :
  listVehicles db
  = {| status := 200;
       body := JArr (map listed
                       (filter storedCoordinatesValid (Vehicle.findSorted db))) |}.
Proof.
  unfold listVehicles. cbv zeta. f_equal. f_equal.
  apply ListFacts.mapNotNull_filter. apply transform_valid.
Qed.

Lemma shown_In {host : Host} (db : Vehicle.collection) (v : Vehicle.t) :
  In v (filter storedCoordinatesValid (Vehicle.findSorted db))
  <-> In v db /\ storedCoordinatesValid v = true.
Proof.
  rewrite filter_In. split; intros [I V]; (split; [|exact V]).
  - apply (Permutation_in _ (SortFacts.findSorted_perm db)), I.
  - apply (Permutation_in _ (Permutation_sym (SortFacts.findSorted_perm db))), I.
Qed.

(** Coordinates that passed the check of a route are stored as valid
    coordinates. *)
Lemma passed_stored_valid {host : Host} (req : VehicleRequest) (v : Vehicle.t) :
  coordinatesPass req = true ->
  Vehicle.lat v = parseFloat (reqLat req) ->
  Vehicle.lng v = parseFloat (reqLng req) ->
  storedCoordinatesValid v = true.
Proof.
  unfold coordinatesPass, storedCoordinatesValid. now intros P -> ->.
Qed.

Section VehicleSteps.

Context {host : Host}.

(** [GET /:id] on an identifier that is stored. *)
Lemma getVehicle_found (db : Vehicle.collection) (id : ObjectId)
    (vehicle : Vehicle.t) :
  Vehicle.findById id db = Some vehicle ->
  getVehicle db id
  = if storedCoordinatesValid vehicle then
      {| status := 200;
         body := JObj [("success", JBool true);
                       ("vehicle", Vehicle.toJSON vehicle)]%string |}
    else
      {| status := 400;
         body := failure
           (error (validateCoordinates
                     (Num (readBack (Vehicle.lat vehicle)))
                     (Num (readBack (Vehicle.lng vehicle))))) |}.
Proof.
  intros F. unfold getVehicle. rewrite F. cbv zeta.
  change (parseFloat (Num (Vehicle.lat vehicle)))
    with (readBack (Vehicle.lat vehicle)).
  change (parseFloat (Num (Vehicle.lng vehicle)))
    with (readBack (Vehicle.lng vehicle)).
  rewrite readBack_valid. fold (storedCoordinatesValid vehicle).
  now destruct (storedCoordinatesValid vehicle).
Qed.

(** The create route leaves the collection as it was or appends the
    document it made. *)
Lemma create_store (amb : Ambient) (db : Vehicle.collection)
    (req : VehicleRequest) :
  snd (createVehicle amb db req) = db
  \/ (Vehicle.findOne (trim (text (reqName req))) db = None
      /\ snd (createVehicle amb db req)
         = db ++ [Vehicle.new amb (trim (text (reqName req)))
                    (parseFloat (reqLat req)) (parseFloat (reqLng req))]).
Proof.
  unfold createVehicle. cbv zeta.
  destruct (missing (reqName req) || isUndefined (reqLat req)
            || isUndefined (reqLng req)); [now left|].
  destruct (negb _); [now left|].
  destruct (Vehicle.findOne _ db) eqn:F; [now left|].
  unfold Vehicle.insertOne. destruct (Vehicle.validates _); [|now left].
  right. now split.
Qed.

(** The update route leaves the collection as it was or replaces the
    document it found. *)
Lemma update_store (amb : Ambient) (db : Vehicle.collection)
    (req : VehicleRequest) :
  snd (updateVehicle amb db req) = db
  \/ exists vehicle date,
       Vehicle.findOne (text (reqName req)) db = Some vehicle
       /\ snd (updateVehicle amb db req)
          = Vehicle.replaceOne
              (moved amb vehicle (parseFloat (reqLat req))
                 (parseFloat (reqLng req)) date) db.
Proof.
  unfold updateVehicle. cbv zeta.
  destruct (missing (reqName req) || isUndefined (reqLat req)
            || isUndefined (reqLng req)); [now left|].
  destruct (negb _); [now left|].
  destruct (Vehicle.findOne _ db) as [vehicle|] eqn:F; [|now left].
  destruct (if truthy (reqLastUpdated req) then _ else _) as [date|];
    [|now left].
  right. now exists vehicle, date.
Qed.

End VehicleSteps.

(** The answer of a delete names the document it removed. *)
Lemma deleted_name (a b : Vehicle.t) :
  deleted a = deleted b -> Vehicle.name a = Vehicle.name b.
Proof.
  intros H.
  apply (f_equal (fun r => match field (body r) "deletedVehicle" with
                           | Some j => field j "name"
                           | None => None
                           end)) in H.
  cbn in H. now injection H.
Qed.

(* ================================================================== *)
(** * Reading one vehicle ([GET /:id]) *)
(* ================================================================== *)

(** X1. [GET /:id] answers 404 exactly for the identifiers no stored
    vehicle has, and then with the message of the route. *)
Theorem get_unknown_id_not_found {host : Host} (db : Vehicle.collection)
    (id : ObjectId) :
  (status (getVehicle db id) = 404 <-> ~ In id (map Vehicle._id db))
  /\ (status (getVehicle db id) = 404 ->
      getVehicle db id
      = {| status := 404; body := failure (Some [Lit "Vehicle not found"]) |}).
Proof.
  destruct (Vehicle.findById id db) as [v|] eqn:F.
  - rewrite (getVehicle_found db id v F).
    destruct (StoreFacts.findById_Some id db v F) as [I E].
    assert (In id (map Vehicle._id db))
      by (rewrite <- E; now apply in_map).
    destruct (storedCoordinatesValid v); cbn [status];
      (split; [split; [discriminate|tauto]|discriminate]).
  - unfold getVehicle. rewrite F. cbn [status].
    apply StoreFacts.findById_None in F. tauto.
Qed.

(** X2. With unique identifiers, [GET /:id] serves a stored vehicle
    exactly when [GET /] shows it: both run the same check on the stored
    position, and a stored vehicle that fails it is answered 400 by the
    one and left out by the other. *)
Theorem get_serves_what_list_shows {host : Host} (db : Vehicle.collection)
    (v : Vehicle.t) :
  NoDup (map Vehicle._id db) -> In v db ->
  exists shown,
    listVehicles db = {| status := 200; body := JArr (map listed shown) |}
    /\ (In v shown <->
        getVehicle db (Vehicle._id v)
        = {| status := 200;
             body := JObj [("success", JBool true);
                           ("vehicle", Vehicle.toJSON v)]%string |})
    /\ (~ In v shown <-> status (getVehicle db (Vehicle._id v)) = 400).
Proof.
  intros U I.
  exists (filter storedCoordinatesValid (Vehicle.findSorted db)).
  split; [apply listVehicles_shown|].
  rewrite (getVehicle_found db _ v (StoreFacts.findById_In db v U I)).
  rewrite shown_In.
  destruct (storedCoordinatesValid v); cbn [status].
  - split; [tauto|]. split; [tauto|discriminate].
  - split; [split; [intros [_ H]|]; discriminate|].
    split; [reflexivity|]. intros _ [_ H]. discriminate.
Qed.

Lemma get_serves_what_list_shows_witness :
  exists shown,
    listVehicles (host := numericHost) [Sample.car1; Sample.stray]
    = {| status := 200; body := JArr (map listed shown) |}
    /\ (In Sample.stray shown <->
        getVehicle (host := numericHost) [Sample.car1; Sample.stray] 3
        = {| status := 200;
             body := JObj [("success", JBool true);
                           ("vehicle", Vehicle.toJSON Sample.stray)]%string |})
    /\ (~ In Sample.stray shown <->
        status (getVehicle (host := numericHost)
                  [Sample.car1; Sample.stray] 3) = 400).
Proof.
  apply (get_serves_what_list_shows (host := numericHost)
           [Sample.car1; Sample.stray] Sample.stray).
  - cbn. repeat constructor; cbn; intuition discriminate.
  - right. now left.
Defined.

(** X3. A vehicle the create route stored (201) under an identifier no
    stored vehicle had is served by [GET /:id] under that identifier, with
    the document the create route answered. *)
Theorem created_vehicle_is_served {host : Host} (amb : Ambient)
    (db db' : Vehicle.collection) (req : VehicleRequest) (res : response) :
  createVehicle amb db req = (res, db') -> status res = 201 ->
  ~ In (freshId amb) (map Vehicle._id db) ->
  exists v,
    field (body res) "vehicle" = Some (Vehicle.toJSON v)
    /\ Vehicle._id v = freshId amb
    /\ getVehicle db' (freshId amb)
       = {| status := 200;
            body := JObj [("success", JBool true);
                          ("vehicle", Vehicle.toJSON v)]%string |}.
Proof.
  intros E S F.
  destruct (create_succeeded amb db db' req res E S)
    as (M & P & N & T & D & _).
  set (v := Vehicle.new amb (trim (text (reqName req)))
              (parseFloat (reqLat req)) (parseFloat (reqLng req))) in *.
  exists v. split; [|split; [reflexivity|]].
  - rewrite (create_checked amb db req M P) in E. cbv zeta in E.
    rewrite N in E. fold v in E.
    destruct (Vehicle.insertOne v db); injection E as <- _; [reflexivity|].
    discriminate.
  - rewrite (getVehicle_found db' (freshId amb) v).
    + now rewrite (passed_stored_valid req v P eq_refl eq_refl).
    + rewrite D. now apply StoreFacts.findById_app_fresh.
Qed.

Lemma created_vehicle_is_served_witness :
  let out := createVehicle (host := numericHost) Sample.amb [Sample.car1]
               (Sample.at_ " Car-2 " 10 20) in
  exists v,
    field (body (fst out)) "vehicle" = Some (Vehicle.toJSON v)
    /\ Vehicle._id v = 7
    /\ getVehicle (host := numericHost) (snd out) 7
       = {| status := 200;
            body := JObj [("success", JBool true);
                          ("vehicle", Vehicle.toJSON v)]%string |}.
Proof.
  apply (created_vehicle_is_served (host := numericHost) Sample.amb
           [Sample.car1] _ (Sample.at_ " Car-2 " 10 20) _ eq_refl eq_refl).
  cbn. intuition discriminate.
Defined.

(** X4. After a create that answered 201, [GET /] shows the vehicles it
    showed before and the new one. *)
Theorem created_vehicle_is_listed {host : Host} (amb : Ambient)
    (db db' : Vehicle.collection) (req : VehicleRequest) (res : response) :
  createVehicle amb db req = (res, db') -> status res = 201 ->
  exists v shown,
    field (body res) "vehicle" = Some (Vehicle.toJSON v)
    /\ listVehicles db' = {| status := 200; body := JArr (map listed shown) |}
    /\ In v shown
    /\ (forall w, In w shown <->
          w = v \/ (In w db /\ storedCoordinatesValid w = true)).
Proof.
  intros E S.
  destruct (create_succeeded amb db db' req res E S)
    as (M & P & N & T & D & _).
  set (v := Vehicle.new amb (trim (text (reqName req)))
              (parseFloat (reqLat req)) (parseFloat (reqLng req))) in *.
  assert (V : storedCoordinatesValid v = true)
    by exact (passed_stored_valid req v P eq_refl eq_refl).
  exists v, (filter storedCoordinatesValid (Vehicle.findSorted db')).
  split; [|split; [apply listVehicles_shown|split]].
  - rewrite (create_checked amb db req M P) in E. cbv zeta in E.
    rewrite N in E. fold v in E.
    destruct (Vehicle.insertOne v db); injection E as <- _; [reflexivity|].
    discriminate.
  - apply shown_In. split; [|exact V]. rewrite D. apply in_or_app.
    right. now left.
  - intros w. rewrite shown_In, D, in_app_iff. cbn [In]. split.
    + intros [[I|[<-|[]]] W]; [right|left]; tauto.
    + intros [->|[I W]]; tauto.
Qed.

Lemma created_vehicle_is_listed_witness :
  let out := createVehicle (host := numericHost) Sample.amb
               [Sample.car1; Sample.stray] (Sample.at_ "Car-2" 10 20) in
  exists v shown,
    field (body (fst out)) "vehicle" = Some (Vehicle.toJSON v)
    /\ listVehicles (host := numericHost) (snd out)
       = {| status := 200; body := JArr (map listed shown) |}
    /\ In v shown
    /\ (forall w, In w shown <->
          w = v \/ (In w [Sample.car1; Sample.stray]
                    /\ storedCoordinatesValid w = true)).
Proof.
  exact (created_vehicle_is_listed (host := numericHost) Sample.amb
           [Sample.car1; Sample.stray] _ (Sample.at_ "Car-2" 10 20) _
           eq_refl eq_refl).
Defined.

(* ================================================================== *)
(** * Deleting vehicles ([DELETE /name/:name], [DELETE /:id]) *)
(* ================================================================== *)

(** X5. [DELETE /name/:name] looks the name up as the update route
    does, the filter being trimmed by the schema. When no stored vehicle
    bears the trimmed name it answers 404 and changes nothing; otherwise
    it removes the first vehicle that bears the trimmed name, answers
    with that document, and leaves every other document where it was. So
    a name with white space around it deletes the vehicle stored under
    the name without it. *)
Theorem delete_by_name_removes_first_match
    (db : Vehicle.collection) (n : jsstring) :
  ((forall w, In w db -> Vehicle.name w <> trim n) ->
   deleteVehicleByName db n
   = ({| status := 404; body := failure (Some [Lit "Vehicle not found"]) |},
      db))
  /\ (forall v, In v db -> Vehicle.name v = trim n ->
      exists first before after,
        db = before ++ first :: after
        /\ Vehicle.name first = trim n
        /\ (forall w, In w before -> Vehicle.name w <> trim n)
        /\ deleteVehicleByName db n = (deleted first, before ++ after)
        /\ field (body (deleted first)) "deletedVehicle"
           = Some (Vehicle.toJSON first)).
Proof.
  unfold deleteVehicleByName. split.
  - intros A. apply VehicleFacts.findOne_None in A. now rewrite A.
  - intros v I E. destruct (Vehicle.findOne n db) as [first|] eqn:F.
    + destruct (StoreFacts.deleteOne_split n db first F)
        as (before & after & D & R & B).
      exists first, before, after. rewrite R.
      destruct (VehicleFacts.findOne_Some n db first F) as [_ N].
      repeat split; try assumption; try reflexivity.
      now apply VehicleFacts.findOne_None.
    + exfalso. rewrite VehicleFacts.findOne_None in F. exact (F v I E).
Qed.

(** X6. With unique identifiers, [DELETE /:id] removes the vehicle of
    that identifier and no other, and the identifier is gone afterwards:
    reading or deleting it again answers 404. *)
Theorem delete_by_id_removes_document {host : Host}
    (db : Vehicle.collection) (v : Vehicle.t) :
  NoDup (map Vehicle._id db) -> In v db ->
  exists before after,
    db = before ++ v :: after
    /\ deleteVehicle db (Vehicle._id v) = (deleted v, before ++ after)
    /\ status (getVehicle (before ++ after) (Vehicle._id v)) = 404
    /\ deleteVehicle (before ++ after) (Vehicle._id v)
       = ({| status := 404;
             body := failure (Some [Lit "Vehicle not found"]) |},
          before ++ after).
Proof.
  intros U I. pose proof (StoreFacts.findById_In db v U I) as F.
  destruct (StoreFacts.deleteById_split _ db v F)
    as (before & after & D & R & _).
  exists before, after. rewrite D in U.
  pose proof (StoreFacts.unique_id_gone before after v U) as G.
  unfold deleteVehicle, getVehicle. rewrite F, R, G. now repeat split.
Qed.

Lemma delete_by_id_removes_document_witness :
  exists before after,
    [Sample.car1; Sample.bus; Sample.stray] = before ++ Sample.bus :: after
    /\ deleteVehicle [Sample.car1; Sample.bus; Sample.stray] 2
       = (deleted Sample.bus, before ++ after)
    /\ status (getVehicle (host := numericHost) (before ++ after) 2) = 404
    /\ deleteVehicle (before ++ after) 2
       = ({| status := 404;
             body := failure (Some [Lit "Vehicle not found"]) |},
          before ++ after).
Proof.
  apply (delete_by_id_removes_document (host := numericHost)
           [Sample.car1; Sample.bus; Sample.stray] Sample.bus).
  - cbn. repeat constructor; cbn; intuition discriminate.
  - right. now left.
Defined.

(** X7. A deleted vehicle is not recreated by a late position update:
    where names are unique, once a vehicle was deleted (by name, or by
    identifier when its name is stored trimmed, as the schema stores
    every name) an update that names it changes nothing, and answers
    NotFoundError when its fields pass the checks. *)
Theorem deleted_vehicle_is_not_recreated {host : Host} (amb : Ambient)
    (db db' : Vehicle.collection) (gone : Vehicle.t) (req : VehicleRequest) :
  NoDup (map Vehicle.name db) ->
  deleteVehicleByName db (Vehicle.name gone) = (deleted gone, db')
  \/ (deleteVehicle db (Vehicle._id gone) = (deleted gone, db')
      /\ trim (Vehicle.name gone) = Vehicle.name gone) ->
  reqName req = Some (Vehicle.name gone) ->
  snd (updateVehicle amb db' req) = db'
  /\ (Vehicle.name gone <> [] -> coordinatesPass req = true ->
      updateVehicle amb db' req = (notFound (Vehicle.name gone), db')).
Proof.
  intros U D N.
  assert (G : Vehicle.findOne (Vehicle.name gone) db' = None).
  { destruct D as [D|[D Tr]].
    - unfold deleteVehicleByName in D.
      destruct (Vehicle.findOne (Vehicle.name gone) db) as [first|] eqn:F;
        [|discriminate].
      destruct (StoreFacts.deleteOne_split _ db first F)
        as (before & after & E & R & _).
      destruct (VehicleFacts.findOne_Some _ db first F) as [_ Q].
      apply pair_equal_spec in D as [Q' D]. apply deleted_name in Q'.
      rewrite <- D, R.
      apply (StoreFacts.unique_name_gone _ before after first);
        [now rewrite <- E|congruence].
    - unfold deleteVehicle in D.
      destruct (Vehicle.findById (Vehicle._id gone) db) as [first|] eqn:F;
        [|discriminate].
      destruct (StoreFacts.deleteById_split _ db first F)
        as (before & after & E & R & _).
      apply pair_equal_spec in D as [Q D].
      apply deleted_name in Q. rewrite <- D, R.
      apply (StoreFacts.unique_name_gone _ before after first);
        [now rewrite <- E|congruence]. }
  split.
  - apply update_unknown_keeps_store. now rewrite N.
  - intros T P. rewrite (update_checked amb db' req); [| |exact P].
    2: { apply StrFacts.missing_false. now exists (Vehicle.name gone). }
    cbv zeta. rewrite N. cbn [text]. now rewrite G.
Qed.

Lemma deleted_vehicle_is_not_recreated_witness :
  updateVehicle (host := numericHost) Sample.later [Sample.car1]
    (Sample.at_ "Bus" 11 21)
  = (notFound (lit "Bus"), [Sample.car1]).
Proof.
  refine (proj2 (deleted_vehicle_is_not_recreated (host := numericHost)
                   Sample.later [Sample.car1; Sample.bus] [Sample.car1]
                   Sample.bus (Sample.at_ "Bus" 11 21) _
                   (or_introl eq_refl) eq_refl) _ eq_refl).
  - cbn. repeat constructor; cbn; intuition discriminate.
  - discriminate.
Defined.

(** Why the name of a vehicle deleted by identifier has to be stored
    trimmed: a name stored with white space around it trims to a name
    another vehicle may bear, and the update then finds that one. *)
Example update_after_delete_of_padded_name :
  let db' := snd (deleteVehicle [Sample.padded; Sample.bus] 5) in
  db' = [Sample.bus]
  /\ status (fst (updateVehicle (host := numericHost) Sample.later db'
                    (Sample.at_ " Bus " 11 21))) = 200.
Proof. split; reflexivity. Qed.

(** X8. Deleting a vehicle right after the create that stored it gives
    back the collection as it was before the create: by its name, and, if
    its identifier was not in use, by its identifier. *)
Theorem create_then_delete_restores_store {host : Host} (amb : Ambient)
    (db db' : Vehicle.collection) (req : VehicleRequest) (res : response) :
  createVehicle amb db req = (res, db') -> status res = 201 ->
  exists v,
    field (body res) "vehicle" = Some (Vehicle.toJSON v)
    /\ deleteVehicleByName db' (Vehicle.name v) = (deleted v, db)
    /\ (~ In (freshId amb) (map Vehicle._id db) ->
        deleteVehicle db' (Vehicle._id v) = (deleted v, db)).
Proof.
  intros E S.
  destruct (create_succeeded amb db db' req res E S)
    as (M & P & N & T & D & Q).
  set (v := Vehicle.new amb (trim (text (reqName req)))
              (parseFloat (reqLat req)) (parseFloat (reqLng req))) in *.
  exists v. split; [|split].
  - rewrite (create_checked amb db req M P) in E. cbv zeta in E.
    rewrite N in E. fold v in E.
    destruct (Vehicle.insertOne v db); injection E as <- _; [reflexivity|].
    discriminate.
  - assert (Q' : Vehicle.name v = trim (trim (text (reqName req))))
      by now rewrite StrFacts.trim_idem.
    unfold deleteVehicleByName. rewrite D, Q.
    rewrite (VehicleFacts.findOne_app_None _ db v N Q').
    now rewrite (StoreFacts.deleteOne_app_last _ db v N Q').
  - intros F. unfold deleteVehicle. rewrite D.
    change (Vehicle._id v) with (freshId amb).
    rewrite (StoreFacts.findById_app_fresh _ db v F eq_refl).
    now rewrite (StoreFacts.deleteById_app_last _ db v F eq_refl).
Qed.

Lemma create_then_delete_restores_store_witness :
  let out := createVehicle (host := numericHost) Sample.amb
               [Sample.car1; Sample.bus] (Sample.at_ " Car-2 " 10 20) in
  exists v,
    field (body (fst out)) "vehicle" = Some (Vehicle.toJSON v)
    /\ deleteVehicleByName (snd out) (Vehicle.name v)
       = (deleted v, [Sample.car1; Sample.bus])
    /\ (~ In 7 (map Vehicle._id [Sample.car1; Sample.bus]) ->
        deleteVehicle (snd out) (Vehicle._id v)
        = (deleted v, [Sample.car1; Sample.bus])).
Proof.
  exact (create_then_delete_restores_store (host := numericHost) Sample.amb
           [Sample.car1; Sample.bus] _ (Sample.at_ " Car-2 " 10 20) _
           eq_refl eq_refl).
Defined.

Lemma delete_by_name_removes_first_match_witness :
  exists first before after,
    [Sample.car1; Sample.bus; Sample.stray] = before ++ first :: after
    /\ Vehicle.name first = lit "Bus"
    /\ (forall w, In w before -> Vehicle.name w <> lit "Bus")
    /\ deleteVehicleByName [Sample.car1; Sample.bus; Sample.stray]
         (lit " Bus ")
       = (deleted first, before ++ after)
    /\ field (body (deleted first)) "deletedVehicle"
       = Some (Vehicle.toJSON first).
Proof.
  apply (proj2 (delete_by_name_removes_first_match
                  [Sample.car1; Sample.bus; Sample.stray] (lit " Bus "))
           Sample.bus).
  - right. now left.
  - reflexivity.
Defined.

(* ================================================================== *)
(** * What the writing routes keep *)
(* ================================================================== *)

(** X9. The routes keep names and identifiers unique: from a collection
    in which no two vehicles share a name or an identifier, a create, an
    update and either delete leave such a collection (for the create, as
    far as identifiers go, when the identifier it draws is not in use). *)
Theorem routes_keep_names_and_ids_unique {host : Host} (amb : Ambient)
    (db : Vehicle.collection) (req : VehicleRequest) (n : jsstring)
    (id : ObjectId) :
  NoDup (map Vehicle.name db) -> NoDup (map Vehicle._id db) ->
  NoDup (map Vehicle.name (snd (createVehicle amb db req)))
  /\ (~ In (freshId amb) (map Vehicle._id db) ->
      NoDup (map Vehicle._id (snd (createVehicle amb db req))))
  /\ NoDup (map Vehicle.name (snd (updateVehicle amb db req)))
  /\ NoDup (map Vehicle._id (snd (updateVehicle amb db req)))
  /\ NoDup (map Vehicle.name (snd (deleteVehicleByName db n)))
  /\ NoDup (map Vehicle._id (snd (deleteVehicleByName db n)))
  /\ NoDup (map Vehicle.name (snd (deleteVehicle db id)))
  /\ NoDup (map Vehicle._id (snd (deleteVehicle db id))).
Proof.
  intros UN UI.
  assert (R : forall before after (v : Vehicle.t),
             db = before ++ v :: after ->
             NoDup (map Vehicle.name (before ++ after))
             /\ NoDup (map Vehicle._id (before ++ after))).
  { intros before after v E. rewrite E, map_app in UN, UI. cbn [map] in UN, UI.
    rewrite !map_app. split; eapply NoDup_remove_1; eassumption. }
  repeat split.
  - destruct (create_store amb db req) as [->|[F ->]]; [exact UN|].
    rewrite map_app. cbn [map Vehicle.new Vehicle.name].
    rewrite StrFacts.trim_idem.
    apply StoreFacts.NoDup_snoc; [exact UN|].
    intros I. apply in_map_iff in I as (w & E & I).
    rewrite VehicleFacts.findOne_trim in F.
    apply VehicleFacts.findOne_None with (v := w) in F; tauto.
  - intros F. destruct (create_store amb db req) as [->|[_ ->]]; [exact UI|].
    rewrite map_app. cbn [map Vehicle.new Vehicle._id].
    now apply StoreFacts.NoDup_snoc.
  - destruct (update_store amb db req) as [->|(v & date & F & ->)];
      [exact UN|].
    destruct (StoreFacts.findOne_split _ db v F) as (before & after & E & _).
    rewrite E in UI |- *. rewrite StoreFacts.replaceOne_at; [|exact UI|reflexivity].
    rewrite E in UN. rewrite map_app in UN |- *. exact UN.
  - now rewrite update_keeps_ids.
  - unfold deleteVehicleByName.
    destruct (Vehicle.findOne n db) as [v|] eqn:F; [|exact UN].
    destruct (StoreFacts.deleteOne_split n db v F) as (b & a & E & -> & _).
    exact (proj1 (R b a v E)).
  - unfold deleteVehicleByName.
    destruct (Vehicle.findOne n db) as [v|] eqn:F; [|exact UI].
    destruct (StoreFacts.deleteOne_split n db v F) as (b & a & E & -> & _).
    exact (proj2 (R b a v E)).
  - unfold deleteVehicle.
    destruct (Vehicle.findById id db) as [v|] eqn:F; [|exact UN].
    destruct (StoreFacts.deleteById_split id db v F) as (b & a & E & -> & _).
    exact (proj1 (R b a v E)).
  - unfold deleteVehicle.
    destruct (Vehicle.findById id db) as [v|] eqn:F; [|exact UI].
    destruct (StoreFacts.deleteById_split id db v F) as (b & a & E & -> & _).
    exact (proj2 (R b a v E)).
Qed.

Lemma routes_keep_names_and_ids_unique_witness :
  NoDup (map Vehicle.name
           (snd (createVehicle (host := numericHost) Sample.amb
                   [Sample.car1; Sample.bus] (Sample.at_ "Car-2" 10 20))))
  /\ NoDup (map Vehicle.name
              (snd (updateVehicle (host := numericHost) Sample.amb
                      [Sample.car1; Sample.bus] (Sample.at_ "Bus" 10 20)))).
Proof.
  assert (UN : NoDup (map Vehicle.name [Sample.car1; Sample.bus]))
    by (cbn; repeat constructor; cbn; intuition discriminate).
  assert (UI : NoDup (map Vehicle._id [Sample.car1; Sample.bus]))
    by (cbn; repeat constructor; cbn; intuition discriminate).
  split.
  - exact (proj1 (routes_keep_names_and_ids_unique (host := numericHost)
                    Sample.amb [Sample.car1; Sample.bus]
                    (Sample.at_ "Car-2" 10 20) [] 0 UN UI)).
  - exact (proj1 (proj2 (proj2
             (routes_keep_names_and_ids_unique (host := numericHost)
                Sample.amb [Sample.car1; Sample.bus]
                (Sample.at_ "Bus" 10 20) [] 0 UN UI)))).
Defined.

(** X10. With unique identifiers, a successful update rewrites one
    document where it stands: it is the first that bears the name of the
    request once that name is trimmed, the documents before and after it
    stay as they were and in their order, and the document keeps its
    identifier, its name and its [createdAt] while [updatedAt] is set. *)
Theorem update_replaces_in_place {host : Host} (amb : Ambient)
    (db db' : Vehicle.collection) (req : VehicleRequest) (res : response) :
  NoDup (map Vehicle._id db) ->
  updateVehicle amb db req = (res, db') -> status res = 200 ->
  exists before vehicle vehicle' after,
    db = before ++ vehicle :: after
    /\ db' = before ++ vehicle' :: after
    /\ (forall w, In w before ->
          Vehicle.name w <> trim (text (reqName req)))
    /\ Vehicle.name vehicle = trim (text (reqName req))
    /\ field (body res) "vehicle" = Some (Vehicle.toJSON vehicle')
    /\ Vehicle._id vehicle' = Vehicle._id vehicle
    /\ Vehicle.name vehicle' = Vehicle.name vehicle
    /\ Vehicle.createdAt vehicle' = Vehicle.createdAt vehicle
    /\ Vehicle.updatedAt vehicle' = atSave amb.
Proof.
  intros U E S.
  destruct (update_succeeded amb db db' req res E S)
    as (vehicle & date & _ & _ & F & _ & D & R).
  destruct (StoreFacts.findOne_split _ db vehicle F)
    as (before & after & B & A).
  destruct (VehicleFacts.findOne_Some _ db vehicle F) as [_ N].
  exists before, vehicle,
    (moved amb vehicle (parseFloat (reqLat req)) (parseFloat (reqLng req)) date),
    after.
  split; [exact B|]. split.
  - rewrite D, B. apply StoreFacts.replaceOne_at; [now rewrite <- B|reflexivity].
  - split; [now apply VehicleFacts.findOne_None|].
    split; [exact N|]. rewrite R. now repeat split.
Qed.

Lemma update_replaces_in_place_witness :
  let out := updateVehicle (host := numericHost) Sample.later
               [Sample.car1; Sample.bus; Sample.stray]
               (Sample.at_ " Bus " 11 21) in
  exists before vehicle vehicle' after,
    [Sample.car1; Sample.bus; Sample.stray] = before ++ vehicle :: after
    /\ snd out = before ++ vehicle' :: after
    /\ (forall w, In w before -> Vehicle.name w <> lit "Bus")
    /\ Vehicle.name vehicle = lit "Bus"
    /\ field (body (fst out)) "vehicle" = Some (Vehicle.toJSON vehicle')
    /\ Vehicle._id vehicle' = Vehicle._id vehicle
    /\ Vehicle.name vehicle' = Vehicle.name vehicle
    /\ Vehicle.createdAt vehicle' = Vehicle.createdAt vehicle
    /\ Vehicle.updatedAt vehicle' = 1700000005002%Z.
Proof.
  refine (update_replaces_in_place (host := numericHost) Sample.later
            [Sample.car1; Sample.bus; Sample.stray] _
            (Sample.at_ " Bus " 11 21) _ _ eq_refl eq_refl).
  cbn. repeat constructor; cbn; intuition discriminate.
Defined.

(** X11. After an update that carries no usable [lastUpdated] and is
    served at a time later than every stored [lastUpdated], the moved
    vehicle is the first element of the list [GET /] answers. *)
Theorem updated_vehicle_heads_list {host : Host} (amb : Ambient)
    (db db' : Vehicle.collection) (req : VehicleRequest) (res : response) :
  updateVehicle amb db req = (res, db') -> status res = 200 ->
  truthy (reqLastUpdated req) = false ->
  (forall w, In w db -> (Vehicle.lastUpdated w < atLastUpdated amb)%Z) ->
  exists vehicle' rest,
    field (body res) "vehicle" = Some (Vehicle.toJSON vehicle')
    /\ In vehicle' db'
    /\ listVehicles db'
       = {| status := 200;
            body := JArr (listed vehicle' :: map listed rest) |}.
Proof.
  intros E S T L.
  destruct (update_succeeded amb db db' req res E S)
    as (vehicle & date & _ & P & F & A & D & R).
  rewrite T in A. injection A as <-.
  set (v' := moved amb vehicle (parseFloat (reqLat req))
               (parseFloat (reqLng req)) (atLastUpdated amb)) in *.
  destruct (VehicleFacts.findOne_Some _ db vehicle F) as [I _].
  assert (I' : In v' db').
  { rewrite D. now apply (VehicleFacts.In_replaceOne v' vehicle db). }
  assert (V : storedCoordinatesValid v' = true)
    by exact (passed_stored_valid req v' P eq_refl eq_refl).
  pose proof (proj2 (shown_In db' v') (conj I' V)) as Sh.
  pose proof (SortFacts.filter_sorted storedCoordinatesValid _
                (SortFacts.findSorted_sorted db')) as So.
  rewrite listVehicles_shown.
  destruct (filter storedCoordinatesValid (Vehicle.findSorted db'))
    as [|a rest] eqn:Q; [destruct Sh|].
  exists v', rest. split; [now rewrite R|]. split; [exact I'|].
  assert (a = v') as ->; [|reflexivity].
  apply (StoreFacts.latest_is_first a v' rest So Sh).
  intros w W. rewrite <- Q in W. apply shown_In in W as [W _].
  rewrite D in W. apply VehicleFacts.replaceOne_In in W as [W|W];
    [now left|right].
  exact (L w W).
Qed.

Lemma updated_vehicle_heads_list_witness :
  let out := updateVehicle (host := numericHost) Sample.later
               [Sample.car1; Sample.bus; Sample.stray]
               (Sample.at_ "Car-1" 11 21) in
  exists vehicle' rest,
    field (body (fst out)) "vehicle" = Some (Vehicle.toJSON vehicle')
    /\ In vehicle' (snd out)
    /\ listVehicles (host := numericHost) (snd out)
       = {| status := 200;
            body := JArr (listed vehicle' :: map listed rest) |}.
Proof.
  refine (updated_vehicle_heads_list (host := numericHost) Sample.later
            [Sample.car1; Sample.bus; Sample.stray] _
            (Sample.at_ "Car-1" 11 21) _ eq_refl eq_refl eq_refl _).
  intros w [<-|[<-|[<-|[]]]]; reflexivity.
Defined.

(** X12. A name of white space only passes the presence check of the
    create route and is refused by the schema when the document is
    saved: the route answers 500 and stores nothing. *)
Theorem blank_name_is_refused_at_save {host : Host} (amb : Ambient)
    (db : Vehicle.collection) (req : VehicleRequest) (n : jsstring) :
  reqName req = Some n -> n <> [] -> trim n = [] ->
  coordinatesPass req = true ->
  (forall w, In w db -> Vehicle.name w <> []) ->
  createVehicle amb db req
  = ({| status := 500;
        body := failure (Some [Lit "Error creating vehicle"]) |}, db).
Proof.
  intros N T B P A.
  rewrite (create_checked amb db req); [| |exact P].
  2: { apply StrFacts.missing_false. now exists n. }
  cbv zeta. rewrite N. cbn [text]. rewrite B.
  assert (F : Vehicle.findOne [] db = None)
    by (apply VehicleFacts.findOne_None; exact A).
  rewrite F.
  unfold Vehicle.insertOne, Vehicle.validates.
  reflexivity.
Qed.

Lemma blank_name_is_refused_at_save_witness :
  createVehicle (host := numericHost) Sample.amb [Sample.car1]
    (Sample.at_ "   " 10 20)
  = ({| status := 500;
        body := failure (Some [Lit "Error creating vehicle"]) |},
     [Sample.car1]).
Proof.
  refine (blank_name_is_refused_at_save (host := numericHost) Sample.amb
            [Sample.car1] (Sample.at_ "   " 10 20) (lit "   ")
            eq_refl _ eq_refl eq_refl _).
  - discriminate.
  - intros w [<-|[]]. discriminate.
Defined.

(** X13. Only success writes: a create that does not answer 201, an
    update that does not answer 200 and a delete that does not answer 200
    leave the collection as it was, while a 201 adds one document and a
    successful delete removes one; an update never changes how many
    vehicles are stored. *)
Theorem failures_write_nothing {host : Host} (amb : Ambient)
    (db : Vehicle.collection) (req : VehicleRequest) (n : jsstring)
    (id : ObjectId) :
  (status (fst (createVehicle amb db req)) <> 201 ->
   snd (createVehicle amb db req) = db)
  /\ (status (fst (createVehicle amb db req)) = 201 ->
      List.length (snd (createVehicle amb db req)) = S (List.length db))
  /\ (status (fst (updateVehicle amb db req)) <> 200 ->
      snd (updateVehicle amb db req) = db)
  /\ List.length (snd (updateVehicle amb db req)) = List.length db
  /\ (status (fst (deleteVehicleByName db n)) <> 200 ->
      snd (deleteVehicleByName db n) = db)
  /\ (status (fst (deleteVehicleByName db n)) = 200 ->
      S (List.length (snd (deleteVehicleByName db n))) = List.length db)
  /\ (status (fst (deleteVehicle db id)) <> 200 ->
      snd (deleteVehicle db id) = db)
  /\ (status (fst (deleteVehicle db id)) = 200 ->
      S (List.length (snd (deleteVehicle db id))) = List.length db).
Proof.
  split; [|split; [|split; [|split; [|split; [|split; [|split]]]]]].
  - unfold createVehicle. cbv zeta.
    destruct (missing (reqName req) || isUndefined (reqLat req)
              || isUndefined (reqLng req)); [reflexivity|].
    destruct (negb _); [reflexivity|].
    destruct (Vehicle.findOne _ db); [reflexivity|].
    destruct (Vehicle.insertOne _ db); [|reflexivity].
    cbn [fst status]. congruence.
  - intros S.
    destruct (createVehicle amb db req) as [res db'] eqn:E. cbn [fst snd] in *.
    destruct (create_succeeded amb db db' req res E S)
      as (_ & _ & _ & _ & -> & _).
    rewrite length_app. cbn [List.length]. lia.
  - unfold updateVehicle. cbv zeta.
    destruct (missing (reqName req) || isUndefined (reqLat req)
              || isUndefined (reqLng req)); [reflexivity|].
    destruct (negb _); [reflexivity|].
    destruct (Vehicle.findOne _ db); [|reflexivity].
    destruct (if truthy (reqLastUpdated req) then _ else _); [|reflexivity].
    cbn [fst status]. congruence.
  - rewrite <- (length_map Vehicle._id), update_keeps_ids.
    apply length_map.
  - unfold deleteVehicleByName.
    destruct (Vehicle.findOne n db); [|reflexivity].
    cbn [fst deleted status]. congruence.
  - unfold deleteVehicleByName.
    destruct (Vehicle.findOne n db) as [v|] eqn:F; [|discriminate].
    intros _. cbn [snd].
    destruct (StoreFacts.deleteOne_split n db v F) as (b & a & -> & -> & _).
    rewrite !length_app. cbn [List.length]. lia.
  - unfold deleteVehicle.
    destruct (Vehicle.findById id db); [|reflexivity].
    cbn [fst deleted status]. congruence.
  - unfold deleteVehicle.
    destruct (Vehicle.findById id db) as [v|] eqn:F; [|discriminate].
    intros _. cbn [snd].
    destruct (StoreFacts.deleteById_split id db v F) as (b & a & -> & -> & _).
    rewrite !length_app. cbn [List.length]. lia.
Qed.

(** X14. Every document the create and update routes write has its
    position as the last entry of its history. A create that answers 201
    appends a document whose history is the one entry at its position;
    an update that answers 200 puts, in the place of the document it
    found, a document at the position read from the request whose
    history ends with the entry of that position, whether or not the
    document it replaces had its position as last entry. Every other
    document of the collection either route leaves was there before, so
    a collection in which the property holds of every vehicle stays
    one. *)
Theorem written_position_is_last_entry {host : Host} (amb : Ambient)
    (db : Vehicle.collection) (req : VehicleRequest) :
  (forall v, In v (snd (createVehicle amb db req)) ->
     In v db \/ lastEntryIsPosition v)
  /\ (forall v, In v (snd (updateVehicle amb db req)) ->
        In v db \/ lastEntryIsPosition v)
  /\ (Forall lastEntryIsPosition db ->
      Forall lastEntryIsPosition (snd (createVehicle amb db req))
      /\ Forall lastEntryIsPosition (snd (updateVehicle amb db req)))
  /\ (status (fst (createVehicle amb db req)) = 201 ->
      exists v,
        snd (createVehicle amb db req) = db ++ [v]
        /\ field (body (fst (createVehicle amb db req))) "vehicle"
           = Some (Vehicle.toJSON v)
        /\ Vehicle.lat v = parseFloat (reqLat req)
        /\ Vehicle.lng v = parseFloat (reqLng req)
        /\ Vehicle.locationHistory v = [pushedEntry amb req]
        /\ lastEntryIsPosition v)
  /\ (status (fst (updateVehicle amb db req)) = 200 ->
      exists vehicle vehicle' kept,
        In vehicle db
        /\ snd (updateVehicle amb db req) = Vehicle.replaceOne vehicle' db
        /\ In vehicle' (snd (updateVehicle amb db req))
        /\ field (body (fst (updateVehicle amb db req))) "vehicle"
           = Some (Vehicle.toJSON vehicle')
        /\ Vehicle._id vehicle' = Vehicle._id vehicle
        /\ Vehicle.lat vehicle' = parseFloat (reqLat req)
        /\ Vehicle.lng vehicle' = parseFloat (reqLng req)
        /\ Vehicle.locationHistory vehicle' = kept ++ [pushedEntry amb req]
        /\ lastEntryIsPosition vehicle').
Proof.
  assert (C : forall v, In v (snd (createVehicle amb db req)) ->
                In v db \/ lastEntryIsPosition v).
  { intros v. destruct (create_store amb db req) as [->|[_ ->]]; [tauto|].
    rewrite in_app_iff. intros [I|[<-|[]]]; [now left|right].
    now exists [], (pushedEntry amb req). }
  assert (U : forall v, In v (snd (updateVehicle amb db req)) ->
                In v db \/ lastEntryIsPosition v).
  { intros v.
    destruct (update_store amb db req) as [->|(w & date & _ & ->)]; [tauto|].
    intros I. apply VehicleFacts.replaceOne_In in I as [->|I]; [right|now left].
    exists (sliceLast 99 (Vehicle.locationHistory w)), (pushedEntry amb req).
    split; [apply moved_history|now split]. }
  split; [exact C|]. split; [exact U|]. split.
  { intros A. rewrite Forall_forall in A.
    split; apply Forall_forall; intros v I.
    - destruct (C v I); auto.
    - destruct (U v I); auto. }
  split.
  - destruct (createVehicle amb db req) as [res db'] eqn:E. cbn [fst snd].
    intros S.
    destruct (create_succeeded amb db db' req res E S)
      as (M & P & F & T & D & V).
    exists (Vehicle.new amb (trim (text (reqName req)))
              (parseFloat (reqLat req)) (parseFloat (reqLng req))).
    split; [exact D|]. split.
    { rewrite (create_checked amb db req M P) in E. cbv zeta in E.
      rewrite F in E. unfold Vehicle.insertOne, Vehicle.validates in E.
      rewrite V in E. apply StrFacts.isEmpty_false in T. rewrite T in E.
      injection E as <- _. reflexivity. }
    do 3 (split; [reflexivity|]).
    now exists [], (pushedEntry amb req).
  - destruct (updateVehicle amb db req) as [res db'] eqn:E. cbn [fst snd].
    intros S.
    destruct (update_succeeded amb db db' req res E S)
      as (vehicle & date & M & P & F & D & -> & ->).
    destruct (VehicleFacts.findOne_Some _ _ _ F) as [I _].
    exists vehicle,
      (moved amb vehicle (parseFloat (reqLat req)) (parseFloat (reqLng req))
         date),
      (sliceLast 99 (Vehicle.locationHistory vehicle)).
    split; [exact I|]. split; [reflexivity|]. split.
    { now apply VehicleFacts.In_replaceOne with (w := vehicle). }
    do 4 (split; [reflexivity|]). split; [apply moved_history|].
    exists (sliceLast 99 (Vehicle.locationHistory vehicle)),
      (pushedEntry amb req).
    split; [apply moved_history|now split].
Qed.

(** The record [Sample.stray] has no history, so its position is not
    the last entry of it; after an update it is. *)
Lemma written_position_is_last_entry_witness :
  Forall lastEntryIsPosition [Sample.car1]
  /\ Forall lastEntryIsPosition
       (snd (createVehicle (host := numericHost) Sample.amb [Sample.car1]
               (Sample.at_ "Car-2" 10 20)))
  /\ Forall lastEntryIsPosition
       (snd (updateVehicle (host := numericHost) Sample.later [Sample.car1]
               (Sample.at_ "Car-1" 10 20)))
  /\ (~ lastEntryIsPosition Sample.stray
      /\ exists vehicle',
           snd (updateVehicle (host := numericHost) Sample.later
                  [Sample.stray] (Sample.at_ "Stray" 11 21))
           = [vehicle']
           /\ Vehicle.lat vehicle' = 11%float
           /\ Vehicle.locationHistory vehicle'
              = [pushedEntry (host := numericHost) Sample.later
                   (Sample.at_ "Stray" 11 21)]
           /\ lastEntryIsPosition vehicle').
Proof.
  assert (A : Forall lastEntryIsPosition [Sample.car1]).
  { repeat constructor.
    now exists [], {| Vehicle.entryLat := 23.8125; Vehicle.entryLng := 90.5;
                     Vehicle.timestamp := 1600000000000 |}. }
  split; [exact A|].
  split; [|split].
  - exact (proj1 (proj1 (proj2 (proj2 (written_position_is_last_entry
             (host := numericHost) Sample.amb [Sample.car1]
             (Sample.at_ "Car-2" 10 20)))) A)).
  - exact (proj2 (proj1 (proj2 (proj2 (written_position_is_last_entry
             (host := numericHost) Sample.later [Sample.car1]
             (Sample.at_ "Car-1" 10 20)))) A)).
  - split.
    { intros (kept & e & H & _). destruct kept; discriminate H. }
    destruct (proj2 (proj2 (proj2 (proj2 (written_position_is_last_entry
                (host := numericHost) Sample.later [Sample.stray]
                (Sample.at_ "Stray" 11 21))))) eq_refl)
      as (vehicle & vehicle' & kept & I & D & _ & _ & Id & La & _ & H & L).
    exists vehicle'. destruct I as [<-|[]].
    split; [|split; [exact La|split; [|exact L]]].
    + rewrite D. cbn [Vehicle.replaceOne]. now rewrite Id, Nat.eqb_refl.
    + rewrite H. f_equal.
      assert (K : List.length (Vehicle.locationHistory vehicle') = 1).
      { pose proof (VehicleFacts.In_replaceOne vehicle' Sample.stray
                      [Sample.stray] (or_introl eq_refl) (eq_sym Id)) as J.
        rewrite <- D in J. destruct J as [<-|[]]. reflexivity. }
      rewrite H, length_app in K. cbn [List.length] in K.
      destruct kept; [reflexivity|cbn [List.length] in K; lia].
Defined.

(* ================================================================== *)
(** * Round trips between the vehicle routes *)
(* ================================================================== *)

Lemma replaceOne_app_fresh (db : Vehicle.collection) (v v' : Vehicle.t) :
  ~ In (Vehicle._id v) (map Vehicle._id db) ->
  Vehicle._id v' = Vehicle._id v ->
  Vehicle.replaceOne v' (db ++ [v]) = db ++ [v'].
Proof.
  intros F E. induction db as [|w db IH]; cbn [app Vehicle.replaceOne].
  - now rewrite E, Nat.eqb_refl.
  - cbn [map In] in F. rewrite E.
    destruct (Nat.eqb_spec (Vehicle._id w) (Vehicle._id v)) as [Q|Q];
      [tauto|].
    rewrite IH; tauto.
Qed.

(** X26. With unique identifiers, the document a successful update
    answers is the one [GET /:id] serves afterwards under its
    identifier. *)
Theorem updated_vehicle_is_served {host : Host} (amb : Ambient)
    (db db' : Vehicle.collection) (req : VehicleRequest) (res : response) :
  NoDup (map Vehicle._id db) ->
  updateVehicle amb db req = (res, db') -> status res = 200 ->
  exists vehicle',
    field (body res) "vehicle" = Some (Vehicle.toJSON vehicle')
    /\ getVehicle db' (Vehicle._id vehicle')
       = {| status := 200;
            body := JObj [("success", JBool true);
                          ("vehicle", Vehicle.toJSON vehicle')]%string |}.
Proof.
  intros U E S.
  destruct (update_succeeded amb db db' req res E S)
    as (vehicle & date & _ & P & F & _ & D & R).
  set (v' := moved amb vehicle (parseFloat (reqLat req))
               (parseFloat (reqLng req)) date) in *.
  destruct (VehicleFacts.findOne_Some _ db vehicle F) as [I _].
  exists v'. split; [now rewrite R|].
  rewrite (getVehicle_found db' (Vehicle._id v') v').
  - now rewrite (passed_stored_valid req v' P eq_refl eq_refl).
  - apply StoreFacts.findById_In.
    + now rewrite D, VehicleFacts.replaceOne_ids.
    + rewrite D. now apply (VehicleFacts.In_replaceOne v' vehicle db).
Qed.

Lemma updated_vehicle_is_served_witness :
  let out := updateVehicle (host := numericHost) Sample.later
               [Sample.car1; Sample.bus] (Sample.at_ "Bus" 11 21) in
  exists vehicle',
    field (body (fst out)) "vehicle" = Some (Vehicle.toJSON vehicle')
    /\ getVehicle (host := numericHost) (snd out) (Vehicle._id vehicle')
       = {| status := 200;
            body := JObj [("success", JBool true);
                          ("vehicle", Vehicle.toJSON vehicle')]%string |}.
Proof.
  refine (updated_vehicle_is_served (host := numericHost) Sample.later
            [Sample.car1; Sample.bus] _ (Sample.at_ "Bus" 11 21) _ _
            eq_refl eq_refl).
  cbn. repeat constructor; cbn; intuition discriminate.
Defined.

(** X27. A vehicle that was created can be moved: after a create that
    answered 201 under an identifier not in use, an update that names the
    trimmed name, passes the coordinate check and carries no usable
    [lastUpdated] answers 200 and leaves the same collection with that
    vehicle at the new position, its history being the entry of the
    create followed by the entry of the update. *)
Theorem created_vehicle_can_be_updated {host : Host} (amb amb' : Ambient)
    (db db' : Vehicle.collection) (req req' : VehicleRequest)
    (res : response) (n : jsstring) :
  createVehicle amb db req = (res, db') -> status res = 201 ->
  ~ In (freshId amb) (map Vehicle._id db) ->
  reqName req = Some n -> reqName req' = Some (trim n) ->
  coordinatesPass req' = true -> truthy (reqLastUpdated req') = false ->
  exists v',
    updateVehicle amb' db' req'
    = ({| status := 200;
          body := JObj [("success", JBool true);
                        ("message",
                         JText [Lit "Vehicle updated successfully"]);
                        ("vehicle", Vehicle.toJSON v')]%string |},
       db ++ [v'])
    /\ Vehicle._id v' = freshId amb
    /\ Vehicle.name v' = trim n
    /\ Vehicle.lat v' = parseFloat (reqLat req')
    /\ Vehicle.lng v' = parseFloat (reqLng req')
    /\ Vehicle.lastUpdated v' = atLastUpdated amb'
    /\ Vehicle.locationHistory v'
       = [pushedEntry amb req; pushedEntry amb' req'].
Proof.
  intros E S Fr N N' P' T'.
  destruct (create_succeeded amb db db' req res E S)
    as (_ & _ & F & Tn & D & Q).
  rewrite N in F, Tn, D, Q. cbn [text] in F, Tn, D, Q.
  set (v := Vehicle.new amb (trim n) (parseFloat (reqLat req))
              (parseFloat (reqLng req))) in *.
  rewrite (update_checked amb' db' req'); [| |exact P'].
  2: { apply StrFacts.missing_false. now exists (trim n). }
  cbv zeta. rewrite N', T'. cbn [text]. rewrite D.
  assert (Q' : Vehicle.name v = trim (trim n))
    by now rewrite StrFacts.trim_idem.
  rewrite (VehicleFacts.findOne_app_None _ db v F Q').
  exists (moved amb' v (parseFloat (reqLat req')) (parseFloat (reqLng req'))
            (atLastUpdated amb')).
  split.
  - f_equal. now apply replaceOne_app_fresh.
  - split; [reflexivity|]. split; [exact Q|]. now repeat split.
Qed.

Lemma created_vehicle_can_be_updated_witness :
  let first := createVehicle (host := numericHost) Sample.amb [Sample.car1]
                 (Sample.at_ " Car-2 " 10 20) in
  exists v',
    snd (updateVehicle (host := numericHost) Sample.later (snd first)
           (Sample.at_ "Car-2" 11 21))
    = [Sample.car1; v']
    /\ List.length (Vehicle.locationHistory v') = 2.
Proof.
  destruct (created_vehicle_can_be_updated (host := numericHost) Sample.amb
              Sample.later [Sample.car1] _ (Sample.at_ " Car-2 " 10 20)
              (Sample.at_ "Car-2" 11 21) _ (lit " Car-2 ")
              eq_refl eq_refl
              ltac:(cbn; intuition discriminate)
              eq_refl eq_refl eq_refl eq_refl)
    as (v' & U & _ & _ & _ & _ & _ & H).
  exists v'. split; [exact (f_equal snd U)|now rewrite H].
Defined.

(** X28. With unique identifiers, deleting a vehicle by its identifier
    takes it, and only it, out of what [GET /] shows. *)
Theorem deleted_vehicle_is_not_listed {host : Host}
    (db : Vehicle.collection) (v : Vehicle.t) :
  NoDup (map Vehicle._id db) -> In v db ->
  exists shown shown',
    listVehicles db = {| status := 200; body := JArr (map listed shown) |}
    /\ listVehicles (snd (deleteVehicle db (Vehicle._id v)))
       = {| status := 200; body := JArr (map listed shown') |}
    /\ (forall w, In w shown' <-> In w shown /\ w <> v).
Proof.
  intros U I.
  exists (filter storedCoordinatesValid (Vehicle.findSorted db)),
    (filter storedCoordinatesValid
       (Vehicle.findSorted (snd (deleteVehicle db (Vehicle._id v))))).
  split; [apply listVehicles_shown|]. split; [apply listVehicles_shown|].
  pose proof (StoreFacts.findById_In db v U I) as F.
  destruct (StoreFacts.deleteById_split _ db v F)
    as (before & after & D & R & _).
  unfold deleteVehicle. rewrite F. cbn [snd]. rewrite R.
  intros w. rewrite !shown_In, D.
  rewrite D in U. pose proof (StoreFacts.unique_id_gone before after v U) as G.
  apply StoreFacts.findById_None in G.
  assert (Nv : ~ In v (before ++ after))
    by (intros J; apply G; now apply in_map).
  rewrite !in_app_iff in *. cbn [In]. split.
  - intros [J W]. split; [tauto|]. intros ->. tauto.
  - intros [[[J|[J|J]] W] Q]; try tauto. now elim Q.
Qed.

Lemma deleted_vehicle_is_not_listed_witness :
  exists shown shown',
    listVehicles (host := numericHost) [Sample.car1; Sample.bus]
    = {| status := 200; body := JArr (map listed shown) |}
    /\ listVehicles (host := numericHost)
         (snd (deleteVehicle [Sample.car1; Sample.bus] 2))
       = {| status := 200; body := JArr (map listed shown') |}
    /\ (forall w, In w shown' <-> In w shown /\ w <> Sample.bus).
Proof.
  apply (deleted_vehicle_is_not_listed (host := numericHost)
           [Sample.car1; Sample.bus] Sample.bus).
  - cbn. repeat constructor; cbn; intuition discriminate.
  - right. now left.
Defined.

(* ================================================================== *)
(** * The clients: simulator, add-vehicle form and dashboard *)
(* ================================================================== *)

(** Reading a number back twice is reading it back once. *)
Lemma readBack_idem (x : number) : readBack (readBack x) = readBack x.
Proof.
  unfold readBack. destruct (x =? 0)%float eqn:E; [reflexivity|].
  now rewrite E.
Qed.

Section Wire.

Context {host : Host}.

(** A position that passes the check is sent as it is but for the sign
    of zero, and passes the check of the route that receives it. *)
Lemma overTheWire_valid (x y : number) :
  valid (validateCoordinates (Num x) (Num y)) = true ->
  overTheWire x = Num (readBack x)
  /\ overTheWire y = Num (readBack y)
  /\ valid (validateCoordinates (Num (parseFloat (overTheWire x)))
                                (Num (parseFloat (overTheWire y)))) = true.
Proof.
  intros V. pose proof V as W.
  apply validateCoordinates_numbers in W as [[Rx Ry] _].
  apply NumFacts.between_finite in Rx; [|reflexivity|reflexivity].
  apply NumFacts.between_finite in Ry; [|reflexivity|reflexivity].
  unfold overTheWire. rewrite Rx, Ry. split; [reflexivity|].
  split; [reflexivity|].
  change (parseFloat (Num (readBack x))) with (readBack (readBack x)).
  change (parseFloat (Num (readBack y))) with (readBack (readBack y)).
  now rewrite !readBack_valid.
Qed.

(** A create request with a name that stays non-empty when trimmed and
    coordinates that pass the check is answered by the conflict or by
    201 with the stored document. *)
Lemma create_well_formed_request (amb : Ambient) (db : Vehicle.collection)
    (req : VehicleRequest) (n : jsstring) :
  reqName req = Some n -> trim n <> [] -> coordinatesPass req = true ->
  (exists existing,
     Vehicle.findOne (trim n) db = Some existing
     /\ createVehicle amb db req = (conflict n, db))
  \/ (exists v,
        (forall w, In w db -> Vehicle.name w <> trim n)
        /\ createVehicle amb db req
           = ({| status := 201;
                 body := JObj [("success", JBool true);
                               ("message",
                                JText [Lit "Vehicle added successfully"]);
                               ("vehicle", Vehicle.toJSON v)]%string |},
              db ++ [v])
        /\ Vehicle.name v = trim n
        /\ Vehicle.lat v = parseFloat (reqLat req)
        /\ Vehicle.lng v = parseFloat (reqLng req)).
Proof.
  intros N T P.
  assert (n <> []) by (intros ->; now apply T).
  rewrite (create_checked amb db req); [| |exact P].
  2: { apply StrFacts.missing_false. now exists n. }
  cbv zeta. rewrite N. cbn [text].
  destruct (Vehicle.findOne (trim n) db) as [existing|] eqn:F.
  - left. now exists existing.
  - right.
    exists (Vehicle.new amb (trim n) (parseFloat (reqLat req))
              (parseFloat (reqLng req))).
    unfold Vehicle.insertOne, Vehicle.validates.
    cbn [Vehicle.new Vehicle.name Vehicle.lat Vehicle.lng].
    rewrite StrFacts.trim_idem.
    apply StrFacts.isEmpty_false in T. rewrite T. cbn [negb].
    split; [|now repeat split].
    rewrite VehicleFacts.findOne_trim in F.
    now apply VehicleFacts.findOne_None.
Qed.

End Wire.

(** X15. The simulator never leaves the valid range: from a valid base
    position [generateRandomMovement] returns a valid position, whatever
    the random draws and the rounding, and the body posted with it
    passes the coordinate check of the update route, which therefore
    does not answer a named vehicle with a validation error. *)
Theorem simulated_move_passes_server_check {host : Host}
    (toFixed6 : number -> number) (random1 random2 baseLat baseLng : number)
    (name lastUpdated : jsstring) (amb : Ambient) (db : Vehicle.collection) :
  valid (Simulator.validateCoordinates baseLat baseLng) = true ->
  let position :=
    generateRandomMovement toFixed6 random1 random2 baseLat baseLng in
  let req := simulatorUpdate name position lastUpdated in
  valid (Simulator.validateCoordinates (fst position) (snd position)) = true
  /\ coordinatesPass req = true
  /\ (name <> [] -> status (fst (updateVehicle amb db req)) <> 400).
Proof.
  intros B position req.
  assert (V : valid (Simulator.validateCoordinates (fst position)
                       (snd position)) = true).
  { unfold position, generateRandomMovement. cbv zeta.
    destruct (valid (Simulator.validateCoordinates (toFixed6 _) (toFixed6 _)))
      eqn:E; cbn [negb fst snd]; [exact E|exact B]. }
  assert (P : coordinatesPass req = true).
  { rewrite simulator_agrees in V.
    exact (proj2 (proj2 (overTheWire_valid _ _ V))). }
  split; [exact V|]. split; [exact P|].
  intros T. rewrite (update_checked amb db req); [| |exact P].
  2: { apply StrFacts.missing_false. now exists name. }
  cbv zeta. destruct (Vehicle.findOne _ db); [|discriminate].
  destruct (if truthy (reqLastUpdated req) then _ else _); discriminate.
Qed.

Lemma simulated_move_passes_server_check_witness :
  let position := generateRandomMovement (fun x => x) 0.75 0.25 90 (-180) in
  position = (90%float, (-180)%float)
  /\ coordinatesPass (host := numericHost)
       (simulatorUpdate (lit "Bus") position (lit "2024-01-01T00:00:00.000Z"))
     = true.
Proof.
  split; [reflexivity|].
  exact (proj1 (proj2 (simulated_move_passes_server_check (host := numericHost)
           (fun x => x) 0.75 0.25 90 (-180) (lit "Bus")
           (lit "2024-01-01T00:00:00.000Z") Sample.amb [] eq_refl))).
Defined.

(** What [validateForm] has checked when it returns [true]. *)
Lemma validateForm_None {host : Host} (formData : Form.data) :
  Form.validateForm formData = None ->
  2 <= List.length (trim (Form.name formData))
  /\ Form.lat formData <> [] /\ Form.lng formData <> []
  /\ valid (validateCoordinates
              (Num (parseFloat (Str (Form.lat formData))))
              (Num (parseFloat (Str (Form.lng formData))))) = true.
Proof.
  unfold Form.validateForm. rewrite valid_formula.
  change (parseFloat (Str (Form.lat formData)))
    with (parseFloatString (Form.lat formData)).
  change (parseFloat (Str (Form.lng formData)))
    with (parseFloatString (Form.lng formData)).
  unfold Num.gt, Num.lt.
  generalize (parseFloatString (Form.lat formData)) as x.
  generalize (parseFloatString (Form.lng formData)) as y. intros y x.
  destruct (trim (Form.name formData)) as [|c [|d s]]; cbn [isEmpty];
    cbn [List.length Nat.ltb Nat.leb]; [discriminate|discriminate|].
  destruct (Form.lat formData) as [|a la]; cbn [isEmpty orb];
    [discriminate|].
  destruct (Form.lng formData) as [|b lb]; cbn [isEmpty orb];
    [discriminate|].
  destruct (is_nan x), (is_nan y), (x <? -90)%float, (90 <? x)%float,
    (y <? -180)%float, (180 <? y)%float; cbn [orb andb negb];
    intros A; try discriminate A;
    (split; [lia|split; [discriminate|split; [discriminate|reflexivity]]]).
Qed.

(** X16. [validateForm] of the add-vehicle form returns [true] exactly
    when the name has at least two characters once trimmed, both
    coordinate inputs are filled in, and the numbers read from them pass
    the coordinate check of the routes: the form tests NaN first and the
    ranges after, the routes the other way round, and both accept the
    same numbers. *)
Theorem validateForm_accepts_what_route_accepts {host : Host}
    (formData : Form.data) :
  Form.validateForm formData = None <->
  2 <= List.length (trim (Form.name formData))
  /\ Form.lat formData <> [] /\ Form.lng formData <> []
  /\ valid (validateCoordinates
              (Num (parseFloat (Str (Form.lat formData))))
              (Num (parseFloat (Str (Form.lng formData))))) = true.
Proof.
  split; [apply validateForm_None|].
  intros (L & A & B & V). apply validateCoordinates_numbers in V.
  destruct V as ([Rx Ry] & Nx & Ny).
  apply NumFacts.between_iff in Rx as (X1 & X2 & _); [|reflexivity..].
  apply NumFacts.between_iff in Ry as (Y1 & Y2 & _); [|reflexivity..].
  unfold Form.validateForm.
  destruct (trim (Form.name formData)) as [|c [|d s]];
    cbn [List.length] in L; try lia.
  cbn [isEmpty List.length Nat.ltb Nat.leb].
  apply StrFacts.isEmpty_false in A, B. rewrite A, B. cbn [orb]. cbv zeta.
  now rewrite Nx, Ny, X1, X2, Y1, Y2.
Qed.

(** X17. What the add-vehicle form submits after [validateForm]
    accepted it is never refused for its fields: the create route answers
    the conflict on the trimmed name, or 201 with a vehicle of that name
    at the position the form read. *)
Theorem accepted_form_is_created_or_conflicts {host : Host} (amb : Ambient)
    (db : Vehicle.collection) (formData : Form.data) :
  Form.validateForm formData = None ->
  let n := trim (Form.name formData) in
  (exists existing,
     Vehicle.findOne n db = Some existing
     /\ createVehicle amb db (Form.vehicleData formData) = (conflict n, db))
  \/ (exists v,
        (forall w, In w db -> Vehicle.name w <> n)
        /\ createVehicle amb db (Form.vehicleData formData)
           = ({| status := 201;
                 body := JObj [("success", JBool true);
                               ("message",
                                JText [Lit "Vehicle added successfully"]);
                               ("vehicle", Vehicle.toJSON v)]%string |},
              db ++ [v])
        /\ Vehicle.name v = n
        /\ Vehicle.lat v = readBack (parseFloat (Str (Form.lat formData)))
        /\ Vehicle.lng v = readBack (parseFloat (Str (Form.lng formData)))).
Proof.
  intros A n.
  apply validateForm_None in A as (L & _ & _ & V).
  destruct (overTheWire_valid _ _ V) as (Wx & Wy & P).
  assert (T : trim n <> []).
  { unfold n. rewrite StrFacts.trim_idem. intros E. rewrite E in L.
    cbn in L. lia. }
  destruct (create_well_formed_request amb db (Form.vehicleData formData) n
              eq_refl T P) as [(e & F & C)|(v & F & C & Nv & La & Ln)];
    unfold n in *; rewrite StrFacts.trim_idem in *.
  - left. now exists e.
  - right. exists v. cbn [Form.vehicleData reqLat reqLng] in La, Ln.
    rewrite Wx in La. rewrite Wy in Ln.
    repeat split; try assumption.
    + rewrite La. apply readBack_idem.
    + rewrite Ln. apply readBack_idem.
Qed.

Lemma accepted_form_is_created_or_conflicts_witness :
  let formData := {| Form.name := lit " Car-2 "; Form.lat := lit "10";
                     Form.lng := lit "20" |} in
  Form.validateForm (host := wholeNumberHost) formData = None
  /\ status (fst (createVehicle (host := wholeNumberHost) Sample.amb
                    [Sample.car1]
                    (Form.vehicleData (host := wholeNumberHost) formData)))
     = 201.
Proof.
  split; [reflexivity|].
  destruct (accepted_form_is_created_or_conflicts (host := wholeNumberHost)
              Sample.amb [Sample.car1]
              {| Form.name := lit " Car-2 "; Form.lat := lit "10";
                 Form.lng := lit "20" |} eq_refl)
    as [(e & F & _)|(v & _ & C & _)].
  - discriminate F.
  - reflexivity.
Defined.

(** X18. Every element of the list [GET /] answers carries its position
    as numbers under [latitude] and [longitude] (and the same numbers
    under [lat] and [lng]), and these numbers, as the dashboard receives
    them, pass its [isValidCoordinate]: the filter of [fetchVehicles]
    drops no vehicle the route listed. *)
Theorem listed_vehicles_pass_dashboard_filter {host : Host}
    (db : Vehicle.collection) (elements : list json) (j : json) :
  body (listVehicles db) = JArr elements -> In j elements ->
  exists x y,
    field j "latitude" = Some (JNum x)
    /\ field j "longitude" = Some (JNum y)
    /\ field j "lat" = Some (JNum x)
    /\ field j "lng" = Some (JNum y)
    /\ overTheWire x = Num x /\ overTheWire y = Num y
    /\ Dashboard.isValidCoordinate (overTheWire x) (overTheWire y) = true.
Proof.
  rewrite listVehicles_shown. cbn [body]. intros [= <-] I.
  apply in_map_iff in I as (v & <- & I). apply shown_In in I as [_ V].
  exists (readBack (Vehicle.lat v)), (readBack (Vehicle.lng v)).
  do 4 (split; [reflexivity|]).
  unfold storedCoordinatesValid in V. rewrite <- readBack_valid in V.
  destruct (overTheWire_valid _ _ V) as (Wx & Wy & _).
  rewrite Wx, Wy, !readBack_idem. split; [reflexivity|].
  split; [reflexivity|]. now rewrite dashboard_agrees.
Qed.

Lemma listed_vehicles_pass_dashboard_filter_witness :
  exists x y,
    field (listed Sample.car1) "latitude" = Some (JNum x)
    /\ field (listed Sample.car1) "longitude" = Some (JNum y)
    /\ field (listed Sample.car1) "lat" = Some (JNum x)
    /\ field (listed Sample.car1) "lng" = Some (JNum y)
    /\ overTheWire x = Num x /\ overTheWire y = Num y
    /\ Dashboard.isValidCoordinate (overTheWire x) (overTheWire y) = true.
Proof.
  apply (listed_vehicles_pass_dashboard_filter (host := numericHost)
           [Sample.stray; Sample.car1] [listed Sample.car1]
           (listed Sample.car1) eq_refl).
  now left.
Defined.

(** X19. What [handleAddVehicle] of the dashboard posts is a well-formed
    create request: a trimmed name that is not empty and differs, also
    in case, from every name the dashboard holds, with coordinates that
    pass the check of the route. The route answers it with the conflict
    or 201, and with 201 when the dashboard holds the name of every
    stored vehicle. *)
Theorem dashboard_submission_is_well_formed {host : Host}
    (toLowerCase : jsstring -> jsstring) (vehicles : list jsstring)
    (newVehicle : Form.data) (req : VehicleRequest) (amb : Ambient)
    (db : Vehicle.collection) :
  handleAddVehicle toLowerCase vehicles newVehicle = Posted req ->
  let n := trim (Form.name newVehicle) in
  reqName req = Some n /\ n <> []
  /\ (forall v, In v vehicles -> toLowerCase v <> toLowerCase n)
  /\ coordinatesPass req = true
  /\ (createVehicle amb db req = (conflict n, db)
      \/ status (fst (createVehicle amb db req)) = 201)
  /\ ((forall w, In w db -> In (Vehicle.name w) vehicles) ->
      status (fst (createVehicle amb db req)) = 201).
Proof.
  intros H n. unfold handleAddVehicle in H. cbv zeta in H. fold n in H.
  destruct (isEmpty n) eqn:E; [discriminate|].
  destruct (existsb _ vehicles) eqn:X; [discriminate|].
  destruct (Dashboard.isValidCoordinate _ _) eqn:V; [|discriminate].
  cbn [negb] in H. injection H as H.
  apply StrFacts.isEmpty_false in E.
  assert (L : forall v, In v vehicles -> toLowerCase v <> toLowerCase n).
  { intros v I Q. apply Bool.not_true_iff_false in X. apply X.
    apply existsb_exists. exists v. split; [exact I|].
    now apply StrFacts.eqb_eq. }
  rewrite dashboard_agrees in V.
  destruct (overTheWire_valid _ _ V) as (_ & _ & P).
  assert (T : trim n <> [])
    by (unfold n; now rewrite StrFacts.trim_idem).
  assert (N : reqName req = Some n) by now rewrite <- H.
  assert (P' : coordinatesPass req = true) by (rewrite <- H; exact P).
  destruct (create_well_formed_request amb db req n N T P')
    as [(e & F & C)|(v & F & C & _)].
  - do 4 (split; [assumption || reflexivity|]). split; [now left|].
    intros A. exfalso.
    unfold n in F. rewrite StrFacts.trim_idem in F. fold n in F.
    destruct (VehicleFacts.findOne_Some _ db e F) as [I Q].
    apply (L (Vehicle.name e) (A e I)). rewrite Q. unfold n.
    now rewrite StrFacts.trim_idem.
  - do 4 (split; [assumption || reflexivity|]).
    split; [right|intros _]; now rewrite C.
Qed.

Lemma dashboard_submission_is_well_formed_witness :
  let newVehicle := {| Form.name := lit " Car-2 "; Form.lat := lit "10";
                       Form.lng := lit "20" |} in
  exists req,
    handleAddVehicle (host := wholeNumberHost) (fun s => s) [lit "Car-1"]
      newVehicle = Posted req
    /\ status (fst (createVehicle (host := wholeNumberHost) Sample.amb
                      [Sample.car1] req)) = 201.
Proof.
  eexists. split; [reflexivity|].
  refine (proj2 (proj2 (proj2 (proj2 (proj2
            (dashboard_submission_is_well_formed (host := wholeNumberHost)
               (fun s => s) [lit "Car-1"]
               {| Form.name := lit " Car-2 "; Form.lat := lit "10";
                  Form.lng := lit "20" |} _ Sample.amb [Sample.car1]
               eq_refl))))) _).
  intros w [<-|[]]. now left.
Defined.

(* ================================================================== *)
(** * More on the user routes: duplicates and round trips *)
(* ================================================================== *)

Section UserSteps.

Context {host : Host}.

Lemma findOneOr_None (u e : jsstring) (db : User.collection) :
  User.findOneOr u e db = None <->
  forall x, In x db -> User.username x <> u /\ User.email x <> e.
Proof.
  unfold User.findOneOr. split.
  - intros F x I. pose proof (find_none _ _ F x I) as H. cbn beta in H.
    apply Bool.orb_false_iff in H as [A B].
    now split; apply StrFacts.eqb_neq.
  - intros A. induction db as [|y db IH]; [reflexivity|]. cbn [find].
    destruct (A y (or_introl eq_refl)) as [Hu He].
    apply StrFacts.eqb_neq in Hu, He. rewrite Hu, He. cbn [orb].
    apply IH. intros x I. apply A. now right.
Qed.

Lemma findOneOr_Some (u e : jsstring) (db : User.collection) (x : User.t) :
  User.findOneOr u e db = Some x ->
  In x db /\ (User.username x = u \/ User.email x = e).
Proof.
  unfold User.findOneOr. intros F. apply find_some in F as [I H].
  split; [exact I|]. apply Bool.orb_true_iff in H as [H|H];
    [left|right]; now apply StrFacts.eqb_eq.
Qed.

Lemma findOneOr_last (u e : jsstring) (db : User.collection) (x : User.t) :
  (forall y, In y db -> User.username y <> u /\ User.email y <> e) ->
  User.username x = u \/ User.email x = e ->
  User.findOneOr u e (db ++ [x]) = Some x.
Proof.
  unfold User.findOneOr. intros A M.
  induction db as [|y db IH]; cbn [app find].
  - assert (JSString.eqb (User.username x) u
            || JSString.eqb (User.email x) e = true) as ->; [|reflexivity].
    apply Bool.orb_true_iff.
    destruct M; [left|right]; now apply StrFacts.eqb_eq.
  - destruct (A y (or_introl eq_refl)) as [Hu He].
    apply StrFacts.eqb_neq in Hu, He. rewrite Hu, He. cbn [orb].
    apply IH. intros z I. apply A. now right.
Qed.

Lemma userFindOne_last (u : jsstring) (db : User.collection) (x : User.t) :
  (forall y, In y db -> User.username y <> u) -> User.username x = u ->
  User.findOne u (db ++ [x]) = Some x.
Proof.
  unfold User.findOne. intros A M.
  induction db as [|y db IH]; cbn [app find].
  - apply StrFacts.eqb_eq in M. now rewrite M.
  - pose proof (A y (or_introl eq_refl)) as Hu.
    apply StrFacts.eqb_neq in Hu. rewrite Hu.
    apply IH. intros z I. apply A. now right.
Qed.

(** A registration answered 201 passed the checks, found no user of
    the name or the address, and appended the user it answers. *)
Lemma register_succeeded (amb : Ambient) (db : User.collection)
    (req : UserRequest) :
  status (fst (register amb db req)) = 201 ->
  let user :=
    {| User._id := freshId amb;
       User.username := text (reqUsername req);
       User.email := text (reqEmail req);
       User.password := bcryptHash (salt amb) 12 (text (reqPassword req));
       User.createdAt := atSave amb;
       User.updatedAt := atSave amb |} in
  missing (reqUsername req) = false /\ missing (reqPassword req) = false
  /\ User.findOneOr (text (reqUsername req)) (text (reqEmail req)) db = None
  /\ register amb db req
     = ({| status := 201;
           body := JObj [("success", JBool true);
                         ("message", JText [Lit "User registered successfully"]);
                         ("user", publicUser user)]%string |},
        db ++ [user]).
Proof.
  unfold register. cbv zeta.
  destruct (missing (reqUsername req)) eqn:Mu; [discriminate|].
  destruct (missing (reqEmail req)) eqn:Me; [discriminate|].
  destruct (missing (reqPassword req)) eqn:Mp; [discriminate|].
  cbn [orb].
  destruct (List.length (text (reqPassword req)) <? 6)%nat; [discriminate|].
  destruct (List.length (text (reqUsername req)) <? 3)%nat; [discriminate|].
  destruct (User.findOneOr _ _ db) eqn:F; [discriminate|].
  intros _. now repeat split.
Qed.

(** The register route leaves the collection as it was unless it
    answers 201. *)
Lemma register_store (amb : Ambient) (db : User.collection)
    (req : UserRequest) :
  status (fst (register amb db req)) <> 201 ->
  snd (register amb db req) = db.
Proof.
  unfold register. cbv zeta.
  destruct (missing (reqUsername req) || missing (reqEmail req)
            || missing (reqPassword req)); [reflexivity|].
  destruct (List.length (text (reqPassword req)) <? 6)%nat; [reflexivity|].
  destruct (List.length (text (reqUsername req)) <? 3)%nat; [reflexivity|].
  destruct (User.findOneOr _ _ db); [reflexivity|].
  cbn [fst status]. congruence.
Qed.

End UserSteps.

(** The hash of [numericHost] is accepted for the password it was made
    from. *)
Lemma numericHost_accepts_own_hash (s : jsstring) (rounds : nat)
    (p : jsstring) :
  bcryptCompare (Host := numericHost) p
    (bcryptHash (Host := numericHost) s rounds p) = true.
Proof.
  cbn [bcryptCompare bcryptHash numericHost]. rewrite length_app.
  replace (List.length s + List.length p - List.length p)
    with (List.length s + 0) by lia.
  rewrite skipn_app, Nat.add_0_r, skipn_all.
  replace (List.length s - List.length s) with 0 by lia.
  cbn [app skipn]. apply StrFacts.eqb_refl.
Qed.

(** X20. A registration that passes the input checks while a stored
    user has its username or its email is refused with status 400 and
    stores nothing; the message names the username when no stored user
    has the email, the email when no stored user has the username, and
    otherwise goes by the first stored user that has either. *)
Theorem register_duplicate_is_refused {host : Host} (amb : Ambient)
    (db : User.collection) (req : UserRequest) (existing : User.t) :
  missing (reqUsername req) = false -> missing (reqEmail req) = false ->
  6 <= List.length (text (reqPassword req)) ->
  3 <= List.length (text (reqUsername req)) ->
  In existing db ->
  User.username existing = text (reqUsername req)
  \/ User.email existing = text (reqEmail req) ->
  status (fst (register amb db req)) = 400
  /\ snd (register amb db req) = db
  /\ (exists first,
        User.findOneOr (text (reqUsername req)) (text (reqEmail req)) db
        = Some first
        /\ body (fst (register amb db req))
           = refusal (if JSString.eqb (User.username first)
                           (text (reqUsername req))
                      then "Username already exists"
                      else "Email already exists"))
  /\ ((forall x, In x db -> User.email x <> text (reqEmail req)) ->
      body (fst (register amb db req)) = refusal "Username already exists")
  /\ ((forall x, In x db -> User.username x <> text (reqUsername req)) ->
      body (fst (register amb db req)) = refusal "Email already exists").
Proof.
  intros Mu Me Lp Lu I D.
  rewrite (register_checked amb db req Mu Me Lp Lu).
  destruct (User.findOneOr _ _ db) as [first|] eqn:F.
  - cbn [fst snd status body]. split; [reflexivity|]. split; [reflexivity|].
    destruct (findOneOr_Some _ _ db first F) as [If M].
    split; [now exists first|]. split.
    + intros A. destruct M as [M|M]; [|now elim (A first If)].
      apply StrFacts.eqb_eq in M. now rewrite M.
    + intros A.
      destruct (JSString.eqb (User.username first) (text (reqUsername req)))
        eqn:Q; [|reflexivity].
      apply StrFacts.eqb_eq in Q. now elim (A first If).
  - exfalso. rewrite findOneOr_None in F. destruct (F existing I). tauto.
Qed.

Lemma register_duplicate_is_refused_witness :
  let req := Sample.credentials "alicia" "alice@example.org" "rabbit-hole" in
  status (fst (register (host := numericHost) Sample.amb [Sample.alice] req))
  = 400
  /\ body (fst (register (host := numericHost) Sample.amb [Sample.alice] req))
     = refusal "Email already exists".
Proof.
  pose proof (register_duplicate_is_refused (host := numericHost) Sample.amb
                [Sample.alice]
                (Sample.credentials "alicia" "alice@example.org" "rabbit-hole")
                Sample.alice eq_refl eq_refl) as H.
  cbn [Sample.credentials reqPassword reqUsername reqEmail text] in H.
  specialize (H ltac:(cbn; lia) ltac:(cbn; lia) (or_introl eq_refl)
                (or_intror eq_refl)).
  destruct H as (S & _ & _ & _ & E). split; [exact S|].
  apply E. intros x [<-|[]]. discriminate.
Defined.

(** X21. The register route keeps usernames and emails unique: from a
    collection in which no two users share a username or an email it
    leaves such a collection. *)
Theorem register_keeps_users_unique {host : Host} (amb : Ambient)
    (db : User.collection) (req : UserRequest) :
  NoDup (map User.username db) -> NoDup (map User.email db) ->
  NoDup (map User.username (snd (register amb db req)))
  /\ NoDup (map User.email (snd (register amb db req))).
Proof.
  intros Uu Ue.
  destruct (Nat.eq_dec (status (fst (register amb db req))) 201) as [S|S].
  - destruct (register_succeeded amb db req S) as (_ & _ & F & ->).
    rewrite findOneOr_None in F. cbn [snd]. rewrite !map_app.
    cbn [map User.username User.email].
    split; (apply StoreFacts.NoDup_snoc; [assumption|]);
      intros I; apply in_map_iff in I as (x & E & I);
      destruct (F x I); tauto.
  - rewrite (register_store amb db req S). now split.
Qed.

Lemma register_keeps_users_unique_witness :
  NoDup (map User.username
           (snd (register (host := numericHost) Sample.amb [Sample.alice]
                   (Sample.credentials "bob" "bob@example.org" "123456")))).
Proof.
  refine (proj1 (register_keeps_users_unique (host := numericHost) Sample.amb
                   [Sample.alice]
                   (Sample.credentials "bob" "bob@example.org" "123456")
                   _ _));
    cbn; repeat constructor; cbn; intuition discriminate.
Defined.

(** X22. A registered user can log in: where the hash function accepts
    the password a hash was made from, a registration answered 201 is
    followed by a successful login with the same username and password,
    which answers the user the registration answered, provided no
    earlier user has that username as email; and likewise with the
    email in place of the username, provided no earlier user has that
    email as username. *)
Theorem registered_user_can_log_in {host : Host} (amb : Ambient)
    (db : User.collection) (req : UserRequest) :
  (forall s rounds p, bcryptCompare p (bcryptHash s rounds p) = true) ->
  status (fst (register amb db req)) = 201 ->
  exists user,
    field (body (fst (register amb db req))) "user" = Some (publicUser user)
    /\ In user (snd (register amb db req))
    /\ ((forall x, In x db -> User.email x <> text (reqUsername req)) ->
        login (snd (register amb db req)) req
        = {| status := 200;
             body := JObj [("success", JBool true);
                           ("message", JText [Lit "Login successful"]);
                           ("user", publicUser user)]%string |})
    /\ ((forall x, In x db -> User.username x <> text (reqEmail req)) ->
        missing (reqEmail req) = false ->
        login (snd (register amb db req))
          {| reqUsername := reqEmail req; reqEmail := None;
             reqPassword := reqPassword req |}
        = {| status := 200;
             body := JObj [("success", JBool true);
                           ("message", JText [Lit "Login successful"]);
                           ("user", publicUser user)]%string |}).
Proof.
  intros B S.
  destruct (register_succeeded amb db req S) as (Mu & Mp & F & E).
  rewrite E. cbn [fst snd body].
  set (user := {| User._id := freshId amb;
                  User.username := text (reqUsername req);
                  User.email := text (reqEmail req);
                  User.password :=
                    bcryptHash (salt amb) 12 (text (reqPassword req));
                  User.createdAt := atSave amb;
                  User.updatedAt := atSave amb |}).
  rewrite findOneOr_None in F.
  exists user. split; [reflexivity|].
  split; [apply in_or_app; right; now left|]. split.
  - intros A. rewrite (login_complete _ req Mu Mp).
    rewrite (findOneOr_last _ _ db user).
    + cbn [User.password user]. now rewrite B.
    + intros y I. split; [exact (proj1 (F y I))|exact (A y I)].
    + now left.
  - intros A Me. rewrite login_complete; [|exact Me|exact Mp].
    cbn [reqUsername reqPassword].
    rewrite (findOneOr_last _ _ db user).
    + cbn [User.password user]. now rewrite B.
    + intros y I. split; [exact (A y I)|exact (proj2 (F y I))].
    + now right.
Qed.

Lemma registered_user_can_log_in_witness :
  let req := Sample.credentials "bob" "bob@example.org" "123456" in
  let out := register (host := numericHost) Sample.amb [Sample.alice] req in
  status (login (host := numericHost) (snd out) req) = 200.
Proof.
  destruct (registered_user_can_log_in (host := numericHost) Sample.amb
              [Sample.alice]
              (Sample.credentials "bob" "bob@example.org" "123456")
              numericHost_accepts_own_hash eq_refl)
    as (user & _ & _ & L & _).
  cbv zeta. rewrite L; [reflexivity|].
  intros x [<-|[]]. discriminate.
Defined.

(** X23. After a registration answered 201, the profile route answers
    the new username with the public fields the registration
    answered. *)
Theorem registered_user_has_profile {host : Host} (amb : Ambient)
    (db : User.collection) (req : UserRequest) :
  status (fst (register amb db req)) = 201 ->
  exists user,
    field (body (fst (register amb db req))) "user" = Some (publicUser user)
    /\ User.username user = text (reqUsername req)
    /\ profile (snd (register amb db req)) (text (reqUsername req))
       = {| status := 200;
            body := JObj [("success", JBool true);
                          ("user", publicUser user)]%string |}.
Proof.
  intros S.
  destruct (register_succeeded amb db req S) as (_ & _ & F & E).
  rewrite E. cbn [fst snd body]. rewrite findOneOr_None in F.
  eexists. split; [reflexivity|]. split; [reflexivity|].
  unfold profile. rewrite userFindOne_last; [reflexivity| |reflexivity].
  intros y I. exact (proj1 (F y I)).
Qed.

Lemma registered_user_has_profile_witness :
  let req := Sample.credentials "bob" "bob@example.org" "123456" in
  let out := register (host := numericHost) Sample.amb [Sample.alice] req in
  exists user,
    field (body (fst out)) "user" = Some (publicUser user)
    /\ User.username user = lit "bob"
    /\ profile (snd out) (lit "bob")
       = {| status := 200;
            body := JObj [("success", JBool true);
                          ("user", publicUser user)]%string |}.
Proof.
  exact (registered_user_has_profile (host := numericHost) Sample.amb
           [Sample.alice]
           (Sample.credentials "bob" "bob@example.org" "123456") eq_refl).
Defined.

(* ================================================================== *)
(** * What the coordinate check reports *)
(* ================================================================== *)

(** The check of two numbers never reports that they are no numbers. *)
Lemma numbers_are_numbers (x y : number) :
  error (validateCoordinates (Num x) (Num y))
  <> Some [Lit "Coordinates must be numbers"].
Proof.
  unfold validateCoordinates.
  destruct (Num.lt x (-90) || Num.gt x 90); [discriminate|].
  destruct (Num.lt y (-180) || Num.gt y 180); [discriminate|].
  destruct (is_nan x || is_nan y); discriminate.
Qed.

(** The check of two numbers of which one is NaN, the other being NaN
    or in range, reports NaN. *)
Lemma nan_is_reported (x y : number) :
  is_nan x = true \/ is_nan y = true ->
  is_nan x = true \/ Num.between (-90) 90 x = true ->
  is_nan y = true \/ Num.between (-180) 180 y = true ->
  validateCoordinates (Num x) (Num y) = reject [Lit "Coordinates cannot be NaN"].
Proof.
  intros N X Y. unfold validateCoordinates.
  assert (Num.lt x (-90) || Num.gt x 90 = false) as ->.
  { destruct X as [X|X].
    - apply NumFacts.is_nan_spec in X. unfold Num.lt, Num.gt.
      rewrite !ltb_spec, X. reflexivity.
    - apply NumFacts.between_iff in X as (A & B & _); [|reflexivity..].
      now rewrite A, B. }
  assert (Num.lt y (-180) || Num.gt y 180 = false) as ->.
  { destruct Y as [Y|Y].
    - apply NumFacts.is_nan_spec in Y. unfold Num.lt, Num.gt.
      rewrite !ltb_spec, Y. reflexivity.
    - apply NumFacts.between_iff in Y as (A & B & _); [|reflexivity..].
      now rewrite A, B. }
  assert (is_nan x || is_nan y = true) as ->; [|reflexivity].
  apply Bool.orb_true_iff. exact N.
Qed.

(** X24. The vehicle routes never answer that coordinates must be
    numbers: they hand the check what [parseFloat] returned, which is
    always a number, so that branch of [validateCoordinates] is not
    reached from a request. *)
Theorem routes_never_answer_not_numbers {host : Host} (amb : Ambient)
    (db : Vehicle.collection) (req : VehicleRequest) (id : ObjectId) :
  let notNumbers := Some (JText [Lit "Coordinates must be numbers"]) in
  field (body (fst (createVehicle amb db req))) "error" <> notNumbers
  /\ field (body (fst (updateVehicle amb db req))) "error" <> notNumbers
  /\ field (body (getVehicle db id)) "error" <> notNumbers
  /\ (forall lat lng,
        field (failure (error (validateCoordinates lat lng))) "error"
        = notNumbers <->
        ~ exists x y, lat = Num x /\ lng = Num y).
Proof.
  assert (V : forall x y,
             field (failure (error (validateCoordinates (Num x) (Num y))))
               "error"
             <> Some (JText [Lit "Coordinates must be numbers"])).
  { intros x y. pose proof (numbers_are_numbers x y) as H.
    destruct (error (validateCoordinates (Num x) (Num y))) as [m|].
    - change (Some (JText m)
              <> Some (JText [Lit "Coordinates must be numbers"])).
      intros [= Q]. apply H. now rewrite Q.
    - discriminate. }
  cbv zeta. repeat split.
  - unfold createVehicle. cbv zeta.
    destruct (missing (reqName req) || isUndefined (reqLat req)
              || isUndefined (reqLng req)); [discriminate|].
    destruct (negb _); [apply V|].
    destruct (Vehicle.findOne _ db); [discriminate|].
    destruct (Vehicle.insertOne _ db); discriminate.
  - unfold updateVehicle. cbv zeta.
    destruct (missing (reqName req) || isUndefined (reqLat req)
              || isUndefined (reqLng req)); [discriminate|].
    destruct (negb _); [apply V|].
    destruct (Vehicle.findOne _ db); [|discriminate].
    destruct (if truthy (reqLastUpdated req) then _ else _); discriminate.
  - unfold getVehicle. destruct (Vehicle.findById id db); [|discriminate].
    cbv zeta. destruct (negb _); [apply V|discriminate].
  - intros H (x & y & -> & ->). exact (V x y H).
  - intros H. destruct lat as [| |b|x|s]; try reflexivity.
    destruct lng as [| |b|y|s]; try reflexivity.
    exfalso. apply H. now exists x, y.
Qed.

(** X25. A coordinate that is present and is no number is reported as
    NaN: when the name is given, both coordinates are defined and one of
    them reads as NaN (as [null], a boolean or text that starts with no
    number does) while the other reads as NaN or lies in range, the
    create and update routes answer 400 with [Coordinates cannot be NaN]
    and store nothing. *)
Theorem unreadable_coordinate_is_reported_as_NaN {host : Host}
    (amb : Ambient) (db : Vehicle.collection) (req : VehicleRequest) :
  missing (reqName req) = false ->
  isUndefined (reqLat req) = false -> isUndefined (reqLng req) = false ->
  is_nan (parseFloat (reqLat req)) = true
  \/ is_nan (parseFloat (reqLng req)) = true ->
  is_nan (parseFloat (reqLat req)) = true
  \/ Num.between (-90) 90 (parseFloat (reqLat req)) = true ->
  is_nan (parseFloat (reqLng req)) = true
  \/ Num.between (-180) 180 (parseFloat (reqLng req)) = true ->
  createVehicle amb db req
  = ({| status := 400;
        body := failure (Some [Lit "Coordinates cannot be NaN"]) |}, db)
  /\ updateVehicle amb db req
     = ({| status := 400;
           body := failure (Some [Lit "Coordinates cannot be NaN"]) |}, db).
Proof.
  intros M A B N X Y. unfold createVehicle, updateVehicle. cbv zeta.
  rewrite M, A, B, (nan_is_reported _ _ N X Y). now split.
Qed.

Lemma unreadable_coordinate_is_reported_as_NaN_witness :
  let req := {| reqName := Some (lit "Car-2"); reqLat := Null;
                reqLng := Num 20; reqLastUpdated := Undefined |} in
  createVehicle (host := numericHost) Sample.amb [Sample.car1] req
  = ({| status := 400;
        body := failure (Some [Lit "Coordinates cannot be NaN"]) |},
     [Sample.car1]).
Proof.
  exact (proj1 (unreadable_coordinate_is_reported_as_NaN (host := numericHost)
                  Sample.amb [Sample.car1]
                  {| reqName := Some (lit "Car-2"); reqLat := Null;
                     reqLng := Num 20; reqLastUpdated := Undefined |}
                  eq_refl eq_refl eq_refl (or_introl eq_refl)
                  (or_introl eq_refl) (or_intror eq_refl))).
Defined.
